(** * Scout: health-check orchestration

    A shallow embedding of the check engine of [juststeveking/scout]
    (package [monitor]: the five checkers and the Monitor's per-service
    retry / status-tracking step; package [notify]: the status-change
    notifier; package [config]: the service list), with the properties
    its specification states about them, and of what surrounds it
    (package [tui]: the dashboard's rows, spinners and selection; package
    [cmd]: the assertion flag of [service:add]), with further properties
    read off the code.

    Conventions.  Go's [int], [int64] and [time.Duration] are [Z]; no
    arithmetic of the modelled code can overflow 64 bits except where a
    wrap-around or a saturation is written out.  [float64] is the kernel's
    binary64 [float].  A Go [error] is its message, [option error] being the
    nullable [error] interface.  Go strings are byte strings.  What the
    network, the clock and third-party libraries answer during a call is
    an explicit argument of the function that makes the call. *)

From Stdlib Require Import ZArith String Ascii List Bool Lia Floats.
From stdpp Require Import gmap strings list pretty.
Import ListNotations.

Local Open Scope string_scope.
Local Open Scope list_scope.
Local Open Scope Z_scope.

(** A Go [error] value, carried by its message. *)
Definition error : Type := string.

(** The double-quote byte (string literals cannot hold it directly). *)
Definition dquote : string := String (ascii_of_nat 34) EmptyString.

(** [fmt]'s [%d] verb on an integer. *)
Definition fmt_d (n : Z) : string := pretty n.

(* ===================================================================== *)
(** ** Package [strings] (the functions the checkers call) *)
(* ===================================================================== *)

Module strings.

Definition lowerByte (c : ascii) : ascii :=
  let n := nat_of_ascii c in
  if ((65 <=? n) && (n <=? 90))%nat then ascii_of_nat (n + 32) else c.

(** The byte [c] has the value [n]. *)
Definition isByte (n : nat) (c : ascii) : bool := (nat_of_ascii c =? n)%nat.

(** [strings.ToLower], up to what a comparison of its result with ASCII
    text can tell, which is all the code does with it.  ASCII letters
    are lowered.  The two letters outside ASCII whose lower case is an
    ASCII letter are replaced by it: U+0130, the bytes C4 B0, by i, and
    U+212A (the Kelvin sign), the bytes E2 84 AA, by k; C4 and E2 are
    leading bytes, which no decoding takes for the continuation of an
    earlier sequence, so these bytes are these letters wherever they
    occur.  Every other byte from 128 on is kept, where Go writes the
    lower case of the letter, or U+FFFD for a byte that is not UTF-8:
    in both cases bytes from 128 on. *)
Fixpoint ToLower (s : string) : string :=
  match s with
  | EmptyString => EmptyString
  | String c rest =>
      match rest with
      | String d rest2 =>
          if isByte 196 c && isByte 176 d then String "i" (ToLower rest2)
          else
            match rest2 with
            | String e rest3 =>
                if isByte 226 c && isByte 132 d && isByte 170 e
                then String "k" (ToLower rest3)
                else String (lowerByte c) (ToLower rest)
            | EmptyString => String (lowerByte c) (ToLower rest)
            end
      | EmptyString => String (lowerByte c) (ToLower rest)
      end
  end.

(** [strings.Contains s substr]: [substr] occurs within [s]. *)
Fixpoint Contains (s substr : string) : bool :=
  String.prefix substr s ||
  match s with
  | EmptyString => false
  | String _ s' => Contains s' substr
  end.

(** [strings.TrimRight s cutset] for an ASCII [cutset]. *)
Fixpoint TrimRight (s cutset : string) : string :=
  match s with
  | EmptyString => EmptyString
  | String c s' =>
      match TrimRight s' cutset with
      | EmptyString =>
          if Contains cutset (String c EmptyString) then EmptyString
          else String c EmptyString
      | t => String c t
      end
  end.

(** The scan behind [strings.Split s sep] for a non-empty [sep]:
    [skip] bytes of a separator just matched remain to be dropped, and
    [cur] is the piece being accumulated. *)
Fixpoint splitFrom (sep s : string) (skip : nat) (cur : string) : list string :=
  match s with
  | EmptyString => [cur]
  | String c s' =>
      match skip with
      | S k => splitFrom sep s' k cur
      | O =>
          if String.prefix sep s
          then cur :: splitFrom sep s' (String.length sep - 1) EmptyString
          else splitFrom sep s' O (cur +:+ String c EmptyString)
      end
  end.

Definition Split (s sep : string) : list string :=
  splitFrom sep s O EmptyString.

(** Indexing [strings.Split(...)[i]]; the code only indexes under a
    [strings.Contains] guard, so the default is never returned. *)
Definition index (l : list string) (i : nat) : string := nth i l EmptyString.

End strings.

(* ===================================================================== *)
(** ** Package [time] *)
(* ===================================================================== *)

Module time.

(** [time.Duration]: a signed 64-bit count of nanoseconds. *)
Definition Duration : Type := Z.
(** [time.Time]: an instant, in nanoseconds on the time line. *)
Definition Time : Type := Z.

Definition Nanosecond : Duration := 1.
Definition Microsecond : Duration := 1000 * Nanosecond.
Definition Millisecond : Duration := 1000 * Microsecond.
Definition Second : Duration := 1000 * Millisecond.
Definition Minute : Duration := 60 * Second.
Definition Hour : Duration := 60 * Minute.

Definition minDuration : Duration := - 2 ^ 63.
Definition maxDuration : Duration := 2 ^ 63 - 1.

(** [t.Sub(u)]: the difference, saturated to the range of Duration. *)
Definition Sub (t u : Time) : Duration :=
  let d := t - u in
  if d <? minDuration then minDuration
  else if maxDuration <? d then maxDuration
  else d.

(** [time.Until(t)] evaluated when the clock reads [now]. *)
Definition Until (now t : Time) : Duration := Sub t now.

(** [t.After(u)]. *)
Definition After (t u : Time) : bool := u <? t.

(** [float64(n)] for an unsigned integer up to 2^63: the primitive
    conversion covers the integers below 2^63, and 2^63 itself is twice
    2^62. *)
Definition float64u (n : Z) : float :=
  if n <? 2 ^ 63 then PrimFloat.of_uint63 (Uint63.of_Z n)
  else PrimFloat.mul (PrimFloat.of_uint63 (Uint63.of_Z (n / 2)))
                     (PrimFloat.of_uint63 (Uint63.of_Z 2)).

(** [float64(n)] for an integer of magnitude up to 2^63. *)
Definition float64 (n : Z) : float :=
  if n <? 0 then PrimFloat.opp (float64u (- n)) else float64u n.

(** Conversion of a finite float64 to an integer: truncation toward zero. *)
Definition truncate (f : float) : Z :=
  match Prim2SF f with
  | S754_finite s m e =>
      let a := if 0 <=? e then Z.pos m * 2 ^ e else Z.pos m / 2 ^ (- e) in
      if s then - a else a
  | _ => 0
  end.

(** [d.Hours()]. *)
Definition Hours (d : Duration) : float :=
  let hour := Z.quot d Hour in
  let nsec := Z.rem d Hour in
  PrimFloat.add (float64 hour) (PrimFloat.div (float64 nsec) (float64 (60 * 60 * 1000000000))).

(** [d.Milliseconds()]. *)
Definition Milliseconds (d : Duration) : Z := Z.quot d 1000000.

(** *** [time.ParseDuration], after Go's standard library: an optional
    sign, then one or more terms, each a decimal number (digits, with an
    optional fraction) followed by a unit among ns, us, µs, ms, s, m, h. *)

Definition isDigit (c : ascii) : bool :=
  ((48 <=? nat_of_ascii c) && (nat_of_ascii c <=? 57))%nat.

Definition digit (c : ascii) : Z := Z.of_nat (nat_of_ascii c) - 48.

Definition hexDigit (n : nat) : ascii :=
  if (n <? 10)%nat then ascii_of_nat (48 + n) else ascii_of_nat (87 + n).

(** [quote]: the string in double quotes, with backslash escapes. *)
Fixpoint quoteBody (s : string) : string :=
  match s with
  | EmptyString => dquote
  | String c s' =>
      let n := nat_of_ascii c in
      if ((128 <=? n) || (n <? 32))%nat then
        String "\" (String "x" (String (hexDigit (n / 16)) (String (hexDigit (n mod 16)) (quoteBody s'))))
      else if ((n =? 34) || (n =? 92))%nat then String "\" (String c (quoteBody s'))
      else String c (quoteBody s')
  end.

Definition quote (s : string) : string := dquote +:+ quoteBody s.

(** [leadingInt]: consumes the leading digits; [None] on overflow. *)
Fixpoint leadingInt (x : Z) (s : string) : option (Z * string) :=
  match s with
  | EmptyString => Some (x, s)
  | String c s' =>
      if isDigit c then
        if 2 ^ 63 / 10 <? x then None
        else
          let x := x * 10 + digit c in
          if 2 ^ 63 <? x then None else leadingInt x s'
      else Some (x, s)
  end.

(** [leadingFraction]: consumes the digits after a period and
    returns the digits read, the power of ten that scales them, and the
    rest; digits past the overflow point are dropped. *)
Fixpoint leadingFraction (x : Z) (scale : float) (overflow : bool) (s : string)
  : Z * float * string :=
  match s with
  | EmptyString => (x, scale, s)
  | String c s' =>
      if isDigit c then
        if overflow then leadingFraction x scale true s'
        else if (2 ^ 63 - 1) / 10 <? x then leadingFraction x scale true s'
        else
          let y := x * 10 + digit c in
          if 2 ^ 63 <? y then leadingFraction x scale true s'
          else leadingFraction y (PrimFloat.mul scale (float64 10)) false s'
      else (x, scale, s)
  end.

(** The unit: the bytes up to the next period or digit. *)
Fixpoint spanUnit (s : string) : string * string :=
  match s with
  | EmptyString => (EmptyString, EmptyString)
  | String c s' =>
      if Ascii.eqb c "." || isDigit c then (EmptyString, s)
      else let '(u, r) := spanUnit s' in (String c u, r)
  end.

Definition unitMap (u : string) : option Z :=
  if String.eqb u "ns" then Some Nanosecond
  else if String.eqb u "us" then Some Microsecond
  else if String.eqb u "µs" then Some Microsecond
  else if String.eqb u "μs" then Some Microsecond
  else if String.eqb u "ms" then Some Millisecond
  else if String.eqb u "s" then Some Second
  else if String.eqb u "m" then Some Minute
  else if String.eqb u "h" then Some Hour
  else None.

Definition invalidDuration (orig : string) : error :=
  "time: invalid duration " +:+ quote orig.

(** The loop [for s != ""] over the terms of the duration; [d] is the
    unsigned total so far.  Every iteration consumes a byte, so the
    length of the input bounds the number of iterations. *)
Fixpoint parseTerms (fuel : nat) (orig s : string) (d : Z) : Z + error :=
  match s with
  | EmptyString => inl d
  | String c0 _ =>
      match fuel with
      | O => inr (invalidDuration orig)
      | S fuel =>
          if negb (Ascii.eqb c0 "." || isDigit c0) then inr (invalidDuration orig)
          else
            match leadingInt 0 s with
            | None => inr (invalidDuration orig)
            | Some (v, s1) =>
                let pre := negb (String.length s =? String.length s1)%nat in
                let '(f, scale, s2, post) :=
                  match s1 with
                  | String "." s1' =>
                      let '(f, scale, s2) := leadingFraction 0 (float64 1) false s1' in
                      (f, scale, s2, negb (String.length s1' =? String.length s2)%nat)
                  | _ => (0, float64 1, s1, false)
                  end in
                if negb pre && negb post then inr (invalidDuration orig)
                else
                  let '(u, s3) := spanUnit s2 in
                  if String.eqb u EmptyString
                  then inr ("time: missing unit in duration " +:+ quote orig)
                  else
                    match unitMap u with
                    | None =>
                        inr ("time: unknown unit " +:+ quote u +:+ " in duration " +:+ quote orig)
                    | Some unit =>
                        if 2 ^ 63 / unit <? v then inr (invalidDuration orig)
                        else
                          let v := v * unit in
                          let v :=
                            if 0 <? f
                            then v + truncate (PrimFloat.mul (float64 f)
                                                 (PrimFloat.div (float64 unit) scale))
                            else v in
                          if (0 <? f) && (2 ^ 63 <? v) then inr (invalidDuration orig)
                          else
                            let d := (d + v) mod 2 ^ 64 in
                            if 2 ^ 63 <? d then inr (invalidDuration orig)
                            else parseTerms fuel orig s3 d
                    end
            end
      end
  end.

Definition ParseDuration (orig : string) : Duration + error :=
  let '(neg, s) :=
    match orig with
    | String "-" s' => (true, s')
    | String "+" s' => (false, s')
    | _ => (false, orig)
    end in
  if String.eqb s "0" then inl 0
  else if String.eqb s EmptyString then inr (invalidDuration orig)
  else
    match parseTerms (String.length s) orig s 0 with
    | inr e => inr e
    | inl d =>
        if neg then inl (- d)
        else if 2 ^ 63 - 1 <? d then inr (invalidDuration orig)
        else inl d
    end.

End time.

(* ===================================================================== *)
(** ** Package [config] *)
(* ===================================================================== *)

Module config.

(** A dynamic value ([interface{}]) as the YAML decoder or the command
    line produces it for [JSONAssertion.Value]: the four dynamic types
    the checker switches on, and the others (a YAML integer decodes to
    [int]; sequences and mappings decode to slices and maps). *)
Inductive any : Type :=
| VNil
| VBool (b : bool)
| VFloat64 (f : float)
| VString (s : string)
| VInt (n : Z)
| VOther (repr : string).

Record Auth : Type := {
  Auth_Type : string;
  Token : string;
  Username : string;
  Password : string
}.

Record JSONAssertion : Type := {
  Path : string;
  Value : any;
  Operator : string
}.

(** Modelled from the spec: the fields [TLSWarningDays] and
    [LatencyThreshold], which the TLS and latency checkers read, are
    missing from the declaration of [Service] under src/; they are the
    spec's [tlsWarningDays] and [latencyThresholdMillis], integer
    thresholds whose zero value means unset. *)
Record Service : Type := {
  Name : string;
  URL : string;
  HealthEndpoint : string;
  Method : string;
  ExpectedStatus : Z;
  Headers : gmap string string;
  Type_ : string;
  Auth_ : option Auth;
  JSONAssertions : list JSONAssertion;
  TLSWarningDays : Z;
  LatencyThreshold : Z
}.

Record Config : Type := {
  CheckInterval : string;
  Timeout : string;
  RetryAttempts : Z;
  Services : list Service
}.

Definition DefaultCheckInterval : string := "30s".
Definition DefaultTimeout : string := "5s".
Definition DefaultRetryAttempts : Z := 3.

(** The service with its [JSONAssertions] replaced. *)
Definition withAssertions (assertions : list JSONAssertion) (s : Service) : Service :=
  {| Name := Name s; URL := URL s; HealthEndpoint := HealthEndpoint s;
     Method := Method s; ExpectedStatus := ExpectedStatus s; Headers := Headers s;
     Type_ := Type_ s; Auth_ := Auth_ s; JSONAssertions := assertions;
     TLSWarningDays := TLSWarningDays s; LatencyThreshold := LatencyThreshold s |}.

(** The duplicate-name scan of [AddService]: the first service of the
    list, if any, whose name is [name]. *)
Fixpoint findName (services : list Service) (name : string) : option Service :=
  match services with
  | [] => None
  | s :: rest => if String.eqb (Name s) name then Some s else findName rest name
  end.

(** [AddService], a method on a pointer to [Config]: the configuration
    after the call, and the error returned. *)
Definition AddService (c : Config) (service : Service) : Config * option error :=
  match findName (Services c) (Name service) with
  | Some _ =>
      (c, Some ("service with name '" +:+ Name service +:+ "' already exists"))
  | None =>
      ({| CheckInterval := CheckInterval c;
          Timeout := Timeout c;
          RetryAttempts := RetryAttempts c;
          Services := Services c ++ [service] |}, None)
  end.

(** The names of the configured services, in order. *)
Definition names (c : Config) : list string := map Name (Services c).

(** The scan of [RemoveService]: the index of the first service of the
    list whose name is [name], counted from [i]. *)
Fixpoint indexOfName (services : list Service) (name : string) (i : nat) : option nat :=
  match services with
  | [] => None
  | s :: rest => if String.eqb (Name s) name then Some i else indexOfName rest name (S i)
  end.

(** [RemoveService], a method on a pointer to [Config]: the configuration
    after the call, and the error returned.  The slice expression
    [append(c.Services[:i], c.Services[i+1:]...)] is the list without its
    element [i]. *)
Definition RemoveService (c : Config) (name : string) : Config * option error :=
  match indexOfName (Services c) name 0 with
  | Some i =>
      ({| CheckInterval := CheckInterval c;
          Timeout := Timeout c;
          RetryAttempts := RetryAttempts c;
          Services := take i (Services c) ++ drop (S i) (Services c) |}, None)
  | None => (c, Some ("service '" +:+ name +:+ "' not found"))
  end.

End config.

(* ===================================================================== *)
(** ** Library functions taken as given *)
(* ===================================================================== *)

(** Formatting and parsing routines of Go's standard library that the
    code calls and whose results the properties below never inspect. *)
Class Formatting : Type := {
  (** the number returned by [strconv.ParseFloat(s, 64)], its error dropped *)
  strconv_ParseFloat : string -> float;
  (** [strconv.FormatFloat(f, 'f', -1, 64)] *)
  strconv_FormatFloat : float -> string;
  (** [fmt]'s [%v] verb on a dynamic value *)
  fmt_v : config.any -> string;
  (** [d.String()] on a [time.Duration] *)
  Duration_String : time.Duration -> string;
  (** [t.Format("2006-01-02")] on a [time.Time] *)
  Time_Format_date : time.Time -> string
}.

(* ===================================================================== *)
(** ** Package [gjson] (github.com/tidwall/gjson): results and accessors *)
(* ===================================================================== *)

Module gjson.

(** [gjson.Type], the kind of a result. *)
Inductive JSONType : Type := Null | False_ | Number | String_ | True_ | JSON.

Definition JSONType_eqb (a b : JSONType) : bool :=
  match a, b with
  | Null, Null | False_, False_ | Number, Number
  | String_, String_ | True_, True_ | JSON, JSON => true
  | _, _ => false
  end.

Record Result : Type := {
  Type_ : JSONType;
  Raw : string;
  Str : string;
  Num : float
}.

(** [gjson.Get(json, path)]: the JSON parser and path evaluator. *)
Class Parser : Type := { Get : string -> string -> Result }.

(** [t.Exists()]. *)
Definition Exists (t : Result) : bool :=
  negb (JSONType_eqb (Type_ t) Null) || negb (String.length (Raw t) =? 0)%nat.

(** [strconv.ParseBool] with its error dropped, on a lower-cased string. *)
Definition parseBoolLower (s : string) : bool :=
  String.eqb s "1" || String.eqb s "t" || String.eqb s "true".

(** [t.Bool()]. *)
Definition Bool (t : Result) : bool :=
  match Type_ t with
  | True_ => true
  | String_ => parseBoolLower (strings.ToLower (Str t))
  | Number => negb (PrimFloat.eqb (Num t) (time.float64 0))
  | _ => false
  end.

Section WithFormatting.
Context {F : Formatting}.

(** [t.Float()]. *)
Definition Float (t : Result) : float :=
  match Type_ t with
  | True_ => time.float64 1
  | String_ => strconv_ParseFloat (Str t)
  | Number => Num t
  | _ => time.float64 0
  end.

(** Whether the raw text of a number is an optional minus sign
    followed by digits only. *)
Fixpoint allDigits (s : string) : bool :=
  match s with
  | EmptyString => true
  | String c s' => time.isDigit c && allDigits s'
  end.

Definition plainInteger (raw : string) : bool :=
  match raw with
  | String "-" rest => allDigits rest
  | _ => allDigits raw
  end.

(** [t.String()]. *)
Definition String (t : Result) : string :=
  match Type_ t with
  | False_ => "false"
  | Number =>
      if (String.length (Raw t) =? 0)%nat then strconv_FormatFloat (Num t)
      else if plainInteger (Raw t) then Raw t
      else strconv_FormatFloat (Num t)
  | String_ => Str t
  | JSON => Raw t
  | True_ => "true"
  | Null => ""
  end.

End WithFormatting.

(** [t.Value()]: the result as a dynamic value; an object or array
    (a map or a slice) is carried by its raw text. *)
Definition Value (t : Result) : config.any :=
  match Type_ t with
  | String_ => config.VString (Str t)
  | False_ => config.VBool false
  | Number => config.VFloat64 (Num t)
  | JSON => config.VOther (Raw t)
  | True_ => config.VBool true
  | Null => config.VNil
  end.

End gjson.

(* ===================================================================== *)
(** ** Package [notify]: desktop notifications on status changes *)
(* ===================================================================== *)

Module notify.

Definition Status : Type := string.

Record CheckResult : Type := {
  ServiceName : string;
  Status_ : Status;
  ResponseTime : time.Duration;
  StatusCode : Z;
  Error : option error;
  CheckedAt : time.Time;
  Message : string
}.

Record Notifier : Type := { enabled : bool }.

Definition NewNotifier (enabled : bool) : Notifier := {| enabled := enabled |}.

(** One call [notify.Notify(appName, title, text, iconPath)] of the
    desktop-notification library. *)
Record Toast : Type := {
  appName : string;
  title : string;
  text : string;
  iconPath : string
}.

Section WithFormatting.
Context {F : Formatting}.

(** The notifier's methods return a nil error on every path; the
    model returns the desktop notifications they raise. *)

Definition NotifyFailure (n : Notifier) (result : CheckResult) : list Toast :=
  if negb (enabled n) then []
  else
    let title := "⚠️  " +:+ ServiceName result +:+ " - Health Check Failed" in
    let message :=
      match Error result with
      | Some err => Message result +:+ ": " +:+ err
      | None => Message result
      end in
    [ {| appName := "Scout"; title := title; text := message; iconPath := "" |} ].

Definition NotifyRecovery (n : Notifier) (result : CheckResult) : list Toast :=
  if negb (enabled n) then []
  else
    let title := "✅ " +:+ ServiceName result +:+ " - Health Check Recovered" in
    let message := "Response time: " +:+ Duration_String (ResponseTime result) in
    [ {| appName := "Scout"; title := title; text := message; iconPath := "" |} ].

Definition NotifyStatusChange (n : Notifier) (result : CheckResult)
    (previousStatus : Status) : list Toast :=
  if negb (enabled n) then []
  else
    let healthyStatus : Status := "healthy" in
    let unhealthyStatus : Status := "unhealthy" in
    if String.eqb (Status_ result) healthyStatus && String.eqb previousStatus unhealthyStatus
    then NotifyRecovery n result
    else if String.eqb (Status_ result) unhealthyStatus &&
            (String.eqb previousStatus healthyStatus || String.eqb previousStatus "unknown")
    then NotifyFailure n result
    else [].

End WithFormatting.

End notify.

(* ===================================================================== *)
(** ** Package [monitor]: results, the outside world, the checkers *)
(* ===================================================================== *)

Module monitor.
Import config.

(** [type Status string]. *)
Definition Status : Type := string.

Definition StatusHealthy : Status := "healthy".
Definition StatusUnhealthy : Status := "unhealthy".
Definition StatusUnknown : Status := "unknown".
Definition StatusChecking : Status := "checking".

Record Result : Type := {
  ServiceName : string;
  Status_ : Status;
  ResponseTime : time.Duration;
  StatusCode : Z;
  Error : option error;
  CheckedAt : time.Time;
  Message : string
}.

(** Assignments to one field of a [Result]. *)
Definition setStatus (s : Status) (r : Result) : Result :=
  {| ServiceName := ServiceName r; Status_ := s; ResponseTime := ResponseTime r;
     StatusCode := StatusCode r; Error := Error r; CheckedAt := CheckedAt r;
     Message := Message r |}.
Definition setResponseTime (d : time.Duration) (r : Result) : Result :=
  {| ServiceName := ServiceName r; Status_ := Status_ r; ResponseTime := d;
     StatusCode := StatusCode r; Error := Error r; CheckedAt := CheckedAt r;
     Message := Message r |}.
Definition setStatusCode (c : Z) (r : Result) : Result :=
  {| ServiceName := ServiceName r; Status_ := Status_ r; ResponseTime := ResponseTime r;
     StatusCode := c; Error := Error r; CheckedAt := CheckedAt r;
     Message := Message r |}.
Definition setError (e : error) (r : Result) : Result :=
  {| ServiceName := ServiceName r; Status_ := Status_ r; ResponseTime := ResponseTime r;
     StatusCode := StatusCode r; Error := Some e; CheckedAt := CheckedAt r;
     Message := Message r |}.
Definition setMessage (m : string) (r : Result) : Result :=
  {| ServiceName := ServiceName r; Status_ := Status_ r; ResponseTime := ResponseTime r;
     StatusCode := StatusCode r; Error := Error r; CheckedAt := CheckedAt r;
     Message := m |}.

(** *** What the outside world answers during one call of [Check] *)

(** A call that sets a header on the outgoing request. *)
Inductive HeaderCall : Type :=
| Header_Set (key value : string)
| SetBasicAuth (username password : string).

(** The request handed to the HTTP client: method, URL, and the header
    calls made on it, in order. *)
Record Request : Type := {
  req_Method : string;
  req_URL : string;
  req_Header : list HeaderCall
}.

(** An HTTP response: its status code, and what [io.ReadAll] returns
    for its body. *)
Record Response : Type := {
  resp_StatusCode : Z;
  resp_Body : string + error
}.

Record Certificate : Type := { NotAfter : time.Time }.

Record World : Type := {
  (** [time.Now()] when the check starts *)
  Now : time.Time;
  (** [time.Since(start)] when the network call returns *)
  Since : time.Duration;
  (** the error of [http.NewRequestWithContext(ctx, method, url, nil)] *)
  NewRequestWithContext : string -> string -> option error;
  (** [client.Do(req)] for a client with the given timeout *)
  Do : time.Duration -> Request -> Response + error;
  (** the error of [net.DialTimeout(network, address, timeout)] *)
  DialTimeout : string -> string -> time.Duration -> option error;
  (** [tls.DialWithDialer] with certificate verification, for a dialer
      with the given timeout: the peer certificates, or the error *)
  DialWithDialer : time.Duration -> string -> string -> list Certificate + error;
  (** [resolver.LookupIPAddr(ctx, host)], each address printed *)
  LookupIPAddr : string -> list string + error;
  (** the clock when [time.Until] reads it *)
  NowUntil : time.Time;
  (** the clock when [time.Now().After] reads it *)
  NowAfter : time.Time
}.

Section Checkers.
Context {F : Formatting} {P : gjson.Parser}.

(** *** JSON assertions *)

Definition jsonValueEquals (actual : gjson.Result) (expected : any) : bool :=
  match expected with
  | VString v => String.eqb (gjson.String actual) v
  | VFloat64 v => PrimFloat.eqb (gjson.Float actual) v
  | VBool v => Bool.eqb (gjson.Bool actual) v
  | VNil => negb (gjson.Exists actual)
  | _ => false
  end.

Definition jsonGreaterThan (actual : gjson.Result) (expected : any) : bool :=
  match expected with
  | VFloat64 v => PrimFloat.ltb v (gjson.Float actual)
  | _ => false
  end.

Definition jsonLessThan (actual : gjson.Result) (expected : any) : bool :=
  match expected with
  | VFloat64 v => PrimFloat.ltb (gjson.Float actual) v
  | _ => false
  end.

Definition jsonGreaterOrEqual (actual : gjson.Result) (expected : any) : bool :=
  match expected with
  | VFloat64 v => PrimFloat.leb v (gjson.Float actual)
  | _ => false
  end.

Definition jsonLessOrEqual (actual : gjson.Result) (expected : any) : bool :=
  match expected with
  | VFloat64 v => PrimFloat.leb (gjson.Float actual) v
  | _ => false
  end.

Definition jsonContains (actual : gjson.Result) (expected : any) : bool :=
  match expected with
  | VString v => strings.Contains (gjson.String actual) v
  | _ => false
  end.

Definition compareValue (actual : gjson.Result) (expected : any) (operator : string) : bool :=
  let op := strings.ToLower operator in
  if String.eqb op "==" || String.eqb op "equals" then jsonValueEquals actual expected
  else if String.eqb op "!=" || String.eqb op "not_equals" then negb (jsonValueEquals actual expected)
  else if String.eqb op ">" then jsonGreaterThan actual expected
  else if String.eqb op "<" then jsonLessThan actual expected
  else if String.eqb op ">=" then jsonGreaterOrEqual actual expected
  else if String.eqb op "<=" then jsonLessOrEqual actual expected
  else if String.eqb op "contains" then jsonContains actual expected
  else false.

Definition pathNotFound (path : string) : error :=
  "JSON path '" +:+ path +:+ "' not found in response".

Definition assertionFailed (a : JSONAssertion) (value : gjson.Result) : error :=
  "JSON assertion failed: " +:+ Path a +:+ " " +:+ Operator a +:+ " " +:+
  fmt_v (Value a) +:+ ", got " +:+ fmt_v (gjson.Value value).

Fixpoint validateJSONAssertions (body : string) (assertions : list JSONAssertion)
  : option error :=
  match assertions with
  | [] => None
  | assertion :: rest =>
      let value := gjson.Get body (Path assertion) in
      if negb (gjson.Exists value) then Some (pathNotFound (Path assertion))
      else if negb (compareValue value (Value assertion) (Operator assertion))
      then Some (assertionFailed assertion value)
      else validateJSONAssertions body rest
  end.

(** *** Request construction, shared by the HTTP and latency checkers *)

Definition fullURL (service : Service) : string :=
  if negb (String.eqb (HealthEndpoint service) "")
  then strings.TrimRight (URL service) "/" +:+ HealthEndpoint service
  else URL service.

Definition methodOf (service : Service) : string :=
  if String.eqb (Method service) "" then "GET" else Method service.

(** Custom headers, in the order the map is traversed. *)
Definition customHeaders (service : Service) : list HeaderCall :=
  map (fun kv => Header_Set (fst kv) (snd kv)) (map_to_list (Headers service)).

Definition authHeaders (service : Service) : list HeaderCall :=
  match Auth_ service with
  | None => []
  | Some auth =>
      let t := strings.ToLower (Auth_Type auth) in
      if String.eqb t "bearer" then
        if negb (String.eqb (Token auth) "")
        then [Header_Set "Authorization" ("Bearer " +:+ Token auth)]
        else []
      else if String.eqb t "basic" then
        if negb (String.eqb (Username auth) "") && negb (String.eqb (Password auth) "")
        then [SetBasicAuth (Username auth) (Password auth)]
        else []
      else []
  end.

Definition newRequest (service : Service) : Request :=
  {| req_Method := methodOf service;
     req_URL := fullURL service;
     req_Header := customHeaders service ++ authHeaders service |}.

Definition newResult (w : World) (service : Service) : Result :=
  {| ServiceName := Name service; Status_ := StatusChecking; ResponseTime := 0;
     StatusCode := 0; Error := None; CheckedAt := Now w; Message := "" |}.

(** *** [HTTPChecker.Check] *)

Definition expectedStatusOf (service : Service) : Z :=
  if ExpectedStatus service =? 0 then 200 else ExpectedStatus service.

Definition HTTPChecker_Check (timeout : time.Duration) (w : World) (service : Service)
  : Result :=
  let result := newResult w service in
  match NewRequestWithContext w (methodOf service) (fullURL service) with
  | Some err =>
      setError ("failed to create request: " +:+ err) (setStatus StatusUnhealthy result)
  | None =>
      let result := setResponseTime (Since w) result in
      match Do w timeout (newRequest service) with
      | inr err =>
          setMessage "Connection failed"
            (setError err (setStatus StatusUnhealthy result))
      | inl resp =>
          let result := setStatusCode (resp_StatusCode resp) result in
          match resp_Body resp with
          | inr err =>
              setError ("failed to read response body: " +:+ err)
                (setStatus StatusUnhealthy result)
          | inl body =>
              let expectedStatus := expectedStatusOf service in
              if negb (resp_StatusCode resp =? expectedStatus) then
                setMessage ("Expected " +:+ fmt_d expectedStatus +:+ ", got " +:+
                            fmt_d (resp_StatusCode resp))
                  (setStatus StatusUnhealthy result)
              else
                match
                  (if (0 <? length (JSONAssertions service))%nat
                   then validateJSONAssertions body (JSONAssertions service)
                   else None)
                with
                | Some err => setError err (setStatus StatusUnhealthy result)
                | None =>
                    setMessage ("HTTP " +:+ fmt_d (resp_StatusCode resp))
                      (setStatus StatusHealthy result)
                end
          end
      end
  end.

(** *** [TCPChecker.Check] *)

Definition TCPChecker_Check (timeout : time.Duration) (w : World) (service : Service)
  : Result :=
  let result := newResult w service in
  let result := setResponseTime (Since w) result in
  match DialTimeout w "tcp" (URL service) timeout with
  | Some err =>
      setMessage "Connection refused" (setError err (setStatus StatusUnhealthy result))
  | None =>
      setMessage "Port open" (setStatus StatusHealthy result)
  end.

(** *** [TLSChecker.Check] *)

(** The host part of a URL: what follows the scheme, up to the path. *)
Definition hostOf (url : string) : string :=
  let host := url in
  let host :=
    if strings.Contains host "://"
    then strings.index (strings.Split host "://") 1 else host in
  if strings.Contains host "/"
  then strings.index (strings.Split host "/") 0 else host.

Definition tlsAddress (url : string) : string :=
  let host := hostOf url in
  if negb (strings.Contains host ":") then host +:+ ":443" else host.

(** [int(time.Until(cert.NotAfter).Hours() / 24)]. *)
Definition expiryDaysOf (untilExpiry : time.Duration) : Z :=
  time.truncate (PrimFloat.div (time.Hours untilExpiry) (time.float64 24)).

Definition warningDaysOf (service : Service) : Z :=
  if TLSWarningDays service =? 0 then 30 else TLSWarningDays service.

Definition TLSChecker_Check (timeout : time.Duration) (w : World) (service : Service)
  : Result :=
  let result := newResult w service in
  let host := tlsAddress (URL service) in
  let result := setResponseTime (Since w) result in
  match DialWithDialer w timeout "tcp" host with
  | inr err =>
      setMessage "TLS connection failed"
        (setError ("TLS connection failed: " +:+ err) (setStatus StatusUnhealthy result))
  | inl certs =>
      match certs with
      | [] =>
          setMessage "No certificates found"
            (setError "no certificates found" (setStatus StatusUnhealthy result))
      | cert :: _ =>
          let expiryDays := expiryDaysOf (time.Until (NowUntil w) (NotAfter cert)) in
          let warningDays := warningDaysOf service in
          let result :=
            setMessage ("Certificate expires in " +:+ fmt_d expiryDays +:+ " days") result in
          if time.After (NowAfter w) (NotAfter cert) then
            setError ("certificate expired on " +:+ Time_Format_date (NotAfter cert))
              (setStatus StatusUnhealthy result)
          else if expiryDays <? warningDays then
            setError ("certificate expires in " +:+ fmt_d expiryDays +:+
                      " days (warning threshold: " +:+ fmt_d warningDays +:+ " days)")
              (setStatus StatusUnhealthy result)
          else setStatus StatusHealthy result
      end
  end.

(** *** [DNSChecker.Check] *)

Definition dnsHost (url : string) : string :=
  let host := hostOf url in
  if strings.Contains host ":"
  then strings.index (strings.Split host ":") 0 else host.

Definition DNSChecker_Check (timeout : time.Duration) (w : World) (service : Service)
  : Result :=
  let result := newResult w service in
  let host := dnsHost (URL service) in
  let result := setResponseTime (Since w) result in
  match LookupIPAddr w host with
  | inr err =>
      setMessage "DNS resolution failed"
        (setError ("DNS resolution failed: " +:+ err) (setStatus StatusUnhealthy result))
  | inl ips =>
      match ips with
      | [] =>
          setMessage "No IP addresses found"
            (setError ("no IP addresses found for " +:+ host)
               (setStatus StatusUnhealthy result))
      | ip :: _ =>
          setMessage ("Resolved to " +:+ ip) (setStatus StatusHealthy result)
      end
  end.

(** *** [LatencyChecker.Check] *)

Definition thresholdMsOf (service : Service) : Z :=
  if LatencyThreshold service =? 0 then 5000 else LatencyThreshold service.

Definition LatencyChecker_Check (timeout : time.Duration) (w : World) (service : Service)
  : Result :=
  let result := newResult w service in
  match NewRequestWithContext w (methodOf service) (fullURL service) with
  | Some err =>
      setError ("failed to create request: " +:+ err) (setStatus StatusUnhealthy result)
  | None =>
      let result := setResponseTime (Since w) result in
      match Do w timeout (newRequest service) with
      | inr err =>
          setMessage "Connection failed"
            (setError err (setStatus StatusUnhealthy result))
      | inl resp =>
          let latencyMs := time.Milliseconds (ResponseTime result) in
          let thresholdMs := thresholdMsOf service in
          let result := setMessage ("Latency: " +:+ fmt_d latencyMs +:+ "ms") result in
          if thresholdMs <? latencyMs then
            setError ("latency " +:+ fmt_d latencyMs +:+ "ms exceeds threshold of " +:+
                      fmt_d thresholdMs +:+ "ms")
              (setStatus StatusUnhealthy result)
          else setStatus StatusHealthy result
      end
  end.

(** *** The [Checker] interface and its five implementations *)

Inductive Checker : Type :=
| HTTPChecker (timeout : time.Duration)
| TCPChecker (timeout : time.Duration)
| TLSChecker (timeout : time.Duration)
| DNSChecker (timeout : time.Duration)
| LatencyChecker (timeout : time.Duration).

Definition NewHTTPChecker (timeout : time.Duration) : Checker := HTTPChecker timeout.
Definition NewTCPChecker (timeout : time.Duration) : Checker := TCPChecker timeout.
Definition NewTLSChecker (timeout : time.Duration) : Checker := TLSChecker timeout.
Definition NewDNSChecker (timeout : time.Duration) : Checker := DNSChecker timeout.
Definition NewLatencyChecker (timeout : time.Duration) : Checker := LatencyChecker timeout.

(** [checker.Check(ctx, service)], dispatched on the dynamic type. *)
Definition Check (checker : Checker) (w : World) (service : Service) : Result :=
  match checker with
  | HTTPChecker timeout => HTTPChecker_Check timeout w service
  | TCPChecker timeout => TCPChecker_Check timeout w service
  | TLSChecker timeout => TLSChecker_Check timeout w service
  | DNSChecker timeout => DNSChecker_Check timeout w service
  | LatencyChecker timeout => LatencyChecker_Check timeout w service
  end.

(** *** The Monitor *)

(** The orchestrator's state.  The result channel is represented by
    the results sent on it ([Send] events below). *)
Record Monitor : Type := {
  Config_ : Config;
  checkers : gmap string Checker;
  notifier : notify.Notifier;
  serviceStatuses : gmap string Status
}.

Definition NewMonitor (cfg : Config) : Monitor + error :=
  match time.ParseDuration (Timeout cfg) with
  | inr err => inr ("invalid timeout duration: " +:+ err)
  | inl timeout =>
      inl {| Config_ := cfg;
             checkers :=
               list_to_map
                 [ ("http", NewHTTPChecker timeout);
                   ("tcp", NewTCPChecker timeout);
                   ("tls", NewTLSChecker timeout);
                   ("dns", NewDNSChecker timeout);
                   ("latency", NewLatencyChecker timeout) ];
             notifier := notify.NewNotifier true;
             serviceStatuses := ∅ |}
  end.

(** The interval [Start] gives to its ticker. *)
Definition checkIntervalOf (m : Monitor) : time.Duration :=
  match time.ParseDuration (CheckInterval (Config_ m)) with
  | inl checkInterval => checkInterval
  | inr _ => 30 * time.Second
  end.

Definition withStatuses (statuses : gmap string Status) (m : Monitor) : Monitor :=
  {| Config_ := Config_ m; checkers := checkers m; notifier := notifier m;
     serviceStatuses := statuses |}.

(** The loop of [Start] that marks every configured service unknown. *)
Definition initStatuses (m : Monitor) : Monitor :=
  withStatuses
    (foldl (fun statuses service => <[Name service := StatusUnknown]> statuses)
           (serviceStatuses m) (Services (Config_ m)))
    m.

(** What [Start] sets up before its first cycle: the ticker interval
    and the initialised status tracker. *)
Definition Start_setup (m : Monitor) : time.Duration * Monitor :=
  (checkIntervalOf m, initStatuses m).

(** *** [Monitor.checkService] *)

(** What one call of [checkService] does that is visible outside it. *)
Inductive Event : Type :=
| Send (r : Result)                  (** [m.results <- r] *)
| Probe (attempt : Z) (r : Result)   (** [checker.Check] returned [r] *)
| Sleep (d : time.Duration)          (** [time.Sleep(d)] *)
| Notify (t : notify.Toast).         (** a desktop notification *)

(** The surroundings of one call: which case each [select] takes, the
    clock, and the world each probe attempt meets. *)
Record Run : Type := {
  (** the first [select] takes [<-ctx.Done()] instead of sending *)
  ctxDoneAtDispatch : bool;
  (** the last [select] takes [<-ctx.Done()] instead of sending *)
  ctxDoneAtPublish : bool;
  (** [time.Now()] in the checking result *)
  dispatchedAt : time.Time;
  (** [time.Now()] in the unknown-checker result *)
  rejectedAt : time.Time;
  (** the world that attempt number [i] meets *)
  attemptWorld : Z -> World
}.

(** The zero value of [Result] ([var result Result]). *)
Definition zeroResult : Result :=
  {| ServiceName := ""; Status_ := ""; ResponseTime := 0; StatusCode := 0;
     Error := None; CheckedAt := 0; Message := "" |}.

(** The retry loop [for attempt := 0; attempt < retries; attempt++],
    entered at [attempt] with [result] as the last outcome; [fuel]
    bounds the iterations left. *)
Fixpoint retryLoop (checker : Checker) (service : Service) (world : Z -> World)
    (retries : Z) (fuel : nat) (attempt : Z) (result : Result)
  : Result * list Event :=
  match fuel with
  | O => (result, [])
  | S fuel =>
      if attempt <? retries then
        let result := Check checker (world attempt) service in
        if String.eqb (Status_ result) StatusHealthy then
          (result, [Probe attempt result])
        else
          let pause := if attempt <? retries - 1 then [Sleep time.Second] else [] in
          let '(final, events) :=
            retryLoop checker service world retries fuel (attempt + 1) result in
          (final, Probe attempt result :: pause ++ events)
      else (result, [])
  end.

Definition retriesOf (m : Monitor) : Z :=
  if RetryAttempts (Config_ m) <? 1 then 1 else RetryAttempts (Config_ m).

Definition checkerTypeOf (service : Service) : string :=
  if String.eqb (Type_ service) "" then "http" else Type_ service.

Definition toCheckResult (result : Result) : notify.CheckResult :=
  {| notify.ServiceName := ServiceName result;
     notify.Status_ := Status_ result;
     notify.ResponseTime := ResponseTime result;
     notify.StatusCode := StatusCode result;
     notify.Error := Error result;
     notify.CheckedAt := CheckedAt result;
     notify.Message := Message result |}.

(** The notification step that follows the status update. *)
Definition notifyOnChange (n : notify.Notifier) (previousStatus : Status)
    (result : Result) : list notify.Toast :=
  if negb (String.eqb previousStatus (Status_ result)) &&
     negb (String.eqb (Status_ result) StatusChecking)
  then
    if (negb (String.eqb previousStatus StatusUnknown) &&
        negb (String.eqb previousStatus StatusChecking)) ||
       (String.eqb (Status_ result) StatusHealthy ||
        String.eqb (Status_ result) StatusUnhealthy)
    then notify.NotifyStatusChange n (toCheckResult result) previousStatus
    else []
  else [].

(** The status recorded for a service; a name the map does not hold
    reads as the zero value of [Status], the empty string. *)
Definition statusOf (m : Monitor) (name : string) : Status :=
  default "" (serviceStatuses m !! name).

(** The locked read-and-update of the status map, then the
    notification: the state after, and the notifications raised. *)
Definition trackStatus (m : Monitor) (result : Result) : Monitor * list notify.Toast :=
  let previousStatus := statusOf m (ServiceName result) in
  let m' := withStatuses (<[ServiceName result := Status_ result]> (serviceStatuses m)) m in
  (m', notifyOnChange (notifier m) previousStatus result).

Definition checkingResult (run : Run) (service : Service) : Result :=
  {| ServiceName := Name service; Status_ := StatusChecking; ResponseTime := 0;
     StatusCode := 0; Error := None; CheckedAt := dispatchedAt run; Message := "" |}.

Definition unknownResult (run : Run) (service : Service) : Result :=
  {| ServiceName := Name service; Status_ := StatusUnknown; ResponseTime := 0;
     StatusCode := 0;
     Error := Some ("unknown checker type: " +:+ checkerTypeOf service);
     CheckedAt := rejectedAt run; Message := "" |}.

Definition checkService (run : Run) (m : Monitor) (service : Service)
  : Monitor * list Event :=
  if ctxDoneAtDispatch run then (m, [])
  else
    match checkers m !! checkerTypeOf service with
    | None =>
        (m, [Send (checkingResult run service); Send (unknownResult run service)])
    | Some checker =>
        let retries := retriesOf m in
        let '(result, attempts) :=
          retryLoop checker service (attemptWorld run) retries (Z.to_nat retries)
                    0 zeroResult in
        let '(m', toasts) := trackStatus m result in
        (m', Send (checkingResult run service) :: attempts ++ map Notify toasts ++
             (if ctxDoneAtPublish run then [] else [Send result]))
    end.

(** [Monitor.AddService]: the goroutine it starts runs [checkService]
    on the service; nothing else is done, in particular no status is
    recorded for the service beforehand. *)
Definition Monitor_AddService (run : Run) (m : Monitor) (service : Service)
  : Monitor * list Event :=
  checkService run m service.

(** *** Readings of a trace *)

(** The results sent on the result channel, in order. *)
Fixpoint published (events : list Event) : list Result :=
  match events with
  | [] => []
  | Send r :: rest => r :: published rest
  | _ :: rest => published rest
  end.

(** The outcomes of the probe attempts, in order. *)
Fixpoint probed (events : list Event) : list Result :=
  match events with
  | [] => []
  | Probe _ r :: rest => r :: probed rest
  | _ :: rest => probed rest
  end.

(** The pauses taken, in order. *)
Fixpoint slept (events : list Event) : list time.Duration :=
  match events with
  | [] => []
  | Sleep d :: rest => d :: slept rest
  | _ :: rest => slept rest
  end.

(** The desktop notifications raised, in order. *)
Fixpoint notified (events : list Event) : list notify.Toast :=
  match events with
  | [] => []
  | Notify t :: rest => t :: notified rest
  | _ :: rest => notified rest
  end.

End Checkers.

End monitor.

(* ===================================================================== *)
(** ** Package [cmd]: the assertion flag of [service:add] *)
(* ===================================================================== *)

Module cmd.

Definition isEquals (c : ascii) : bool := Ascii.eqb c "=".

(** [string(s[i])]: converting a byte to a string yields the UTF-8
    encoding of the code point of that number, the byte itself below 128
    and two bytes from 128 on. *)
Definition stringOfByte (c : ascii) : string :=
  let n := nat_of_ascii c in
  if (n <? 128)%nat then String c EmptyString
  else String (ascii_of_nat (192 + n / 64))
         (String (ascii_of_nat (128 + n mod 64)) EmptyString).

(** The loop of [splitAssertionString] over the bytes still to read:
    [skip] says that the byte at hand was consumed with the one before
    it (the [i++] after a doubled equals sign), [current] is the part
    being read and [parts] the parts already closed. *)
Fixpoint splitLoop (s : string) (skip : bool) (current : string) (parts : list string)
  : list string :=
  match s with
  | EmptyString =>
      if negb (String.eqb current "") then parts ++ [current] else parts
  | String c rest =>
      if skip then splitLoop rest false current parts
      else
        match rest with
        | String d _ =>
            if isEquals c && negb (isEquals d) then
              if negb (String.eqb current "")
              then splitLoop rest false "" (parts ++ [current])
              else splitLoop rest false current parts
            else if isEquals c && isEquals d then
              if negb (String.eqb current "")
              then splitLoop rest true "" ((parts ++ [current]) ++ ["=="])
              else splitLoop rest true current (parts ++ ["=="])
            else splitLoop rest false (current +:+ stringOfByte c) parts
        | EmptyString => splitLoop rest false (current +:+ stringOfByte c) parts
        end
  end.

Definition splitAssertionString (s : string) : list string :=
  splitLoop s false "" [].

Section Parse.

(** [strconv.ParseFloat(s, 64)]: the number, or [None] for an error. *)
Variable ParseFloat : string -> option float.

(** [parseJSONValue]. *)
Definition parseJSONValue (s : string) : config.any :=
  if String.eqb s "true" then config.VBool true
  else if String.eqb s "false" then config.VBool false
  else
    match ParseFloat s with
    | Some f => config.VFloat64 f
    | None => config.VString s
    end.

(** The loop of [service:add] over the values of the flag
    [--json-assertion]. *)
Fixpoint parseAssertions (jsonAssertions : list string) : list config.JSONAssertion :=
  match jsonAssertions with
  | [] => []
  | assertion :: rest =>
      let parts := splitAssertionString assertion in
      if (3 <=? length parts)%nat then
        {| config.Path := strings.index parts 0;
           config.Value := parseJSONValue (strings.index parts 1);
           config.Operator := strings.index parts 2 |} :: parseAssertions rest
      else parseAssertions rest
  end.

End Parse.

End cmd.

(* ===================================================================== *)
(** ** Package [tui]: the dashboard's rows, spinners and selection *)
(* ===================================================================== *)

Module tui.

(** A [spinner.Model] as [updateServiceState] sets it up: the frames and
    the foreground colour it assigns; the library's other settings keep
    their defaults. *)
Record Spinner : Type := {
  Spinner_ : string;
  Style_Foreground : string
}.

Definition goldMiniDot : Spinner :=
  {| Spinner_ := "MiniDot"; Style_Foreground := "#FFD700" |}.

Record ServiceState : Type := {
  Name : string;
  Status_ : monitor.Status;
  ResponseTime : time.Duration;
  Message : string;
  LastChecked : time.Time;
  StatusCode : Z;
  Error : option error;
  IsChecking : bool;
  Checks : list string;
  Paused : bool
}.

(** The fields of [Model] that the modelled methods read or write.
    [monitorConfig] is [m.monitor.Config], absent when either pointer
    is nil. *)
Record Model : Type := {
  services : list ServiceState;
  spinners : gmap string Spinner;
  selectedIndex : Z;
  monitorConfig : option config.Config
}.

Definition withServices (rows : list ServiceState) (m : Model) : Model :=
  {| services := rows; spinners := spinners m; selectedIndex := selectedIndex m;
     monitorConfig := monitorConfig m |}.
Definition withSpinners (s : gmap string Spinner) (m : Model) : Model :=
  {| services := services m; spinners := s; selectedIndex := selectedIndex m;
     monitorConfig := monitorConfig m |}.
Definition withSelectedIndex (i : Z) (m : Model) : Model :=
  {| services := services m; spinners := spinners m; selectedIndex := i;
     monitorConfig := monitorConfig m |}.

(** [len(m.services)]. *)
Definition len (m : Model) : Z := Z.of_nat (length (services m)).

(** Addition on [int]: 64 bits, two's complement. *)
Definition addInt (a b : Z) : Z := (a + b + 2 ^ 63) mod 2 ^ 64 - 2 ^ 63.

(** [dedupe]: [seen] is the set of keys of the map of that name. *)
Fixpoint dedupeFrom (seen : gset string) (items : list string) : list string :=
  match items with
  | [] => []
  | item :: rest =>
      if bool_decide (item ∈ seen) then dedupeFrom seen rest
      else item :: dedupeFrom ({[item]} ∪ seen) rest
  end.

Definition dedupe (items : list string) : list string := dedupeFrom ∅ items.

(** [moveSelection]. *)
Definition moveSelection (m : Model) (delta : Z) : Model :=
  if len m =? 0 then m
  else
    let i := Z.rem (addInt (selectedIndex m) delta) (len m) in
    withSelectedIndex (if i <? 0 then i + len m else i) m.

(** [clampSelection]. *)
Definition clampSelection (m : Model) : Model :=
  if len m =? 0 then withSelectedIndex 0 m
  else
    let m := if len m <=? selectedIndex m then withSelectedIndex (len m - 1) m else m in
    if selectedIndex m <? 0 then withSelectedIndex 0 m else m.

(** [getSelectedName]: the model after the call and the name returned,
    or [None] when indexing [m.services] panics. *)
Definition getSelectedName (m : Model) : option (Model * string) :=
  if len m =? 0 then Some (m, "")
  else
    let m := if len m <=? selectedIndex m then withSelectedIndex (len m - 1) m else m in
    if selectedIndex m <? 0 then None
    else
      match services m !! Z.to_nat (selectedIndex m) with
      | Some row => Some (m, Name row)
      | None => None
      end.

(** [getServiceConfig]: the first configured service of that name. *)
Definition getServiceConfig (m : Model) (name : string) : option config.Service :=
  match monitorConfig m with
  | None => None
  | Some c => config.findName (config.Services c) name
  end.

(** The loop of [updateServiceState] over the rows: the rows with the
    first one named [name] replaced by [row], or [None] when no row has
    that name. *)
Fixpoint replaceFirst (rows : list ServiceState) (name : string) (row : ServiceState)
  : option (list ServiceState) :=
  match rows with
  | [] => None
  | svc :: rest =>
      if String.eqb (Name svc) name then Some (row :: rest)
      else
        match replaceFirst rest name row with
        | Some rest' => Some (svc :: rest')
        | None => None
        end
  end.

Section Flags.

(** The check flags of a service, fields of [config.Service] that
    [buildCheckLabels] reads and that the declaration under src/ does not
    have. *)
Variables TLSCheck DNSCheck TCPPingCheck LatencyCheck : config.Service -> bool.

(** [buildCheckLabels]. *)
Definition buildCheckLabels (svc : config.Service) : list string :=
  let t := strings.ToLower (config.Type_ svc) in
  let labels :=
    [ if String.eqb t "tcp" then "TCP"
      else if String.eqb t "tls" then "TLS"
      else if String.eqb t "dns" then "DNS"
      else if String.eqb t "latency" then "Latency"
      else "HTTP" ] in
  let labels := if TLSCheck svc then labels ++ ["TLS"] else labels in
  let labels := if DNSCheck svc then labels ++ ["DNS"] else labels in
  let labels := if TCPPingCheck svc then labels ++ ["TCP"] else labels in
  let labels :=
    if LatencyCheck svc then
      let threshold := config.LatencyThreshold svc in
      let label :=
        if 0 <? threshold then "Latency≤" +:+ fmt_d threshold +:+ "ms" else "Latency" in
      labels ++ [label]
    else labels in
  let labels :=
    if (0 <? length (config.JSONAssertions svc))%nat then labels ++ ["JSON"] else labels in
  dedupe labels.

(** The row that [updateServiceState] writes for a result. *)
Definition rowOf (m : Model) (result : monitor.Result) : ServiceState :=
  {| Name := monitor.ServiceName result;
     Status_ := monitor.Status_ result;
     ResponseTime := monitor.ResponseTime result;
     Message := monitor.Message result;
     LastChecked := monitor.CheckedAt result;
     StatusCode := monitor.StatusCode result;
     Error := monitor.Error result;
     IsChecking := String.eqb (monitor.Status_ result) monitor.StatusChecking;
     Checks :=
       match getServiceConfig m (monitor.ServiceName result) with
       | Some cfg => buildCheckLabels cfg
       | None => []
       end;
     Paused := false |}.

(** [updateServiceState]. *)
Definition updateServiceState (m : Model) (result : monitor.Result) : Model :=
  let name := monitor.ServiceName result in
  let isChecking := String.eqb (monitor.Status_ result) monitor.StatusChecking in
  let row := rowOf m result in
  let m1 :=
    match replaceFirst (services m) name row with
    | Some rows => withServices rows m
    | None => withServices (services m ++ [row]) m
    end in
  let m2 := clampSelection m1 in
  if isChecking then
    match spinners m2 !! name with
    | Some _ => m2
    | None => withSpinners (<[name := goldMiniDot]> (spinners m2)) m2
    end
  else withSpinners (delete name (spinners m2)) m2.

(** The dashboard after the results of a list have arrived in order
    (the [resultMsg] case of [Update], once per result). *)
Definition receive (m : Model) (results : list monitor.Result) : Model :=
  foldl updateServiceState m results.

End Flags.

(** [NewModel]'s rows, spinners and selection. *)
Definition NewModel (monitorConfig : option config.Config) : Model :=
  {| services := []; spinners := ∅; selectedIndex := 0;
     monitorConfig := monitorConfig |}.

End tui.

(* ===================================================================== *)
(** ** Vocabulary of the properties *)
(* ===================================================================== *)

Module spec.
Import config monitor.

Section Generic.
Context {F : Formatting} {P : gjson.Parser}.

(** The HTTP exchange completes (the request is built, a response arrives
    and its body is read) with a status code other than the expected one. *)
Definition statusMismatch (timeout : time.Duration) (w : World) (service : Service) : bool :=
  match NewRequestWithContext w (methodOf service) (fullURL service) with
  | Some _ => false
  | None =>
      match Do w timeout (newRequest service) with
      | inr _ => false
      | inl resp =>
          match resp_Body resp with
          | inr _ => false
          | inl _ => negb (resp_StatusCode resp =? expectedStatusOf service)
          end
      end
  end.

(** A JSON assertion passes on a body: its path exists and the comparison holds. *)
Definition passes (body : string) (a : JSONAssertion) : bool :=
  gjson.Exists (gjson.Get body (Path a)) &&
  compareValue (gjson.Get body (Path a)) (Value a) (Operator a).

(** The trace of [k] sequential attempts starting at number [attempt],
    with a pause of one second between consecutive attempts. *)
Fixpoint attemptsTrace (outcome : Z -> Result) (attempt : Z) (k : nat) : list Event :=
  match k with
  | O => []
  | S k' =>
      Probe attempt (outcome attempt) ::
      match k' with
      | O => []
      | S _ => Sleep time.Second :: attemptsTrace outcome (attempt + 1) k'
      end
  end.

End Generic.

(** One of the four statuses of the data model. *)
Definition isStatus (s : Status) : Prop :=
  s = StatusChecking \/ s = StatusHealthy \/ s = StatusUnhealthy \/ s = StatusUnknown.

(** The notification rule in the specification's words: a transition
    (the status changed, and neither side is [checking]) into
    [unhealthy], or from [unhealthy] into [healthy]. *)
Definition transitionNotified (previous new : Status) : bool :=
  negb (String.eqb previous new) &&
  negb (String.eqb previous StatusChecking) && negb (String.eqb new StatusChecking) &&
  (String.eqb new StatusUnhealthy ||
   (String.eqb previous StatusUnhealthy && String.eqb new StatusHealthy)).

(** The comparison an operator name selects, letter case ignored. *)
Inductive OperatorKind : Type :=
| OpEquals | OpNotEquals | OpGreater | OpLess | OpGreaterOrEqual | OpLessOrEqual
| OpContains | OpUnsupported.

Definition operatorKind (operator : string) : OperatorKind :=
  let op := strings.ToLower operator in
  if String.eqb op "==" || String.eqb op "equals" then OpEquals
  else if String.eqb op "!=" || String.eqb op "not_equals" then OpNotEquals
  else if String.eqb op ">" then OpGreater
  else if String.eqb op "<" then OpLess
  else if String.eqb op ">=" then OpGreaterOrEqual
  else if String.eqb op "<=" then OpLessOrEqual
  else if String.eqb op "contains" then OpContains
  else OpUnsupported.

Definition isNumericOperator (k : OperatorKind) : bool :=
  match k with
  | OpGreater | OpLess | OpGreaterOrEqual | OpLessOrEqual => true
  | _ => false
  end.

(** The expected value has a dynamic type the operator works on: a
    string, a float64, a bool or nil for the equality operators, a
    float64 for the numeric ones, a string for [contains]. *)
Definition typeMatches (k : OperatorKind) (expected : any) : bool :=
  match k, expected with
  | (OpEquals | OpNotEquals), (VString _ | VFloat64 _ | VBool _ | VNil) => true
  | (OpGreater | OpLess | OpGreaterOrEqual | OpLessOrEqual), VFloat64 _ => true
  | OpContains, VString _ => true
  | _, _ => false
  end.

End spec.

(* ===================================================================== *)
(** ** Vocabulary of the further properties *)
(* ===================================================================== *)

Module props.

(** *** The monitor *)

(** Every status on record is unknown, healthy or unhealthy. *)
Definition settled (m : monitor.Monitor) : Prop :=
  forall name s, monitor.serviceStatuses m !! name = Some s ->
    s = monitor.StatusUnknown \/ s = monitor.StatusHealthy \/ s = monitor.StatusUnhealthy.

(** The run in which the last [select] takes the cancellation case. *)
Definition cancelAtPublish (run : monitor.Run) : monitor.Run :=
  {| monitor.ctxDoneAtDispatch := monitor.ctxDoneAtDispatch run;
     monitor.ctxDoneAtPublish := true;
     monitor.dispatchedAt := monitor.dispatchedAt run;
     monitor.rejectedAt := monitor.rejectedAt run;
     monitor.attemptWorld := monitor.attemptWorld run |}.

(** The last result of a list that is about the service [name]. *)
Fixpoint latest (results : list monitor.Result) (name : string) : option monitor.Result :=
  match results with
  | [] => None
  | r :: rest =>
      match latest rest name with
      | Some x => Some x
      | None => if String.eqb (monitor.ServiceName r) name then Some r else None
      end
  end.

(** *** Strings *)

(** The byte [c] occurs in [s]. *)
Definition has (c : ascii) (s : string) : bool :=
  strings.Contains s (String c EmptyString).

(** What precedes the first [c] in [s]; all of [s] when there is none. *)
Fixpoint before (c : ascii) (s : string) : string :=
  match s with
  | EmptyString => EmptyString
  | String a s' => if Ascii.eqb a c then EmptyString else String a (before c s')
  end.

(** [s] without its first [n] bytes. *)
Fixpoint dropBytes (n : nat) (s : string) : string :=
  match n, s with
  | O, _ => s
  | S k, String _ s' => dropBytes k s'
  | S _, EmptyString => EmptyString
  end.

(** What precedes the first occurrence of [sep] in [s]; all of [s] when
    there is none. *)
Fixpoint beforeFirst (sep s : string) : string :=
  match s with
  | EmptyString => EmptyString
  | String a s' =>
      if String.prefix sep s then EmptyString else String a (beforeFirst sep s')
  end.

(** What follows the first occurrence of [sep] in [s]; nothing when
    there is none. *)
Fixpoint afterFirst (sep s : string) : string :=
  match s with
  | EmptyString => EmptyString
  | String a s' =>
      if String.prefix sep s then dropBytes (String.length sep) s
      else afterFirst sep s'
  end.

(** The number of bytes [c] in [s]. *)
Fixpoint count (c : ascii) (s : string) : nat :=
  match s with
  | EmptyString => O
  | String a s' => ((if Ascii.eqb a c then 1 else 0) + count c s')%nat
  end.

(** Each byte of [s] converted to a string on its own, as
    [splitAssertionString] copies them. *)
Fixpoint bytewise (s : string) : string :=
  match s with
  | EmptyString => EmptyString
  | String a s' => cmd.stringOfByte a +:+ bytewise s'
  end.

(** All bytes of [s] are below 128. *)
Fixpoint isASCII (s : string) : bool :=
  match s with
  | EmptyString => true
  | String a s' => (nat_of_ascii a <? 128)%nat && isASCII s'
  end.

(** The comparison operators that [compareValue] knows, in lower case. *)
Definition operators : list string :=
  ["=="; "equals"; "!="; "not_equals"; ">"; "<"; ">="; "<="; "contains"].

(** *** The dashboard *)

(** The row the dashboard holds for a service name: the first of that
    name. *)
Definition findRow (rows : list tui.ServiceState) (name : string)
  : option tui.ServiceState :=
  find (fun row => String.eqb (tui.Name row) name) rows.

Definition rowNamed (m : tui.Model) (name : string) : option tui.ServiceState :=
  findRow (tui.services m) name.

Definition rowNames (m : tui.Model) : list string := map tui.Name (tui.services m).

(** The selection points at a row, or is zero when there is none. *)
Definition selectionInRange (m : tui.Model) : Prop :=
  if tui.len m =? 0 then tui.selectedIndex m = 0
  else 0 <= tui.selectedIndex m < tui.len m.

(** A spinner runs for exactly the names whose row is being checked. *)
Definition spinnersMatch (m : tui.Model) : Prop :=
  forall name : string,
    is_Some (tui.spinners m !! name) <->
    exists row, rowNamed m name = Some row /\ tui.IsChecking row = true.

Definition wellFormed (m : tui.Model) : Prop :=
  NoDup (rowNames m) /\ selectionInRange m /\ spinnersMatch m.

(** The labels of the base check types. *)
Definition baseLabels : list string := ["HTTP"; "TCP"; "TLS"; "DNS"; "Latency"].

(** The label of a service's own type. *)
Definition baseLabel (svc : config.Service) : string :=
  let t := strings.ToLower (config.Type_ svc) in
  if String.eqb t "tcp" then "TCP"
  else if String.eqb t "tls" then "TLS"
  else if String.eqb t "dns" then "DNS"
  else if String.eqb t "latency" then "Latency"
  else "HTTP".

End props.

(* ===================================================================== *)
(** ** A sample world, for closed examples *)
(* ===================================================================== *)

Module sample.
Import config monitor.

(** Stand-ins for the formatting routines.  The examples below examine
    statuses, errors and messages that these never contribute to,
    except for the printed forms spelled out here. *)
Definition formatting : Formatting :=
  {| strconv_ParseFloat := fun _ => time.float64 0;
     strconv_FormatFloat := fun _ => "0";
     fmt_v := fun v =>
       match v with
       | VNil => "<nil>"
       | VBool true => "true"
       | VBool false => "false"
       | VFloat64 _ => "0"
       | VString s => s
       | VInt n => fmt_d n
       | VOther repr => repr
       end;
     Duration_String := fun d => fmt_d d +:+ "ns";
     Time_Format_date := fun _ => "2006-01-02" |}.

Definition str (s : string) : gjson.Result :=
  {| gjson.Type_ := gjson.String_; gjson.Raw := dquote +:+ s +:+ dquote;
     gjson.Str := s; gjson.Num := time.float64 0 |}.

Definition num (n : Z) : gjson.Result :=
  {| gjson.Type_ := gjson.Number; gjson.Raw := fmt_d n;
     gjson.Str := ""; gjson.Num := time.float64 n |}.

Definition missing : gjson.Result :=
  {| gjson.Type_ := gjson.Null; gjson.Raw := ""; gjson.Str := "";
     gjson.Num := time.float64 0 |}.

(** The JSON document with the members status, the string ok, and
    uptime, the number 3600. *)
Definition document : string :=
  "{" +:+ dquote +:+ "status" +:+ dquote +:+ ":" +:+ dquote +:+ "ok" +:+ dquote +:+
  "," +:+ dquote +:+ "uptime" +:+ dquote +:+ ":3600}".

(** [gjson.Get] on the inputs of the examples: in [document] the paths
    status and uptime lead to its two members and the path version to
    nothing; in the bodies that are no JSON document (ok, not found,
    oops) no path leads to anything.  The examples give it no other
    body and no other path. *)
Definition parser : gjson.Parser :=
  {| gjson.Get := fun body path =>
       if String.eqb body document then
         if String.eqb path "status" then str "ok"
         else if String.eqb path "uptime" then num 3600
         else missing
       else missing |}.

Definition service (type : string) : Service :=
  {| Name := "api"; URL := "https://api.example.com/"; HealthEndpoint := "/health";
     Method := ""; ExpectedStatus := 0; Headers := ∅; Type_ := type;
     Auth_ := None; JSONAssertions := []; TLSWarningDays := 0;
     LatencyThreshold := 0 |}.

Definition day : time.Duration := 24 * time.Hour.

(** A world in which the server answers [code] with body [body] after
    120 ms, the port is open, the name resolves, and the certificate
    has [left] still to run. *)
Definition world (code : Z) (body : string) (left : time.Duration) : World :=
  {| Now := 1000 * day;
     Since := 120 * time.Millisecond;
     NewRequestWithContext := fun _ _ => None;
     Do := fun _ _ => inl {| resp_StatusCode := code; resp_Body := inl body |};
     DialTimeout := fun _ _ _ => None;
     DialWithDialer := fun _ _ _ => inl [ {| NotAfter := 1000 * day + left |} ];
     LookupIPAddr := fun _ => inl ["192.0.2.7"];
     NowUntil := 1000 * day;
     NowAfter := 1000 * day |}.

(** A world in which nothing can be reached. *)
Definition down : World :=
  {| Now := 1000 * day;
     Since := 5 * time.Second;
     NewRequestWithContext := fun _ _ => None;
     Do := fun _ _ => inr "context deadline exceeded";
     DialTimeout := fun _ _ _ => Some "connection refused";
     DialWithDialer := fun _ _ _ => inr "connection refused";
     LookupIPAddr := fun _ => inr "no such host";
     NowUntil := 1000 * day;
     NowAfter := 1000 * day |}.

Definition cfg (timeout interval : string) (retries : Z) (services : list Service) : Config :=
  {| CheckInterval := interval; Timeout := timeout; RetryAttempts := retries;
     Services := services |}.

(** A monitor as [NewMonitor] builds it for a 5 s timeout. *)
Definition monOf (c : Config) : Monitor :=
  {| Config_ := c;
     checkers :=
       list_to_map
         [ ("http", NewHTTPChecker (5 * time.Second));
           ("tcp", NewTCPChecker (5 * time.Second));
           ("tls", NewTLSChecker (5 * time.Second));
           ("dns", NewDNSChecker (5 * time.Second));
           ("latency", NewLatencyChecker (5 * time.Second)) ];
     notifier := notify.NewNotifier true;
     serviceStatuses := ∅ |}.

Definition mon (retries : Z) (services : list Service) : Monitor :=
  monOf (cfg "5s" "30s" retries services).

(** A run that is never cancelled, meeting [w i] at attempt [i]. *)
Definition run (w : Z -> World) : Run :=
  {| ctxDoneAtDispatch := false; ctxDoneAtPublish := false;
     dispatchedAt := 1000 * day; rejectedAt := 1000 * day; attemptWorld := w |}.

(** A world that cannot be reached at attempts 0 and 1 and answers 200
    from attempt 2 on. *)
Definition flaky (i : Z) : World :=
  if i <? 2 then down else world 200 "ok" (90 * day).

(** The sample monitor once [Start] has initialised the status tracker. *)
Definition started (retries : Z) (services : list Service) : Monitor :=
  snd (Start_setup (mon retries services)).

(** The sample service with the default check type, and its checker. *)
Definition svc : Service := service "".
Definition http : Checker := HTTPChecker (5 * time.Second).

(** The configuration that [scout init] writes, and a service to add. *)
Definition namedService (name : string) : Service :=
  {| Name := name; URL := "https://api.example.com"; HealthEndpoint := "/health";
     Method := "GET"; ExpectedStatus := 200; Headers := ∅; Type_ := "";
     Auth_ := None; JSONAssertions := []; TLSWarningDays := 0;
     LatencyThreshold := 0 |}.

Definition initialConfig : Config :=
  {| CheckInterval := DefaultCheckInterval; Timeout := DefaultTimeout;
     RetryAttempts := DefaultRetryAttempts;
     Services := [namedService "example-api"] |}.

End sample.

(* ===================================================================== *)
(** ** A sample dashboard and sample command-line input *)
(* ===================================================================== *)

Module board.
Import config.

(** No optional check is enabled. *)
Definition noCheck (svc : Service) : bool := false.

(** A service whose type is written in capitals. *)
Definition tcpService : Service :=
  {| Name := "db"; URL := "db.example.com:5432"; HealthEndpoint := "";
     Method := ""; ExpectedStatus := 0; Headers := ∅; Type_ := "TCP";
     Auth_ := None; JSONAssertions := []; TLSWarningDays := 0;
     LatencyThreshold := 0 |}.

Definition cfg : Config := sample.cfg "5s" "30s" 3 [sample.svc; tcpService].

(** The dashboard as [NewModel] leaves it, for the sample monitor. *)
Definition fresh : tui.Model := tui.NewModel (Some cfg).

(** The dashboard once a checking result has arrived for each of the
    two services. *)
Definition busy : tui.Model :=
  tui.receive noCheck noCheck noCheck noCheck fresh
    [monitor.checkingResult (sample.run sample.flaky) sample.svc;
     monitor.checkingResult (sample.run sample.flaky) tcpService].

(** A run cancelled at its last [select]. *)
Definition cancelled : monitor.Run :=
  props.cancelAtPublish (sample.run sample.flaky).

(** [strconv.ParseFloat] on the two inputs of the examples. *)
Definition ParseFloat (s : string) : option float :=
  if String.eqb s "200" then Some (time.float64 200) else None.

End board.

(* ===================================================================== *)
(** ** Examples *)
(* ===================================================================== *)

Example ParseDuration_5s : time.ParseDuration "5s" = inl (5 * time.Second).
Proof. reflexivity. Qed.
Example ParseDuration_30s : time.ParseDuration "30s" = inl (30 * time.Second).
Proof. reflexivity. Qed.
Example ParseDuration_1h30m : time.ParseDuration "1h30m" = inl 5400000000000.
Proof. reflexivity. Qed.
Example ParseDuration_frac : time.ParseDuration "1.5s" = inl 1500000000.
Proof. reflexivity. Qed.
Example ParseDuration_neg : time.ParseDuration "-250ms" = inl (-250000000).
Proof. reflexivity. Qed.
Example ParseDuration_empty :
  time.ParseDuration "" = inr ("time: invalid duration " +:+ dquote +:+ dquote).
Proof. reflexivity. Qed.
Example ParseDuration_nounit :
  time.ParseDuration "30" = inr ("time: missing unit in duration " +:+ dquote +:+ "30" +:+ dquote).
Proof. reflexivity. Qed.
Example ParseDuration_word :
  time.ParseDuration "soon" = inr ("time: invalid duration " +:+ dquote +:+ "soon" +:+ dquote).
Proof. reflexivity. Qed.

Example sample_mon : monitor.NewMonitor (sample.cfg "5s" "30s" 3 []) = inl (sample.mon 3 []).
Proof. reflexivity. Qed.

Example HTTP_ok :
  monitor.HTTPChecker_Check (F := sample.formatting) (P := sample.parser)
    (5 * time.Second) (sample.world 200 "ok" 0) (sample.service "") =
  {| monitor.ServiceName := "api"; monitor.Status_ := "healthy";
     monitor.ResponseTime := 120000000; monitor.StatusCode := 200;
     monitor.Error := None; monitor.CheckedAt := 1000 * sample.day;
     monitor.Message := "HTTP 200" |}.
Proof. reflexivity. Qed.

(** Letters whose lower case is ASCII. *)
Example ToLower_letters :
  strings.ToLower "Not_Equals" = "not_equals" /\
  strings.ToLower "CONTAİNS" = "contains" /\
  strings.ToLower "KELVIN" = "kelvin".
Proof. repeat split; reflexivity. Qed.

(** The sample document: both members are found and compared, a
    missing path is reported by its name. *)
Example HTTP_assertions :
  let check := fun assertions =>
    monitor.HTTPChecker_Check (F := sample.formatting) (P := sample.parser)
      (5 * time.Second) (sample.world 200 sample.document 0)
      (config.withAssertions assertions sample.svc) in
  monitor.Status_
    (check [ {| config.Path := "status"; config.Value := config.VString "ok";
                config.Operator := "==" |};
             {| config.Path := "uptime";
                config.Value := config.VFloat64 (time.float64 0);
                config.Operator := ">" |} ]) = "healthy" /\
  monitor.Error
    (check [ {| config.Path := "version"; config.Value := config.VString "2";
                config.Operator := "==" |} ]) =
    Some "JSON path 'version' not found in response".
Proof. split; reflexivity. Qed.

Example fullURL_trims :
  monitor.fullURL (sample.service "") = "https://api.example.com/health".
Proof. reflexivity. Qed.

Example tlsAddress_default_port :
  monitor.tlsAddress "https://api.example.com/health" = "api.example.com:443".
Proof. reflexivity. Qed.

Example tlsAddress_given_port :
  monitor.tlsAddress "api.example.com:8443" = "api.example.com:8443".
Proof. reflexivity. Qed.

(** The host ends at a second scheme separator. *)
Example hostOf_second_separator : monitor.hostOf "a://b://c/d" = "b".
Proof. reflexivity. Qed.

Example dnsHost_strips :
  monitor.dnsHost "https://api.example.com:8443/health" = "api.example.com".
Proof. reflexivity. Qed.

Example expiryDays_truncates :
  monitor.expiryDaysOf (29 * sample.day + 23 * time.Hour) = 29 /\
  monitor.expiryDaysOf (30 * sample.day) = 30 /\
  monitor.expiryDaysOf (- (5 * time.Hour)) = 0.
Proof. repeat split; reflexivity. Qed.

(** Over a hundred days of whole hours, the days left are the whole hours
    left divided by 24, fractions dropped. *)
Example expiryDays_whole_hours :
  forallb (fun h => monitor.expiryDaysOf (Z.of_nat h * time.Hour) =? Z.of_nat h / 24)
          (seq 0 2400) = true.
Proof. vm_compute. reflexivity. Qed.

(* ===================================================================== *)
(** ** Properties of [config.AddService] *)
(* ===================================================================== *)

Module config_facts.
Import config.

Lemma findName_None services name :
  findName services name = None <-> ~ In name (map Name services).
Proof.
  induction services as [|s rest IH]; simpl.
  - tauto.
  - destruct (String.eqb_spec (Name s) name) as [E|E].
    + split; [discriminate | intros H; exfalso; apply H; now left].
    + rewrite IH. tauto.
Qed.

Lemma findName_Some services name s :
  findName services name = Some s -> In s services /\ Name s = name.
Proof.
  induction services as [|s0 rest IH]; simpl; [discriminate|].
  destruct (String.eqb_spec (Name s0) name) as [E|E].
  - intros [= <-]. split; [now left | exact E].
  - intros H. destruct (IH H). split; [now right | assumption].
Qed.

Example AddService_fresh :
  AddService sample.initialConfig (sample.namedService "db") =
  ({| CheckInterval := "30s"; Timeout := "5s"; RetryAttempts := 3;
      Services := [sample.namedService "example-api"; sample.namedService "db"] |}, None).
Proof. reflexivity. Qed.

Example AddService_duplicate :
  AddService sample.initialConfig (sample.namedService "example-api") =
  (sample.initialConfig, Some "service with name 'example-api' already exists").
Proof. reflexivity. Qed.

(** C10. [Config.AddService] returns an error exactly when a service of
    the same name is already present; on that error the configuration is
    unchanged; otherwise the new service is appended at the end, every
    service already present stays where it was, the other settings are
    untouched, and if the names were pairwise distinct they still are. *)
Theorem AddService_spec (c : Config) (service : Service) :
  let c' := fst (AddService c service) in
  let err := snd (AddService c service) in
  (err <> None <-> exists s, In s (Services c) /\ Name s = Name service) /\
  (err <> None -> c' = c) /\
  (err = None ->
     Services c' = Services c ++ [service] /\
     (forall i s, Services c !! i = Some s -> Services c' !! i = Some s) /\
     CheckInterval c' = CheckInterval c /\ Timeout c' = Timeout c /\
     RetryAttempts c' = RetryAttempts c) /\
  (NoDup (names c) -> NoDup (names c')).
Proof.
  unfold AddService, names.
  destruct (findName (Services c) (Name service)) as [s|] eqn:F; simpl.
  - apply findName_Some in F. destruct F as [Hin Hn].
    repeat split; try (intros; congruence); eauto.
  - pose proof (proj1 (findName_None _ _) F) as Hfresh.
    repeat split; try (intros; congruence).
    + intros (s & Hin & Hn). exfalso. apply Hfresh. rewrite <- Hn.
      now apply in_map.
    + intros i s Hi. now apply lookup_app_l_Some.
    + intros Hnd. rewrite map_app. simpl.
      apply NoDup_app. split; [exact Hnd|]. split.
      * intros x Hx Hx'. apply list_elem_of_In in Hx.
        apply list_elem_of_In in Hx'. simpl in Hx'.
        destruct Hx' as [<-|[]]. now apply Hfresh.
      * apply NoDup_singleton.
Qed.

Lemma AddService_spec_witness :
  NoDup (names sample.initialConfig) /\
  NoDup (names (fst (AddService sample.initialConfig (sample.namedService "db")))).
Proof.
  assert (H : NoDup (names sample.initialConfig)).
  { apply (NoDup_singleton "example-api"). }
  split; [exact H|].
  exact (proj2 (proj2 (proj2 (AddService_spec sample.initialConfig (sample.namedService "db")))) H).
Defined.

End config_facts.

(* ===================================================================== *)
(** ** Properties of the checkers and of the Monitor *)
(* ===================================================================== *)

Module monitor_facts.
Import config monitor spec.

Section Generic.
Context {F : Formatting} {P : gjson.Parser}.

Ltac break_match :=
  match goal with
  | |- context [match ?x with _ => _ end] => destruct x eqn:?
  end.

Ltac unfold_checks :=
  unfold HTTPChecker_Check, TCPChecker_Check, TLSChecker_Check, DNSChecker_Check,
    LatencyChecker_Check.

Lemma Check_status (c : Checker) (w : World) (s : Service) :
  Status_ (Check c w s) = StatusHealthy \/ Status_ (Check c w s) = StatusUnhealthy.
Proof.
  destruct c; cbn [Check]; unfold_checks; repeat break_match; cbn; auto.
Qed.

Lemma Check_ServiceName (c : Checker) (w : World) (s : Service) :
  ServiceName (Check c w s) = Name s.
Proof.
  destruct c; cbn [Check]; unfold_checks; repeat break_match; reflexivity.
Qed.

(** A healthy result carries no error. *)
Lemma Check_healthy_no_error (c : Checker) (w : World) (s : Service) :
  Status_ (Check c w s) = StatusHealthy -> Error (Check c w s) = None.
Proof.
  destruct c; cbn [Check]; unfold_checks; repeat break_match; cbn;
    solve [reflexivity | discriminate].
Qed.

(** A result without an error is healthy, unless it is the HTTP checker's
    answer to an unexpected status code. *)
Lemma Check_no_error (c : Checker) (w : World) (s : Service) :
  Error (Check c w s) = None ->
  Status_ (Check c w s) = StatusHealthy \/
  exists t, c = HTTPChecker t /\ statusMismatch t w s = true.
Proof.
  destruct c; cbn [Check].
  - intros E.
    destruct (Bool.bool_dec (statusMismatch timeout w s) true) as [M|M];
      [right; now exists timeout | left].
    revert E M. unfold HTTPChecker_Check, statusMismatch.
    repeat break_match; cbn; congruence.
  - unfold_checks; repeat break_match; cbn; intros E; solve [now left | discriminate].
  - unfold_checks; repeat break_match; cbn; intros E; solve [now left | discriminate].
  - unfold_checks; repeat break_match; cbn; intros E; solve [now left | discriminate].
  - unfold_checks; repeat break_match; cbn; intros E; solve [now left | discriminate].
Qed.

Lemma HTTP_mismatch (t : time.Duration) (w : World) (s : Service) :
  statusMismatch t w s = true ->
  exists resp,
    Do w t (newRequest s) = inl resp /\
    Status_ (HTTPChecker_Check t w s) = StatusUnhealthy /\
    Error (HTTPChecker_Check t w s) = None /\
    Message (HTTPChecker_Check t w s) =
      "Expected " +:+ fmt_d (expectedStatusOf s) +:+ ", got " +:+ fmt_d (resp_StatusCode resp).
Proof.
  unfold statusMismatch, HTTPChecker_Check.
  destruct (NewRequestWithContext w _ _); [discriminate|].
  destruct (Do w t (newRequest s)) as [resp|]; [|discriminate].
  destruct (resp_Body resp); [|discriminate].
  intros ->. exists resp. cbn. auto.
Qed.


(** *** Readings of traces *)

Lemma published_app (a b : list Event) : published (a ++ b) = published a ++ published b.
Proof. induction a as [|[] a IH]; simpl; congruence. Qed.

Lemma probed_app (a b : list Event) : probed (a ++ b) = probed a ++ probed b.
Proof. induction a as [|[] a IH]; simpl; congruence. Qed.

Lemma slept_app (a b : list Event) : slept (a ++ b) = slept a ++ slept b.
Proof. induction a as [|[] a IH]; simpl; congruence. Qed.

Lemma notified_app (a b : list Event) : notified (a ++ b) = notified a ++ notified b.
Proof. induction a as [|[] a IH]; simpl; congruence. Qed.

Lemma readings_Notify (ts : list notify.Toast) :
  published (map Notify ts) = [] /\ probed (map Notify ts) = [] /\
  slept (map Notify ts) = [] /\ notified (map Notify ts) = ts.
Proof. induction ts as [|t ts IH]; simpl; intuition congruence. Qed.

Lemma readings_attemptsTrace (outcome : Z -> Result) (k : nat) : forall attempt,
  published (attemptsTrace outcome attempt k) = [] /\
  notified (attemptsTrace outcome attempt k) = [] /\
  probed (attemptsTrace outcome attempt k) =
    map (fun j => outcome (attempt + Z.of_nat j)) (seq 0 k) /\
  slept (attemptsTrace outcome attempt k) = repeat time.Second (k - 1).
Proof.
  induction k as [|k IH]; intros attempt; [now cbn|].
  destruct k as [|k].
  - cbn. now rewrite Z.add_0_r.
  - destruct (IH (attempt + 1)) as (Hp & Hn & Hb & Hs).
    change (attemptsTrace outcome attempt (S (S k)))
      with (Probe attempt (outcome attempt) :: Sleep time.Second ::
            attemptsTrace outcome (attempt + 1) (S k)).
    cbn [published notified probed slept].
    rewrite Hp, Hn, Hb, Hs. repeat split.
    + change (seq 0 (S (S k))) with (0%nat :: seq 1 (S k)).
      rewrite <- seq_shift, map_cons, map_map. f_equal.
      * f_equal. lia.
      * apply map_ext. intros j. f_equal. lia.
    + cbn. now rewrite Nat.sub_0_r.
Qed.

(** *** The retry loop *)

Lemma retryLoop_spec (checker : Checker) (service : Service) (world : Z -> World)
    (retries : Z) :
  let outcome := fun i => Check checker (world i) service in
  forall (fuel : nat) (attempt : Z) (result : Result),
    (0 < fuel)%nat -> attempt + Z.of_nat fuel = retries ->
    exists k : nat,
      (1 <= k <= fuel)%nat /\
      retryLoop checker service world retries fuel attempt result =
        (outcome (attempt + Z.of_nat k - 1), attemptsTrace outcome attempt k) /\
      (forall j, (j < k - 1)%nat ->
         String.eqb (Status_ (outcome (attempt + Z.of_nat j))) StatusHealthy = false) /\
      (Status_ (outcome (attempt + Z.of_nat k - 1)) = StatusHealthy \/ k = fuel).
Proof.
  intros outcome. induction fuel as [|fuel IH]; intros attempt result Hpos Hsum; [lia|].
  cbn [retryLoop].
  assert (Hlt : (attempt <? retries) = true) by (apply Z.ltb_lt; lia).
  rewrite Hlt. fold (outcome attempt).
  destruct (String.eqb_spec (Status_ (outcome attempt)) StatusHealthy) as [Hh|Hh].
  - exists 1%nat. replace (attempt + Z.of_nat 1 - 1) with attempt by lia.
    repeat split; try lia; auto.
  - destruct fuel as [|fuel].
    + assert (Hlast : (attempt <? retries - 1) = false) by (apply Z.ltb_ge; lia).
      rewrite Hlast. cbn [retryLoop app].
      exists 1%nat. replace (attempt + Z.of_nat 1 - 1) with attempt by lia.
      repeat split; try lia; auto.
    + assert (Hmore : (attempt <? retries - 1) = true) by (apply Z.ltb_lt; lia).
      rewrite Hmore.
      destruct (IH (attempt + 1) (outcome attempt)) as (k & Hk & Hrun & Hfail & Hstop);
        [lia | lia |].
      rewrite Hrun. exists (S k).
      replace (attempt + Z.of_nat (S k) - 1) with (attempt + 1 + Z.of_nat k - 1) by lia.
      split; [lia|]. split; [|split].
      * destruct k as [|k]; [lia|]. reflexivity.
      * intros [|j] Hj.
        -- rewrite Z.add_0_r. now apply String.eqb_neq.
        -- replace (attempt + Z.of_nat (S j)) with (attempt + 1 + Z.of_nat j) by lia.
           apply Hfail. lia.
      * destruct Hstop as [Hs|Hs]; [now left | right; lia].
Qed.

(** Fuel beyond the number of iterations left changes nothing: the loop
    ends by its own condition. *)
Lemma retryLoop_fuel (checker : Checker) (service : Service) (world : Z -> World)
    (retries : Z) :
  forall (fuel : nat) (attempt : Z) (result : Result) (extra : nat),
    retries <= attempt + Z.of_nat fuel ->
    retryLoop checker service world retries (fuel + extra) attempt result =
    retryLoop checker service world retries fuel attempt result.
Proof.
  induction fuel as [|fuel IH]; intros attempt result extra Hle.
  - destruct extra as [|extra]; [reflexivity|]. cbn [Nat.add retryLoop].
    assert (Hge : (attempt <? retries) = false) by (apply Z.ltb_ge; lia).
    now rewrite Hge.
  - cbn [Nat.add retryLoop]. destruct (attempt <? retries); [|reflexivity].
    destruct (String.eqb _ StatusHealthy); [reflexivity|].
    rewrite IH by lia. reflexivity.
Qed.

Lemma retriesOf_max (m : Monitor) :
  retriesOf m = Z.max (RetryAttempts (Config_ m)) 1.
Proof. unfold retriesOf. destruct (Z.ltb_spec (RetryAttempts (Config_ m)) 1); lia. Qed.

(** *** The shape of one call of [checkService] *)

Lemma checkService_unregistered (run : Run) (m : Monitor) (service : Service) :
  ctxDoneAtDispatch run = false ->
  checkers m !! checkerTypeOf service = None ->
  checkService run m service =
    (m, [Send (checkingResult run service); Send (unknownResult run service)]).
Proof. intros Hd Hc. unfold checkService. now rewrite Hd, Hc. Qed.

Lemma checkService_registered (run : Run) (m : Monitor) (service : Service)
    (checker : Checker) :
  ctxDoneAtDispatch run = false ->
  checkers m !! checkerTypeOf service = Some checker ->
  let outcome := fun i => Check checker (attemptWorld run i) service in
  exists k : nat,
    (1 <= k)%nat /\ Z.of_nat k <= retriesOf m /\
    (forall j, (j < k - 1)%nat ->
       String.eqb (Status_ (outcome (Z.of_nat j))) StatusHealthy = false) /\
    (Status_ (outcome (Z.of_nat k - 1)) = StatusHealthy \/ Z.of_nat k = retriesOf m) /\
    checkService run m service =
      (fst (trackStatus m (outcome (Z.of_nat k - 1))),
       Send (checkingResult run service) ::
       attemptsTrace outcome 0 k ++
       map Notify (snd (trackStatus m (outcome (Z.of_nat k - 1)))) ++
       (if ctxDoneAtPublish run then [] else [Send (outcome (Z.of_nat k - 1))])).
Proof.
  intros Hd Hc outcome. unfold checkService. rewrite Hd, Hc.
  assert (Hr : 1 <= retriesOf m) by (rewrite retriesOf_max; lia).
  destruct (retryLoop_spec checker service (attemptWorld run) (retriesOf m)
              (Z.to_nat (retriesOf m)) 0 zeroResult) as (k & Hk & Hrun & Hfail & Hstop);
    [lia | lia |].
  rewrite Hrun. clear Hrun.
  replace (0 + Z.of_nat k - 1) with (Z.of_nat k - 1) in * by lia.
  exists k. split; [lia|]. split; [lia|]. split; [exact Hfail|]. split.
  - destruct Hstop as [Hs|Hs]; [now left | right; lia].
  - subst outcome. cbv beta.
    now destruct (trackStatus m (Check checker (attemptWorld run (Z.of_nat k - 1)) service)).
Qed.


Lemma checkService_cancelled (run : Run) (m : Monitor) (service : Service) :
  ctxDoneAtDispatch run = true -> checkService run m service = (m, []).
Proof. intros Hd. unfold checkService. now rewrite Hd. Qed.

(** The results a call publishes: nothing, or the interim result followed
    by at most one other, which is the unknown-checker result or the
    outcome of a probe attempt. *)
Lemma checkService_published (run : Run) (m : Monitor) (service : Service) :
  published (snd (checkService run m service)) = [] \/
  (checkers m !! checkerTypeOf service = None /\
   published (snd (checkService run m service)) =
     [checkingResult run service; unknownResult run service]) \/
  exists checker i,
    checkers m !! checkerTypeOf service = Some checker /\
    published (snd (checkService run m service)) =
      checkingResult run service ::
      (if ctxDoneAtPublish run then []
       else [Check checker (attemptWorld run i) service]).
Proof.
  destruct (ctxDoneAtDispatch run) eqn:Hd.
  - left. now rewrite checkService_cancelled.
  - right. destruct (checkers m !! checkerTypeOf service) as [checker|] eqn:Hc.
    + right.
      destruct (checkService_registered run m service checker Hd Hc)
        as (k & _ & _ & _ & _ & Hrun).
      exists checker, (Z.of_nat k - 1). split; [reflexivity|].
      rewrite Hrun. cbn [snd published]. rewrite !published_app.
      destruct (readings_attemptsTrace
                  (fun i => Check checker (attemptWorld run i) service) k 0) as (-> & _).
      destruct (readings_Notify
                  (snd (trackStatus m (Check checker (attemptWorld run (Z.of_nat k - 1)) service))))
        as (-> & _).
      now destruct (ctxDoneAtPublish run).
    + left. split; [reflexivity|]. now rewrite checkService_unregistered.
Qed.

(** C1 (amended).  In every result of a checker, and in every result the
    Monitor publishes, a healthy status comes with a nil error.  In the
    other direction a nil error comes with a healthy status, except in the
    interim checking result and in the HTTP checker's answer to an
    unexpected status code, which is unhealthy with a nil error. *)
Theorem healthy_results_carry_no_error :
  (forall (c : Checker) (w : World) (s : Service),
     (Status_ (Check c w s) = StatusHealthy -> Error (Check c w s) = None) /\
     (Error (Check c w s) = None ->
        Status_ (Check c w s) = StatusHealthy \/
        exists t, c = HTTPChecker t /\ statusMismatch t w s = true /\
                  Status_ (Check c w s) = StatusUnhealthy)) /\
  (forall (run : Run) (m : Monitor) (s : Service) (r : Result),
     In r (published (snd (checkService run m s))) ->
     (Status_ r = StatusHealthy -> Error r = None) /\
     (Error r = None ->
        Status_ r = StatusHealthy \/ r = checkingResult run s \/
        exists t i, r = Check (HTTPChecker t) (attemptWorld run i) s /\
                    statusMismatch t (attemptWorld run i) s = true /\
                    Status_ r = StatusUnhealthy)).
Proof.
  assert (Hchk : forall c w s,
     (Status_ (Check c w s) = StatusHealthy -> Error (Check c w s) = None) /\
     (Error (Check c w s) = None ->
        Status_ (Check c w s) = StatusHealthy \/
        exists t, c = HTTPChecker t /\ statusMismatch t w s = true /\
                  Status_ (Check c w s) = StatusUnhealthy)).
  { intros c w s. split; [apply Check_healthy_no_error|].
    intros E. destruct (Check_no_error c w s E) as [Hh|(t & -> & Hm)]; [now left|].
    right. exists t. repeat split; try assumption.
    destruct (HTTP_mismatch t w s Hm) as (_ & _ & Hs & _). exact Hs. }
  split; [exact Hchk|].
  intros run m s r Hin.
  destruct (checkService_published run m s) as [E|[(_ & E)|(checker & i & _ & E)]];
    rewrite E in Hin.
  - destruct Hin.
  - destruct Hin as [<-|[<-|[]]].
    + split; [discriminate | intros _; right; now left].
    + split; discriminate.
  - destruct Hin as [<-|Hin].
    + split; [discriminate | intros _; right; now left].
    + destruct (ctxDoneAtPublish run); [destruct Hin|].
      destruct Hin as [<-|[]].
      destruct (Hchk checker (attemptWorld run i) s) as [H1 H2].
      split; [exact H1|]. intros E'.
      destruct (H2 E') as [Hh|(t & -> & Hm & Hs)]; [now left|].
      right; right. now exists t, i.
Qed.

(** C3.  For a service with a registered checker, [checkService] makes
    [k] sequential attempts, numbered from 0, with [1 <= k <= max(r, 1)]
    for the configured [retryAttempts = r]: every attempt before the last
    made is not healthy, the last made is healthy or is attempt
    [max(r, 1) - 1], a pause of exactly one second separates consecutive
    attempts and nothing follows the last, and the result published
    after the interim one is the outcome of the last attempt made. *)
Theorem retry_policy (run : Run) (m : Monitor) (service : Service) (checker : Checker) :
  ctxDoneAtDispatch run = false ->
  checkers m !! checkerTypeOf service = Some checker ->
  let outcome := fun i : Z => Check checker (attemptWorld run i) service in
  let events := snd (checkService run m service) in
  let n := Z.max (RetryAttempts (Config_ m)) 1 in
  exists k : nat,
    1 <= Z.of_nat k <= n /\
    probed events = map (fun j => outcome (Z.of_nat j)) (seq 0 k) /\
    (forall j, (j < k - 1)%nat -> Status_ (outcome (Z.of_nat j)) <> StatusHealthy) /\
    (Status_ (outcome (Z.of_nat k - 1)) = StatusHealthy \/ Z.of_nat k = n) /\
    slept events = repeat time.Second (k - 1) /\
    (exists toasts,
       events = Send (checkingResult run service) :: attemptsTrace outcome 0 k ++
                map Notify toasts ++
                (if ctxDoneAtPublish run then [] else [Send (outcome (Z.of_nat k - 1))])) /\
    published events =
      checkingResult run service ::
      (if ctxDoneAtPublish run then [] else [outcome (Z.of_nat k - 1)]).
Proof.
  intros Hd Hc outcome events n.
  destruct (checkService_registered run m service checker Hd Hc)
    as (k & Hk1 & Hk2 & Hfail & Hstop & Hrun).
  fold outcome in Hfail, Hstop, Hrun.
  rewrite retriesOf_max in Hk2, Hstop. fold n in Hk2, Hstop.
  destruct (readings_attemptsTrace outcome k 0) as (Hp & Hn & Hb & Hs).
  destruct (readings_Notify (snd (trackStatus m (outcome (Z.of_nat k - 1)))))
    as (Tp & Tb & Ts & Tn).
  assert (Hev : events =
    Send (checkingResult run service) :: attemptsTrace outcome 0 k ++
    map Notify (snd (trackStatus m (outcome (Z.of_nat k - 1)))) ++
    (if ctxDoneAtPublish run then [] else [Send (outcome (Z.of_nat k - 1))])).
  { unfold events. now rewrite Hrun. }
  exists k. split; [lia|].
  split; [|split; [|split; [|split; [|split]]]].
  - rewrite Hev. cbn [probed]. rewrite !probed_app, Hb, Tb.
    destruct (ctxDoneAtPublish run); cbn [probed]; now rewrite !app_nil_r.
  - intros j Hj. apply String.eqb_neq. now apply Hfail.
  - exact Hstop.
  - rewrite Hev. cbn [slept]. rewrite !slept_app, Hs, Ts.
    destruct (ctxDoneAtPublish run); cbn [slept]; now rewrite !app_nil_r.
  - eexists. exact Hev.
  - rewrite Hev. cbn [published]. rewrite !published_app, Hp, Tp.
    now destruct (ctxDoneAtPublish run).
Qed.

(** C5.  A service whose check type (http when empty) has no registered
    checker gets no probe attempt, no pause and no notification, and the
    status tracker is left as it was; once the check is dispatched,
    exactly one result follows the interim one: status unknown, with an
    "unknown checker type" error that names the type. *)
Theorem unknown_checker_type (run : Run) (m : Monitor) (service : Service) :
  checkers m !! checkerTypeOf service = None ->
  let events := snd (checkService run m service) in
  probed events = [] /\ slept events = [] /\ notified events = [] /\
  fst (checkService run m service) = m /\
  checkerTypeOf service = (if String.eqb (Type_ service) "" then "http" else Type_ service) /\
  (ctxDoneAtDispatch run = false ->
     published events = [checkingResult run service; unknownResult run service] /\
     Status_ (unknownResult run service) = StatusUnknown /\
     Error (unknownResult run service) =
       Some ("unknown checker type: " +:+ checkerTypeOf service)).
Proof.
  intros Hc events. unfold events.
  destruct (ctxDoneAtDispatch run) eqn:Hd.
  - rewrite checkService_cancelled by exact Hd. cbn. repeat split; discriminate.
  - rewrite checkService_unregistered by assumption. cbn. repeat split.
Qed.

(** C9.  A check that is dispatched and not cancelled publishes exactly two
    results: first, before anything else happens, the interim result with
    status checking; then one terminal result for the same service, whose
    status is healthy, unhealthy or unknown, and so never checking. *)
Theorem published_sequence (run : Run) (m : Monitor) (service : Service) :
  ctxDoneAtDispatch run = false ->
  ctxDoneAtPublish run = false ->
  exists (terminal : Result) (rest : list Event),
    snd (checkService run m service) = Send (checkingResult run service) :: rest /\
    published rest = [terminal] /\
    published (snd (checkService run m service)) = [checkingResult run service; terminal] /\
    Status_ (checkingResult run service) = StatusChecking /\
    ServiceName (checkingResult run service) = Name service /\
    ServiceName terminal = Name service /\
    (Status_ terminal = StatusHealthy \/ Status_ terminal = StatusUnhealthy \/
     Status_ terminal = StatusUnknown) /\
    Status_ terminal <> StatusChecking.
Proof.
  intros Hd Hp.
  destruct (checkers m !! checkerTypeOf service) as [checker|] eqn:Hc.
  - destruct (checkService_registered run m service checker Hd Hc)
      as (k & _ & _ & _ & _ & Hrun).
    set (terminal := Check checker (attemptWorld run (Z.of_nat k - 1)) service) in *.
    destruct (readings_attemptsTrace
                (fun i => Check checker (attemptWorld run i) service) k 0) as (Ha & _).
    destruct (readings_Notify (snd (trackStatus m terminal))) as (Tp & _).
    rewrite Hrun, Hp. cbn [snd].
    exists terminal. eexists. split; [reflexivity|].
    cbn [published]. rewrite !published_app, Ha, Tp. cbn [published app].
    split; [reflexivity|]. split; [reflexivity|]. split; [reflexivity|].
    split; [reflexivity|]. split; [apply Check_ServiceName|].
    fold terminal.
    destruct (Check_status checker (attemptWorld run (Z.of_nat k - 1)) service) as [E|E];
      fold terminal in E; rewrite E; split; auto; discriminate.
  - rewrite checkService_unregistered by assumption. cbn [snd].
    exists (unknownResult run service), [Send (unknownResult run service)].
    cbn. repeat split; auto.
Qed.

(** *** The status tracker and the notification step *)

Lemma notifyOnChange_length (n : notify.Notifier) (previous : Status) (result : Result) :
  notify.enabled n = true ->
  isStatus previous -> isStatus (Status_ result) ->
  length (notifyOnChange n previous result) =
    (if transitionNotified previous (Status_ result) then 1 else 0)%nat.
Proof.
  intros Hen Hp Hn.
  unfold notifyOnChange, notify.NotifyStatusChange, notify.NotifyRecovery,
    notify.NotifyFailure, transitionNotified.
  cbn [toCheckResult notify.Status_]. rewrite Hen.
  destruct Hp as [->|[->|[->| ->]]]; destruct Hn as [E|[E|[E|E]]]; rewrite E;
    reflexivity.
Qed.

Lemma initStatuses_lookup (services : list Service) (name : string) :
  forall statuses : gmap string Status,
    foldl (fun statuses service => <[Name service := StatusUnknown]> statuses)
          statuses services !! name =
    if bool_decide (name ∈ map Name services) then Some StatusUnknown
    else statuses !! name.
Proof.
  induction services as [|s rest IH]; intros statuses; cbn [foldl map].
  - rewrite bool_decide_eq_false_2; [reflexivity | apply not_elem_of_nil].
  - rewrite IH. destruct (decide (name ∈ map Name rest)) as [Hin|Hout].
    + rewrite !bool_decide_eq_true_2; [reflexivity | now right | exact Hin].
    + rewrite (bool_decide_eq_false_2 _ Hout).
      destruct (decide (name = Name s)) as [->|Hne].
      * rewrite bool_decide_eq_true_2 by now left. apply lookup_insert_eq.
      * rewrite bool_decide_eq_false_2.
        -- now apply lookup_insert_ne.
        -- intros [?|?]%elem_of_cons; contradiction.
Qed.

(** The notification gate for a service that has a status on record.
    The notification step after a terminal result raises exactly one
    desktop notification when the tracked status of the service changes
    into unhealthy, or from unhealthy into healthy, with checking on
    neither side, and none otherwise (unchanged status, checking as
    source or destination, a change into unknown, unknown into healthy);
    it records the new status for that service alone.  [checkService]
    applies this step once, to the outcome of its last probe attempt; the
    unknown-checker result bypasses it.  [Start] tracks every configured
    service as unknown before the first cycle, and the notifier that
    [NewMonitor] installs is enabled. *)
Theorem notification_gate :
  (forall (m : Monitor) (result : Result),
     notify.enabled (notifier m) = true ->
     isStatus (statusOf m (ServiceName result)) ->
     isStatus (Status_ result) ->
     length (snd (trackStatus m result)) =
       (if transitionNotified (statusOf m (ServiceName result)) (Status_ result)
        then 1 else 0)%nat /\
     statusOf (fst (trackStatus m result)) (ServiceName result) = Status_ result /\
     (forall name, name <> ServiceName result ->
        statusOf (fst (trackStatus m result)) name = statusOf m name)) /\
  (forall (run : Run) (m : Monitor) (service : Service) (checker : Checker),
     ctxDoneAtDispatch run = false ->
     checkers m !! checkerTypeOf service = Some checker ->
     exists terminal,
       last (probed (snd (checkService run m service))) = Some terminal /\
       ServiceName terminal = Name service /\
       (Status_ terminal = StatusHealthy \/ Status_ terminal = StatusUnhealthy) /\
       notified (snd (checkService run m service)) = snd (trackStatus m terminal) /\
       fst (checkService run m service) = fst (trackStatus m terminal)) /\
  (forall (run : Run) (m : Monitor) (service : Service),
     checkers m !! checkerTypeOf service = None ->
     notified (snd (checkService run m service)) = [] /\
     fst (checkService run m service) = m) /\
  (forall (m : Monitor) (service : Service),
     In service (Services (Config_ m)) ->
     statusOf (snd (Start_setup m)) (Name service) = StatusUnknown) /\
  (forall (cfg : Config) (m : Monitor),
     NewMonitor cfg = inl m -> notify.enabled (notifier m) = true).
Proof.
  split; [|split; [|split; [|split]]].
  - intros m result Hen Hp Hn. cbn [trackStatus fst snd]. split; [|split].
    + now apply notifyOnChange_length.
    + unfold statusOf, withStatuses. cbn [serviceStatuses].
      now rewrite lookup_insert_eq.
    + intros name Hne. unfold statusOf, withStatuses. cbn [serviceStatuses].
      now rewrite lookup_insert_ne by congruence.
  - intros run m service checker Hd Hc.
    destruct (checkService_registered run m service checker Hd Hc)
      as (k & Hk & _ & _ & _ & Hrun).
    exists (Check checker (attemptWorld run (Z.of_nat k - 1)) service).
    rewrite Hrun. cbn [fst snd probed notified].
    rewrite !probed_app, !notified_app.
    destruct (readings_attemptsTrace
                (fun i => Check checker (attemptWorld run i) service) k 0)
      as (_ & -> & -> & _).
    destruct (readings_Notify
                (snd (trackStatus m (Check checker (attemptWorld run (Z.of_nat k - 1)) service))))
      as (_ & -> & _ & ->).
    split; [|split; [apply Check_ServiceName | split; [apply Check_status|]]].
    + assert (Hnil : probed (if ctxDoneAtPublish run then []
                 else [Send (Check checker (attemptWorld run (Z.of_nat k - 1)) service)]) = [])
        by now destruct (ctxDoneAtPublish run).
      rewrite Hnil, !app_nil_r.
      destruct k as [|k]; [lia|].
      rewrite seq_S, map_app. cbn [map]. rewrite last_snoc.
      f_equal. f_equal. f_equal. lia.
    + split; [|reflexivity].
      destruct (ctxDoneAtPublish run); cbn [notified app]; now rewrite app_nil_r.
  - intros run m service Hc.
    destruct (ctxDoneAtDispatch run) eqn:Hd.
    + now rewrite checkService_cancelled.
    + now rewrite checkService_unregistered.
  - intros m service Hin. unfold Start_setup, initStatuses, statusOf, withStatuses.
    cbn [snd serviceStatuses]. rewrite initStatuses_lookup.
    rewrite bool_decide_eq_true_2; [reflexivity|].
    apply list_elem_of_In, in_map, Hin.
  - intros cfg m. unfold NewMonitor.
    destruct (time.ParseDuration (Timeout cfg)); [|discriminate].
    now intros [= <-].
Qed.

(** A service with no entry in the tracker (one checked through
    [Monitor.AddService] and not configured when [Start] ran) has the
    empty status as its previous one: its first failure raises nothing. *)
Lemma untracked_first_failure_is_silent (m : Monitor) (result : Result) :
  serviceStatuses m !! ServiceName result = None ->
  Status_ result = StatusUnhealthy ->
  snd (trackStatus m result) = [].
Proof.
  intros Hnone Hs.
  assert (E : statusOf m (ServiceName result) = "")
    by exact (f_equal (default "") Hnone).
  unfold trackStatus. cbn [snd]. rewrite E.
  unfold notifyOnChange, notify.NotifyStatusChange.
  cbn [toCheckResult notify.Status_]. rewrite Hs. cbn.
  now destruct (notify.enabled (notifier m)).
Qed.

(** *** JSON comparisons *)

Lemma compareValue_by_kind (actual : gjson.Result) (expected : any) (operator : string) :
  compareValue actual expected operator =
  match operatorKind operator with
  | OpEquals => jsonValueEquals actual expected
  | OpNotEquals => negb (jsonValueEquals actual expected)
  | OpGreater => jsonGreaterThan actual expected
  | OpLess => jsonLessThan actual expected
  | OpGreaterOrEqual => jsonGreaterOrEqual actual expected
  | OpLessOrEqual => jsonLessOrEqual actual expected
  | OpContains => jsonContains actual expected
  | OpUnsupported => false
  end.
Proof.
  unfold compareValue, operatorKind.
  repeat (match goal with |- context [if ?b then _ else _] => destruct b end;
          try reflexivity).
Qed.

(** C7 (amended).  [compareValue] supports ==/equals, !=/not_equals, >, <,
    >=, <= and contains, in any letter case, and is false for any other
    operator.  A numeric operator is true only for a float64 expected
    value; contains is the substring test on a string expected value and
    true only for one.  A comparison whose expected value has a type the
    operator does not work on is false, except under !=/not_equals, where
    it is true.  No comparison raises an error: [compareValue] is a total
    function into [bool]. *)
Theorem compareValue_operators (actual : gjson.Result) (expected : any) (operator : string) :
  let k := operatorKind operator in
  let outcome := compareValue actual expected operator in
  map operatorKind ["=="; "equals"; "!="; "not_equals"; ">"; "<"; ">="; "<="; "contains";
                    "Equals"; "NOT_EQUALS"; "Contains"; "=~"; ""] =
    [OpEquals; OpEquals; OpNotEquals; OpNotEquals; OpGreater; OpLess;
     OpGreaterOrEqual; OpLessOrEqual; OpContains;
     OpEquals; OpNotEquals; OpContains; OpUnsupported; OpUnsupported] /\
  (k = OpUnsupported -> outcome = false) /\
  (k = OpEquals -> outcome = jsonValueEquals actual expected) /\
  (k = OpNotEquals -> outcome = negb (jsonValueEquals actual expected)) /\
  (isNumericOperator k = true -> outcome = true -> exists v, expected = VFloat64 v) /\
  (forall v, expected = VFloat64 v ->
     (k = OpGreater -> outcome = PrimFloat.ltb v (gjson.Float actual)) /\
     (k = OpLess -> outcome = PrimFloat.ltb (gjson.Float actual) v) /\
     (k = OpGreaterOrEqual -> outcome = PrimFloat.leb v (gjson.Float actual)) /\
     (k = OpLessOrEqual -> outcome = PrimFloat.leb (gjson.Float actual) v)) /\
  (k = OpContains -> outcome = true -> exists v, expected = VString v) /\
  (k = OpContains -> forall v, expected = VString v ->
     outcome = strings.Contains (gjson.String actual) v) /\
  (typeMatches k expected = false ->
     outcome = match k with OpNotEquals => true | _ => false end).
Proof.
  intros k outcome. subst k outcome. rewrite compareValue_by_kind.
  split; [reflexivity|].
  destruct (operatorKind operator); destruct expected; cbn;
    repeat split; intros; subst; try discriminate; try reflexivity; eauto;
    repeat match goal with
    | H : _ = VFloat64 _ |- _ => injection H as <-
    | H : _ = VString _ |- _ => injection H as <-
    end; try reflexivity.
Qed.

(** *** The TLS checker *)

(** C8.  The TLS checker reports a failed handshake as unhealthy with the
    message "TLS connection failed"; with a certificate presented, a
    certificate already expired as unhealthy with an error naming the
    expiry date; a certificate still valid whose remaining days -- the
    remaining hours divided by 24, truncated to an integer -- are fewer
    than [tlsWarningDays] (30 when zero) as unhealthy with a warning; and
    any other as healthy. *)
Theorem TLS_verdict (timeout : time.Duration) (w : World) (service : Service) :
  let r := TLSChecker_Check timeout w service in
  let address := tlsAddress (URL service) in
  let warningDays := if TLSWarningDays service =? 0 then 30 else TLSWarningDays service in
  (forall err, DialWithDialer w timeout "tcp" address = inr err ->
     Status_ r = StatusUnhealthy /\ Message r = "TLS connection failed" /\
     Error r = Some ("TLS connection failed: " +:+ err)) /\
  (forall cert rest, DialWithDialer w timeout "tcp" address = inl (cert :: rest) ->
     let expiryDays :=
       time.truncate (PrimFloat.div (time.Hours (time.Sub (NotAfter cert) (NowUntil w)))
                                    (time.float64 24)) in
     (NotAfter cert < NowAfter w ->
        Status_ r = StatusUnhealthy /\
        Error r = Some ("certificate expired on " +:+ Time_Format_date (NotAfter cert))) /\
     (NowAfter w <= NotAfter cert -> expiryDays < warningDays ->
        Status_ r = StatusUnhealthy /\
        Error r = Some ("certificate expires in " +:+ fmt_d expiryDays +:+
                        " days (warning threshold: " +:+ fmt_d warningDays +:+ " days)")) /\
     (NowAfter w <= NotAfter cert -> warningDays <= expiryDays ->
        Status_ r = StatusHealthy /\ Error r = None) /\
     Message r = "Certificate expires in " +:+ fmt_d expiryDays +:+ " days").
Proof.
  intros r address warningDays. subst r address. unfold TLSChecker_Check. split.
  - intros err ->. cbn. auto.
  - intros cert rest ->.
    change (time.truncate (PrimFloat.div (time.Hours (time.Sub (NotAfter cert) (NowUntil w)))
                                         (time.float64 24)))
      with (expiryDaysOf (time.Until (NowUntil w) (NotAfter cert))).
    subst warningDays. fold (warningDaysOf service).
    set (expiryDays := expiryDaysOf (time.Until (NowUntil w) (NotAfter cert))).
    set (warningDays := warningDaysOf service).
    unfold time.After.
    destruct (Z.ltb_spec (NotAfter cert) (NowAfter w));
      destruct (Z.ltb_spec expiryDays warningDays); cbn;
      repeat split; intros; try lia; reflexivity.
Qed.


(** The branch for a handshake that presents no certificate. *)
Lemma TLS_no_certificates (timeout : time.Duration) (w : World) (service : Service) :
  DialWithDialer w timeout "tcp" (tlsAddress (URL service)) = inl [] ->
  Status_ (TLSChecker_Check timeout w service) = StatusUnhealthy /\
  Error (TLSChecker_Check timeout w service) = Some "no certificates found".
Proof. intros H. unfold TLSChecker_Check. rewrite H. cbn. auto. Qed.

(** *** JSON assertions in order *)

Lemma validate_None (body : string) (assertions : list JSONAssertion) :
  validateJSONAssertions body assertions = None <->
  forallb (passes body) assertions = true.
Proof.
  induction assertions as [|a rest IH]; cbn [validateJSONAssertions forallb];
    [tauto|].
  unfold passes at 1.
  destruct (gjson.Exists (gjson.Get body (Path a))); cbn [negb andb];
    [|split; discriminate].
  destruct (compareValue (gjson.Get body (Path a)) (Value a) (Operator a));
    cbn [negb]; [exact IH | split; discriminate].
Qed.

Lemma validate_first_failure (body : string) (pre : list JSONAssertion)
    (a : JSONAssertion) (post : list JSONAssertion) :
  forallb (passes body) pre = true ->
  passes body a = false ->
  validateJSONAssertions body (pre ++ a :: post) =
    Some (if gjson.Exists (gjson.Get body (Path a))
          then assertionFailed a (gjson.Get body (Path a))
          else pathNotFound (Path a)).
Proof.
  induction pre as [|p pre IH]; cbn [app forallb validateJSONAssertions].
  - intros _. unfold passes.
    destruct (gjson.Exists (gjson.Get body (Path a))); cbn [negb andb];
      [|reflexivity].
    now intros ->.
  - intros [Hp Hpre]%andb_prop Ha. unfold passes in Hp.
    apply andb_prop in Hp as [-> ->]. cbn [negb]. now apply IH.
Qed.

End Generic.

(** C6.  When the HTTP exchange completes (the request is built, a
    response arrives and its body is read), the result is healthy exactly
    when the status code equals the expected one (200 when
    [expectedStatusCode] is 0) and every configured JSON assertion passes.
    On another status code the result is unhealthy with message
    "Expected <expected>, got <actual>", whatever the assertions and
    whatever the JSON evaluator would answer.  With the expected code, the
    first assertion in configured order that fails decides: unhealthy,
    with the error "JSON path '<path>' not found in response" for a
    missing path, and for a false comparison the error
    "JSON assertion failed: <path> <operator> <expected>, got <actual>",
    expected and actual value printed with [%v]. *)
Theorem HTTP_verdict {F : Formatting} {P : gjson.Parser}
    (timeout : time.Duration) (w : World) (service : Service)
    (resp : Response) (body : string) :
  NewRequestWithContext w (methodOf service) (fullURL service) = None ->
  Do w timeout (newRequest service) = inl resp ->
  resp_Body resp = inl body ->
  let r := HTTPChecker_Check timeout w service in
  let code := resp_StatusCode resp in
  let expected := if ExpectedStatus service =? 0 then 200 else ExpectedStatus service in
  (Status_ r = StatusHealthy <->
     code = expected /\ forallb (passes body) (JSONAssertions service) = true) /\
  (Status_ r = StatusHealthy \/ Status_ r = StatusUnhealthy) /\
  (code <> expected ->
     Status_ r = StatusUnhealthy /\
     Message r = "Expected " +:+ fmt_d expected +:+ ", got " +:+ fmt_d code /\
     forall (P' : gjson.Parser) (assertions : list JSONAssertion),
       HTTPChecker_Check (P := P') timeout w (withAssertions assertions service) = r) /\
  (code = expected ->
     forall pre a post,
       JSONAssertions service = pre ++ a :: post ->
       forallb (passes body) pre = true ->
       passes body a = false ->
       Status_ r = StatusUnhealthy /\
       Error r = Some (if gjson.Exists (gjson.Get body (Path a))
                       then "JSON assertion failed: " +:+ Path a +:+ " " +:+
                            Operator a +:+ " " +:+ fmt_v (Value a) +:+ ", got " +:+
                            fmt_v (gjson.Value (gjson.Get body (Path a)))
                       else "JSON path '" +:+ Path a +:+ "' not found in response")).
Proof.
  intros Hreq Hdo Hbody r code expected.
  assert (Hfold : expected = expectedStatusOf service) by reflexivity.
  assert (Hr : r =
    if negb (code =? expected) then
      setMessage ("Expected " +:+ fmt_d expected +:+ ", got " +:+ fmt_d code)
        (setStatus StatusUnhealthy
           (setStatusCode code (setResponseTime (Since w) (newResult w service))))
    else
      match validateJSONAssertions body (JSONAssertions service) with
      | Some err =>
          setError err
            (setStatus StatusUnhealthy
               (setStatusCode code (setResponseTime (Since w) (newResult w service))))
      | None =>
          setMessage ("HTTP " +:+ fmt_d code)
            (setStatus StatusHealthy
               (setStatusCode code (setResponseTime (Since w) (newResult w service))))
      end).
  { subst r. unfold HTTPChecker_Check. rewrite Hreq, Hdo, Hbody.
    fold code. rewrite <- Hfold.
    destruct (negb (code =? expected)); [reflexivity|].
    destruct (JSONAssertions service); reflexivity. }
  clearbody r expected. subst r.
  destruct (Z.eqb_spec code expected) as [Heq|Hne]; cbn [negb].
  - split; [|split; [|split]].
    + rewrite <- validate_None.
      destruct (validateJSONAssertions body (JSONAssertions service)); cbn;
        split; try tauto; try discriminate.
      intros [_ ?]; discriminate.
    + destruct (validateJSONAssertions body (JSONAssertions service)); cbn; auto.
    + intros Hc. contradiction.
    + intros _ pre a post Hsplit Hpre Ha. rewrite Hsplit.
      rewrite (validate_first_failure body pre a post Hpre Ha). cbn. auto.
  - split; [|split; [|split]].
    + cbn. split; [discriminate | intros [? _]; contradiction].
    + cbn. auto.
    + intros _. split; [reflexivity|]. split; [reflexivity|].
      intros P' assertions. unfold HTTPChecker_Check.
      assert (Hs : methodOf (withAssertions assertions service) = methodOf service /\
                   fullURL (withAssertions assertions service) = fullURL service /\
                   newRequest (withAssertions assertions service) = newRequest service /\
                   expectedStatusOf (withAssertions assertions service) =
                     expectedStatusOf service /\
                   newResult w (withAssertions assertions service) = newResult w service)
        by (destruct service; repeat split).
      destruct Hs as (-> & -> & -> & -> & ->).
      rewrite Hreq, Hdo, Hbody. fold code. rewrite <- Hfold.
      destruct (Z.eqb_spec code expected); [contradiction | reflexivity].
    + intros Hc. contradiction.
Qed.

(** C2 (amended).  [NewMonitor] fails exactly when the timeout string is
    unparsable, with an "invalid timeout duration" error that wraps the
    parser's; there is no fallback to 5s.  With a parsable timeout it
    succeeds, whatever the check-interval string, and every checker gets
    that timeout; [Start] then takes the parsed check interval, or 30s
    when the check-interval string is unparsable. *)
Theorem NewMonitor_durations (cfg : Config) :
  (forall err, time.ParseDuration (Timeout cfg) = inr err ->
     NewMonitor cfg = inr ("invalid timeout duration: " +:+ err)) /\
  (forall timeout, time.ParseDuration (Timeout cfg) = inl timeout ->
     exists m, NewMonitor cfg = inl m /\ Config_ m = cfg /\
       checkers m !! "http" = Some (HTTPChecker timeout) /\
       checkers m !! "tcp" = Some (TCPChecker timeout) /\
       checkers m !! "tls" = Some (TLSChecker timeout) /\
       checkers m !! "dns" = Some (DNSChecker timeout) /\
       checkers m !! "latency" = Some (LatencyChecker timeout)) /\
  (forall m, NewMonitor cfg = inl m ->
     (forall err, time.ParseDuration (CheckInterval cfg) = inr err ->
        fst (Start_setup m) = 30 * time.Second) /\
     (forall interval, time.ParseDuration (CheckInterval cfg) = inl interval ->
        fst (Start_setup m) = interval)).
Proof.
  unfold NewMonitor.
  destruct (time.ParseDuration (Timeout cfg)) as [timeout|err] eqn:Ht.
  - split; [discriminate|]. split.
    + intros ? [= <-]. eexists. split; [reflexivity|]. cbn [Config_ checkers].
      repeat split.
    + intros m [= <-]. unfold Start_setup, checkIntervalOf. cbn [fst Config_].
      split; intros ? ->; reflexivity.
  - split; [now intros ? [= <-]|]. split; discriminate.
Qed.

(** The registry that [NewMonitor] builds knows exactly five types. *)
Lemma NewMonitor_registry (cfg : Config) (m : Monitor) (type : string) :
  NewMonitor cfg = inl m ->
  (checkers m !! type = None <->
   ~ In type ["http"; "tcp"; "tls"; "dns"; "latency"]).
Proof.
  unfold NewMonitor. destruct (time.ParseDuration (Timeout cfg)); [|discriminate].
  intros [= <-]. cbn [checkers list_to_map foldr uncurry fst snd]. split.
  - intros Hnone. repeat (apply lookup_insert_None in Hnone as [Hnone ?]).
    cbn [In]. intuition congruence.
  - intros Hout.
    repeat (rewrite lookup_insert_ne by (intros <-; apply Hout; cbn [In]; tauto)).
    apply lookup_empty.
Qed.

End monitor_facts.

(* ===================================================================== *)
(** ** Closed instances: scenarios, witnesses and counterexamples *)
(* ===================================================================== *)

Module scenarios.
Import config monitor spec monitor_facts.

#[local] Existing Instance sample.formatting.
#[local] Existing Instance sample.parser.

(** The specification's retry scenario: three attempts allowed, the probe
    fails twice and then succeeds. *)
Example fails_twice_then_succeeds :
  let events := snd (checkService (sample.run sample.flaky) (sample.started 3 [sample.svc]) sample.svc) in
  map Status_ (probed events) = ["unhealthy"; "unhealthy"; "healthy"] /\
  slept events = [time.Second; time.Second] /\
  map Status_ (published events) = ["checking"; "healthy"] /\
  notified events = [].
Proof. vm_compute. repeat split. Qed.

(** A service that goes down after the tracker saw it unknown: one
    failure notification, after three attempts and two pauses. *)
Example first_failure_notifies :
  let events :=
    snd (checkService (sample.run (fun _ => sample.down)) (sample.started 3 [sample.svc]) sample.svc) in
  length (probed events) = 3%nat /\
  slept events = [time.Second; time.Second] /\
  map Status_ (published events) = ["checking"; "unhealthy"] /\
  map notify.text (notified events) = ["Connection failed: context deadline exceeded"].
Proof. vm_compute. repeat split. Qed.

(** C1, counterexample: the server answers 404 where 200 is expected.
    The result, which the Monitor publishes as the terminal result, is
    not healthy and has a nil error. *)
Lemma unhealthy_without_error :
  let w := sample.world 404 "not found" 0 in
  let r := Check sample.http w sample.svc in
  Status_ r = StatusUnhealthy /\ Error r = None /\
  Message r = "Expected 200, got 404" /\
  published (snd (checkService (sample.run (fun _ => w)) (sample.mon 1 [sample.svc]) sample.svc)) =
    [checkingResult (sample.run (fun _ => w)) sample.svc; r].
Proof. vm_compute. repeat split. Qed.

Lemma healthy_results_carry_no_error_witness :
  Status_ (Check sample.http (sample.world 200 "ok" 0) sample.svc) = StatusHealthy /\
  Error (Check sample.http (sample.world 200 "ok" 0) sample.svc) = None.
Proof.
  assert (H : Status_ (Check sample.http (sample.world 200 "ok" 0) sample.svc) = StatusHealthy)
    by reflexivity.
  split; [exact H|].
  exact (proj1 (proj1 healthy_results_carry_no_error sample.http (sample.world 200 "ok" 0) sample.svc) H).
Defined.

(** C2, counterexample: a timeout string that does not parse makes
    [NewMonitor] fail instead of falling back to 5s. *)
Lemma unparsable_timeout_is_fatal :
  exists err,
    time.ParseDuration "5 seconds" = inr err /\
    NewMonitor (sample.cfg "5 seconds" "30s" 3 [sample.svc]) =
      inr ("invalid timeout duration: " +:+ err).
Proof. eexists. split; reflexivity. Qed.

Lemma NewMonitor_durations_witness :
  (exists err, time.ParseDuration "every minute" = inr err) /\
  fst (Start_setup (sample.monOf (sample.cfg "5s" "every minute" 3 [sample.svc]))) = 30 * time.Second.
Proof.
  assert (H : time.ParseDuration "every minute" =
              inr ("time: invalid duration " +:+ time.quote "every minute"))
    by reflexivity.
  split; [eexists; exact H|].
  exact (proj1 (proj2 (proj2 (NewMonitor_durations (sample.cfg "5s" "every minute" 3 [sample.svc])))
                  (sample.monOf (sample.cfg "5s" "every minute" 3 [sample.svc])) eq_refl) _ H).
Defined.

(** C3, witness: the flaky service, three attempts allowed. *)
Lemma retry_policy_witness :
  ctxDoneAtDispatch (sample.run sample.flaky) = false /\
  checkers (sample.mon 3 [sample.svc]) !! checkerTypeOf sample.svc = Some sample.http /\
  exists k : nat,
    1 <= Z.of_nat k <= 3 /\
    slept (snd (checkService (sample.run sample.flaky) (sample.mon 3 [sample.svc]) sample.svc)) =
      repeat time.Second (k - 1).
Proof.
  split; [reflexivity|]. split; [reflexivity|].
  destruct (retry_policy (sample.run sample.flaky) (sample.mon 3 [sample.svc]) sample.svc sample.http
              eq_refl eq_refl) as (k & Hk & _ & _ & _ & Hs & _).
  exists k. split; [exact Hk | exact Hs].
Defined.

(** The gate at the first failure of a configured service: the tracker
    holds unknown and the result is unhealthy. *)
Lemma notification_gate_witness :
  let m := sample.started 3 [sample.svc] in
  let result := Check sample.http sample.down sample.svc in
  notify.enabled (notifier m) = true /\
  statusOf m (ServiceName result) = StatusUnknown /\
  Status_ result = StatusUnhealthy /\
  length (snd (trackStatus m result)) = 1%nat.
Proof.
  split; [reflexivity|]. split; [reflexivity|]. split; [reflexivity|].
  exact (proj1 (proj1 notification_gate (sample.started 3 [sample.svc]) (Check sample.http sample.down sample.svc)
                  eq_refl
                  (or_intror (or_intror (or_intror eq_refl)))
                  (or_intror (or_intror (or_introl eq_refl))))).
Defined.

(** C4, at the failing input.  [Start] has run for a monitor configured
    with the service api, and the service billing is then handed to
    [Monitor.AddService], as the dashboard's form does.  Nothing is on
    record for billing, so its previous status reads as the empty
    string: its check ends unhealthy after three failed attempts and
    raises no notification, where the same failure of api, recorded as
    unknown by [Start], raises one. *)
Lemma added_service_first_failure_is_silent :
  let m := sample.started 3 [sample.svc] in
  let run := sample.run (fun _ => sample.down) in
  let added := Monitor_AddService run m (sample.namedService "billing") in
  let configured := checkService run m sample.svc in
  serviceStatuses m !! "billing" = None /\
  statusOf m "billing" = "" /\
  map Status_ (probed (snd added)) = ["unhealthy"; "unhealthy"; "unhealthy"] /\
  map Status_ (published (snd added)) = ["checking"; "unhealthy"] /\
  notified (snd added) = [] /\
  statusOf (fst added) "billing" = StatusUnhealthy /\
  statusOf m "api" = StatusUnknown /\
  map Status_ (published (snd configured)) = ["checking"; "unhealthy"] /\
  map notify.text (notified (snd configured)) =
    ["Connection failed: context deadline exceeded"].
Proof. vm_compute. repeat split. Qed.

(** C5, witness: a service of type redis. *)
Lemma unknown_checker_type_witness :
  checkers (sample.mon 3 []) !! checkerTypeOf (sample.service "redis") = None /\
  ctxDoneAtDispatch (sample.run sample.flaky) = false /\
  map Status_
    (published (snd (checkService (sample.run sample.flaky) (sample.mon 3 [])
                       (sample.service "redis")))) = ["checking"; "unknown"] /\
  Error (unknownResult (sample.run sample.flaky) (sample.service "redis")) =
    Some "unknown checker type: redis".
Proof.
  split; [reflexivity|]. split; [reflexivity|].
  destruct (unknown_checker_type (sample.run sample.flaky) (sample.mon 3 [])
              (sample.service "redis") eq_refl) as (_ & _ & _ & _ & _ & H).
  destruct (H eq_refl) as (Hp & _ & He).
  split; [|exact He].
  exact (f_equal (map Status_) Hp).
Defined.

(** C6, witness: the server answers 200 with the sample document; the
    first assertion passes, the second fails on its comparison, and the
    third, whose path does not exist, is not reached. *)
Lemma HTTP_verdict_witness :
  let w := sample.world 200 sample.document 0 in
  let s :=
    withAssertions
      [ {| Path := "status"; Value := VString "ok"; Operator := "==" |};
        {| Path := "status"; Value := VString "down"; Operator := "==" |};
        {| Path := "version"; Value := VString "2"; Operator := "==" |} ] sample.svc in
  NewRequestWithContext w (methodOf s) (fullURL s) = None /\
  Do w (5 * time.Second) (newRequest s) =
    inl {| resp_StatusCode := 200; resp_Body := inl sample.document |} /\
  Status_ (HTTPChecker_Check (5 * time.Second) w s) = StatusUnhealthy /\
  Error (HTTPChecker_Check (5 * time.Second) w s) =
    Some "JSON assertion failed: status == down, got ok".
Proof.
  intros w s. split; [reflexivity|]. split; [reflexivity|].
  destruct (HTTP_verdict (5 * time.Second) w s
              {| resp_StatusCode := 200; resp_Body := inl sample.document |}
              sample.document eq_refl eq_refl eq_refl) as (_ & _ & _ & H).
  exact (H eq_refl
           [ {| Path := "status"; Value := VString "ok"; Operator := "==" |} ]
           {| Path := "status"; Value := VString "down"; Operator := "==" |}
           [ {| Path := "version"; Value := VString "2"; Operator := "==" |} ]
           eq_refl eq_refl eq_refl).
Defined.

(** C7, counterexample: the expected value 5 decodes from YAML as an
    integer, a type no operator works on; under != the comparison with
    the JSON number 5 is true. *)
Lemma mismatched_not_equals_is_true :
  typeMatches (operatorKind "!=") (VInt 5) = false /\
  compareValue (sample.num 5) (VInt 5) "!=" = true.
Proof. split; reflexivity. Qed.

Lemma compareValue_operators_witness :
  isNumericOperator (operatorKind ">") = true /\
  compareValue (sample.num 3600) (VFloat64 (time.float64 0)) ">" = true /\
  exists v, VFloat64 (time.float64 0) = VFloat64 v.
Proof.
  assert (H1 : isNumericOperator (operatorKind ">") = true) by reflexivity.
  assert (H2 : compareValue (sample.num 3600) (VFloat64 (time.float64 0)) ">" = true)
    by reflexivity.
  split; [exact H1|]. split; [exact H2|].
  exact (proj1 (proj2 (proj2 (proj2 (proj2
           (compareValue_operators (sample.num 3600) (VFloat64 (time.float64 0)) ">")))))
           H1 H2).
Defined.

(** C8, witness: ten days left against the default threshold of 30. *)
Lemma TLS_verdict_witness :
  let w := sample.world 200 "ok" (10 * sample.day) in
  DialWithDialer w (5 * time.Second) "tcp" (tlsAddress (URL sample.svc)) =
    inl [ {| NotAfter := 1010 * sample.day |} ] /\
  Status_ (TLSChecker_Check (5 * time.Second) w sample.svc) = StatusUnhealthy /\
  Error (TLSChecker_Check (5 * time.Second) w sample.svc) =
    Some "certificate expires in 10 days (warning threshold: 30 days)".
Proof.
  split; [reflexivity|].
  exact (proj1 (proj2 (proj2 (TLS_verdict (5 * time.Second)
           (sample.world 200 "ok" (10 * sample.day)) sample.svc)
           {| NotAfter := 1010 * sample.day |} [] eq_refl))
           ltac:(vm_compute; discriminate) ltac:(vm_compute; reflexivity)).
Defined.

(** C9, witness: the flaky service again. *)
Lemma published_sequence_witness :
  ctxDoneAtDispatch (sample.run sample.flaky) = false /\
  ctxDoneAtPublish (sample.run sample.flaky) = false /\
  exists terminal,
    published (snd (checkService (sample.run sample.flaky) (sample.mon 3 [sample.svc]) sample.svc)) =
      [checkingResult (sample.run sample.flaky) sample.svc; terminal].
Proof.
  split; [reflexivity|]. split; [reflexivity|].
  destruct (published_sequence (sample.run sample.flaky) (sample.mon 3 [sample.svc]) sample.svc
              eq_refl eq_refl) as (terminal & rest & _ & _ & Hp & _).
  exists terminal. exact Hp.
Defined.

End scenarios.

(* ===================================================================== *)
(** ** Properties of [config.RemoveService] *)
(* ===================================================================== *)

Module config_removal.
Import config.

Lemma indexOfName_None (services : list Service) (name : string) : forall i,
  indexOfName services name i = None <-> ~ In name (map Name services).
Proof.
  induction services as [|s rest IH]; intros i; cbn [indexOfName map In]; [tauto|].
  destruct (String.eqb_spec (Name s) name) as [E|E].
  - split; [discriminate | intros H; exfalso; apply H; now left].
  - rewrite IH. tauto.
Qed.

Lemma indexOfName_Some (services : list Service) (name : string) : forall i j,
  indexOfName services name i = Some j ->
  exists pre s post,
    services = pre ++ s :: post /\ Name s = name /\
    ~ In name (map Name pre) /\ j = (i + length pre)%nat.
Proof.
  induction services as [|s rest IH]; intros i j; cbn [indexOfName]; [discriminate|].
  destruct (String.eqb_spec (Name s) name) as [E|E].
  - intros [= <-]. exists [], s, rest. cbn. repeat split; auto; lia.
  - intros H. destruct (IH _ _ H) as (pre & s' & post & -> & Hn & Hpre & ->).
    exists (s :: pre), s', post. cbn [app map In length].
    split; [reflexivity|]. split; [exact Hn|]. split; [|lia].
    intros [?|?]; [congruence | contradiction].
Qed.

Lemma indexOfName_last (services : list Service) (service : Service) : forall i,
  ~ In (Name service) (map Name services) ->
  indexOfName (services ++ [service]) (Name service) i = Some (i + length services)%nat.
Proof.
  induction services as [|s rest IH]; intros i F; cbn [app indexOfName length].
  - rewrite String.eqb_refl. f_equal. lia.
  - destruct (String.eqb_spec (Name s) (Name service)) as [E|E].
    + exfalso. apply F. now left.
    + rewrite IH; [f_equal; lia|]. intros Hin. apply F. now right.
Qed.

Lemma remove_at_middle (pre : list Service) (s : Service) (post : list Service) :
  take (length pre) (pre ++ s :: post) ++ drop (S (length pre)) (pre ++ s :: post) =
  pre ++ post.
Proof.
  rewrite take_app_length. f_equal.
  change (S (length pre)) with (1 + length pre)%nat.
  rewrite Nat.add_comm, <- drop_drop, drop_app_length. reflexivity.
Qed.

(** The shape of a successful removal. *)
Lemma RemoveService_Some (c : Config) (name : string) (i : nat) :
  indexOfName (Services c) name 0 = Some i ->
  exists pre s post,
    Services c = pre ++ s :: post /\ Name s = name /\ ~ In name (map Name pre) /\
    RemoveService c name =
      ({| CheckInterval := CheckInterval c; Timeout := Timeout c;
          RetryAttempts := RetryAttempts c; Services := pre ++ post |}, None).
Proof.
  intros H. destruct (indexOfName_Some _ _ _ _ H) as (pre & s & post & E & Hn & Hpre & ->).
  exists pre, s, post. repeat split; auto.
  unfold RemoveService. rewrite H, E. cbn [Nat.add]. now rewrite remove_at_middle.
Qed.

(** X1.  [RemoveService] returns an error exactly when no service has the
    name, and then leaves the configuration as it was; otherwise it
    removes the first service of that name and nothing else: the
    services before and after it keep their order, and the other
    settings are untouched. *)
Theorem RemoveService_spec (c : Config) (name : string) :
  let c' := fst (RemoveService c name) in
  let err := snd (RemoveService c name) in
  (err <> None <-> ~ In name (names c)) /\
  (err <> None -> c' = c /\ err = Some ("service '" +:+ name +:+ "' not found")) /\
  (err = None ->
     exists pre s post,
       Services c = pre ++ s :: post /\ Name s = name /\ ~ In name (map Name pre) /\
       Services c' = pre ++ post /\
       CheckInterval c' = CheckInterval c /\ Timeout c' = Timeout c /\
       RetryAttempts c' = RetryAttempts c).
Proof.
  destruct (indexOfName (Services c) name 0) as [i|] eqn:H.
  - destruct (RemoveService_Some c name i H) as (pre & s & post & E & Hn & Hpre & ->).
    cbn [fst snd]. split; [|split].
    + split; [congruence|]. intros Hout. exfalso. apply Hout. unfold names.
      rewrite E, map_app. apply in_or_app. right. now left.
    + congruence.
    + intros _. exists pre, s, post. repeat split; auto.
  - unfold RemoveService. rewrite H. cbn [fst snd].
    apply indexOfName_None in H. split; [|split].
    + split; [intros _; exact H | congruence].
    + auto.
    + discriminate.
Qed.

(** X2.  Removing, by its name, a service that [AddService] has just
    added gives back the configuration as it was before the addition. *)
Theorem AddService_then_RemoveService (c : Config) (service : Service) :
  snd (AddService c service) = None ->
  RemoveService (fst (AddService c service)) (Name service) = (c, None).
Proof.
  unfold AddService.
  destruct (findName (Services c) (Name service)) eqn:F; [discriminate|].
  intros _. cbn [fst].
  apply config_facts.findName_None in F.
  pose proof (indexOfName_last (Services c) service 0 F) as H. cbn [Nat.add] in H.
  unfold RemoveService. cbn [Services]. rewrite H.
  rewrite (remove_at_middle (Services c) service []), app_nil_r.
  cbn [CheckInterval Timeout RetryAttempts]. now destruct c.
Qed.

(** X3.  In a configuration whose names are pairwise distinct, a
    successful [RemoveService] frees the name: one service fewer, the
    name no longer configured, the remaining names still distinct, and
    [AddService] accepts a service of that name again. *)
Theorem RemoveService_frees_name (c : Config) (name : string) :
  NoDup (names c) ->
  snd (RemoveService c name) = None ->
  let c' := fst (RemoveService c name) in
  ~ In name (names c') /\ NoDup (names c') /\
  S (length (Services c')) = length (Services c) /\
  forall service, Name service = name -> snd (AddService c' service) = None.
Proof.
  intros Hnd Hok.
  destruct (indexOfName (Services c) name 0) as [i|] eqn:H.
  - destruct (RemoveService_Some c name i H) as (pre & s & post & E & Hn & Hpre & R).
    rewrite R. cbn [fst]. unfold names in *. cbn [Services].
    rewrite E, map_app in Hnd. cbn [map] in Hnd.
    apply NoDup_app in Hnd as (Hd1 & Hcross & Hd2).
    apply NoDup_cons in Hd2 as (Hs & Hd2).
    assert (Hfree : ~ In name (map Name (pre ++ post))).
    { rewrite map_app. intros [?|Hin]%in_app_or; [contradiction|].
      apply Hs. rewrite Hn. now apply list_elem_of_In. }
    split; [exact Hfree|]. split; [|split].
    + rewrite map_app. apply NoDup_app. repeat split; auto.
      intros x Hx Hx'. apply (Hcross x Hx). now right.
    + rewrite E, !length_app. cbn [length]. lia.
    + intros service <-. unfold AddService. cbn [Services].
      apply config_facts.findName_None in Hfree. now rewrite Hfree.
  - unfold RemoveService in Hok. rewrite H in Hok. discriminate.
Qed.

End config_removal.

(* ===================================================================== *)
(** ** The Monitor across calls and cycles *)
(* ===================================================================== *)

Module monitor_cycles.
Import config monitor spec props monitor_facts.

Section Generic.
Context {F : Formatting} {P : gjson.Parser}.

(** What a call leaves of the monitor: everything but the statuses, and
    those as [trackStatus] writes them for a registered checker. *)
Lemma checkService_state (run : Run) (m : Monitor) (service : Service) :
  fst (checkService run m service) = m \/
  exists checker i,
    checkers m !! checkerTypeOf service = Some checker /\
    fst (checkService run m service) =
      fst (trackStatus m (Check checker (attemptWorld run i) service)).
Proof.
  destruct (ctxDoneAtDispatch run) eqn:Hd.
  - left. now rewrite checkService_cancelled.
  - destruct (checkers m !! checkerTypeOf service) as [checker|] eqn:Hc.
    + right.
      destruct (checkService_registered run m service checker Hd Hc)
        as (k & _ & _ & _ & _ & Hrun).
      exists checker, (Z.of_nat k - 1). split; [reflexivity|]. now rewrite Hrun.
    + left. now rewrite checkService_unregistered.
Qed.

(** X4.  The status tracker only ever holds unknown, healthy or
    unhealthy: this is so once [Start] has initialised it for a monitor
    built by [NewMonitor], and every call of [checkService] keeps it so
    (the interim status checking is never recorded); a call changes
    nothing of the monitor but the recorded statuses. *)
Theorem tracker_invariant :
  (forall (cfg : Config) (m : Monitor),
     NewMonitor cfg = inl m -> settled (snd (Start_setup m))) /\
  (forall (run : Run) (m : Monitor) (service : Service),
     settled m -> settled (fst (checkService run m service))) /\
  (forall (run : Run) (m : Monitor) (service : Service),
     Config_ (fst (checkService run m service)) = Config_ m /\
     checkers (fst (checkService run m service)) = checkers m /\
     notifier (fst (checkService run m service)) = notifier m).
Proof.
  split; [|split].
  - intros cfg m. unfold NewMonitor.
    destruct (time.ParseDuration (Timeout cfg)); [|discriminate].
    intros [= <-] name s. unfold Start_setup, initStatuses, withStatuses.
    cbn [snd serviceStatuses Config_]. rewrite initStatuses_lookup.
    destruct (bool_decide _); [|rewrite lookup_empty; discriminate].
    intros [= <-]. now left.
  - intros run m service Hm.
    destruct (checkService_state run m service) as [->|(checker & i & _ & ->)];
      [exact Hm|].
    intros name s. cbn [trackStatus fst withStatuses serviceStatuses].
    destruct (decide (ServiceName (Check checker (attemptWorld run i) service) = name))
      as [<-|Hne].
    + rewrite lookup_insert_eq. intros [= <-].
      destruct (Check_status checker (attemptWorld run i) service); auto.
    + rewrite lookup_insert_ne by exact Hne. apply Hm.
  - intros run m service.
    destruct (checkService_state run m service) as [->|(checker & i & _ & ->)]; auto.
Qed.

(** X5.  Cancellation at the final [select] costs only the publication:
    the probes, pauses, notifications and the recorded status are those
    of the uncancelled call, and for a registered checker the interim
    result is the only one published.  The unknown-checker result is sent
    outside any [select], so for an unregistered type nothing changes. *)
Theorem cancelled_publish_still_tracks (run : Run) (m : Monitor) (service : Service) :
  let a := checkService run m service in
  let b := checkService (cancelAtPublish run) m service in
  fst b = fst a /\
  probed (snd b) = probed (snd a) /\ slept (snd b) = slept (snd a) /\
  notified (snd b) = notified (snd a) /\
  (checkers m !! checkerTypeOf service = None -> snd b = snd a) /\
  (forall checker, checkers m !! checkerTypeOf service = Some checker ->
     ctxDoneAtDispatch run = false ->
     published (snd b) = [checkingResult run service]).
Proof.
  cbv zeta. unfold checkService, cancelAtPublish.
  cbn [ctxDoneAtDispatch ctxDoneAtPublish attemptWorld].
  change (checkingResult {| ctxDoneAtDispatch := ctxDoneAtDispatch run;
                            ctxDoneAtPublish := true;
                            dispatchedAt := dispatchedAt run;
                            rejectedAt := rejectedAt run;
                            attemptWorld := attemptWorld run |} service)
    with (checkingResult run service).
  change (unknownResult {| ctxDoneAtDispatch := ctxDoneAtDispatch run;
                           ctxDoneAtPublish := true;
                           dispatchedAt := dispatchedAt run;
                           rejectedAt := rejectedAt run;
                           attemptWorld := attemptWorld run |} service)
    with (unknownResult run service).
  destruct (ctxDoneAtDispatch run).
  { repeat split; auto. discriminate. }
  destruct (checkers m !! checkerTypeOf service) as [checker|].
  - destruct (retryLoop checker service (attemptWorld run) (retriesOf m)
                (Z.to_nat (retriesOf m)) 0 zeroResult) as [result attempts] eqn:Hloop.
    destruct (trackStatus m result) as [m' toasts].
    cbn [fst snd probed slept notified published].
    rewrite !probed_app, !slept_app, !notified_app, !published_app.
    destruct (readings_Notify toasts) as (Tp & Tb & Ts & Tn).
    rewrite Tp, Tb, Ts, Tn.
    assert (Hpub : published attempts = []).
    { destruct (retryLoop_spec checker service (attemptWorld run) (retriesOf m)
                  (Z.to_nat (retriesOf m)) 0 zeroResult) as (k & _ & Hrun & _).
      - pose proof (retriesOf_max m). lia.
      - pose proof (retriesOf_max m). lia.
      - rewrite Hloop in Hrun. injection Hrun as _ ->.
        apply readings_attemptsTrace. }
    destruct (ctxDoneAtPublish run); cbn [probed slept notified published app];
      rewrite ?app_nil_r, ?Hpub; repeat split; auto; discriminate.
  - cbn [fst snd]. repeat split; auto. discriminate.
Qed.

(** X6.  Over two consecutive checks of a service by a monitor whose
    notifier is enabled, the second raises exactly one notification when
    its terminal status differs from the first's, and none when the
    status is unchanged. *)
Theorem steady_state_notification (run1 run2 : Run) (m : Monitor) (service : Service)
    (checker : Checker) :
  ctxDoneAtDispatch run1 = false ->
  ctxDoneAtDispatch run2 = false ->
  checkers m !! checkerTypeOf service = Some checker ->
  notify.enabled (notifier m) = true ->
  let first := checkService run1 m service in
  let second := checkService run2 (fst first) service in
  exists t1 t2,
    last (probed (snd first)) = Some t1 /\
    last (probed (snd second)) = Some t2 /\
    length (notified (snd second)) =
      (if String.eqb (Status_ t1) (Status_ t2) then 0 else 1)%nat.
Proof.
  intros Hd1 Hd2 Hc Hen first second.
  destruct (checkService_registered run1 m service checker Hd1 Hc)
    as (k1 & Hk1 & _ & _ & _ & Hrun1).
  set (t1 := Check checker (attemptWorld run1 (Z.of_nat k1 - 1)) service) in *.
  assert (Hfirst : fst first = fst (trackStatus m t1)) by (unfold first; now rewrite Hrun1).
  assert (Hc' : checkers (fst first) !! checkerTypeOf service = Some checker)
    by (rewrite Hfirst; exact Hc).
  destruct (checkService_registered run2 (fst first) service checker Hd2 Hc')
    as (k2 & Hk2 & _ & _ & _ & Hrun2).
  set (t2 := Check checker (attemptWorld run2 (Z.of_nat k2 - 1)) service) in *.
  assert (Hlast : forall (run : Run) (k : nat) (tail : list Event),
            (1 <= k)%nat -> probed tail = [] ->
            last (probed (Send (checkingResult run service) ::
                          attemptsTrace (fun i => Check checker (attemptWorld run i) service) 0 k
                          ++ tail)) =
            Some (Check checker (attemptWorld run (Z.of_nat k - 1)) service)).
  { intros run k tail Hk Ht. cbn [probed]. rewrite probed_app, Ht, app_nil_r.
    destruct (readings_attemptsTrace
                (fun i => Check checker (attemptWorld run i) service) k 0)
      as (_ & _ & -> & _).
    destruct k as [|k]; [lia|].
    rewrite seq_S, map_app. cbn [map]. rewrite last_snoc.
    f_equal. f_equal. f_equal. lia. }
  assert (Htail : forall (toasts : list notify.Toast) (b : bool) (r : Result),
            probed (map Notify toasts ++ (if b then [] else [Send r])) = []).
  { intros toasts b r. rewrite probed_app.
    destruct (readings_Notify toasts) as (_ & -> & _). now destruct b. }
  exists t1, t2. split; [|split].
  - unfold first. rewrite Hrun1. cbn [snd]. now apply Hlast.
  - unfold second. rewrite Hrun2. cbn [snd]. now apply Hlast.
  - unfold second. rewrite Hrun2. cbn [snd notified].
    rewrite !notified_app.
    destruct (readings_attemptsTrace
                (fun i => Check checker (attemptWorld run2 i) service) k2 0)
      as (_ & -> & _).
    destruct (readings_Notify (snd (trackStatus (fst first) t2))) as (_ & _ & _ & ->).
    assert (Hnil : notified (if ctxDoneAtPublish run2 then [] else [Send t2]) = [])
      by now destruct (ctxDoneAtPublish run2).
    rewrite Hnil, app_nil_r. cbn [app trackStatus snd].
    assert (Hprev : statusOf (fst first) (ServiceName t2) = Status_ t1).
    { rewrite Hfirst. unfold t2, t1. rewrite !Check_ServiceName.
      unfold statusOf. cbn [trackStatus fst withStatuses serviceStatuses].
      rewrite Check_ServiceName. now rewrite lookup_insert_eq. }
    rewrite Hprev.
    assert (Hn : notifier (fst first) = notifier m) by now rewrite Hfirst.
    rewrite Hn.
    unfold notifyOnChange, notify.NotifyStatusChange, notify.NotifyRecovery,
      notify.NotifyFailure.
    cbn [toCheckResult notify.Status_]. rewrite Hen.
    destruct (Check_status checker (attemptWorld run1 (Z.of_nat k1 - 1)) service) as [E1|E1];
      destruct (Check_status checker (attemptWorld run2 (Z.of_nat k2 - 1)) service) as [E2|E2];
      fold t1 in E1; fold t2 in E2; rewrite E1, E2; reflexivity.
Qed.

(** X7.  A service with no entry in the status tracker (one checked
    through [Monitor.AddService] without having been configured when
    [Start] ran) gets no notification from its check, whatever the
    outcome: its previous status reads as the empty string, which the
    notifier matches with no transition. *)
Theorem untracked_service_is_silent (run : Run) (m : Monitor) (service : Service) :
  serviceStatuses m !! Name service = None ->
  notified (snd (checkService run m service)) = [].
Proof.
  intros Hnone.
  destruct (ctxDoneAtDispatch run) eqn:Hd; [now rewrite checkService_cancelled|].
  destruct (checkers m !! checkerTypeOf service) as [checker|] eqn:Hc;
    [|now rewrite checkService_unregistered].
  destruct (checkService_registered run m service checker Hd Hc)
    as (k & _ & _ & _ & _ & Hrun).
  rewrite Hrun. cbn [snd notified]. rewrite !notified_app.
  destruct (readings_attemptsTrace
              (fun i => Check checker (attemptWorld run i) service) k 0)
    as (_ & -> & _).
  set (t := Check checker (attemptWorld run (Z.of_nat k - 1)) service).
  destruct (readings_Notify (snd (trackStatus m t))) as (_ & _ & _ & ->).
  assert (Hnil : notified (if ctxDoneAtPublish run then [] else [Send t]) = [])
    by now destruct (ctxDoneAtPublish run).
  rewrite Hnil, app_nil_r. cbn [app trackStatus snd].
  assert (E : statusOf m (ServiceName t) = "").
  { unfold t. rewrite Check_ServiceName. exact (f_equal (default "") Hnone). }
  rewrite E. unfold notifyOnChange, notify.NotifyStatusChange.
  cbn [toCheckResult notify.Status_].
  destruct (Check_status checker (attemptWorld run (Z.of_nat k - 1)) service) as [Es|Es];
    fold t in Es; rewrite Es; cbn; now destruct (notify.enabled (notifier m)).
Qed.

End Generic.
End monitor_cycles.

(* ===================================================================== *)
(** ** The checkers beside their verdicts *)
(* ===================================================================== *)

Module checker_facts.
Import config monitor.

Section Generic.
Context {F : Formatting} {P : gjson.Parser}.

Ltac break_check :=
  match goal with
  | |- context [match ?x with _ => _ end] => destruct x eqn:?
  end.

(** Whole milliseconds against a threshold, in nanoseconds. *)
Lemma Milliseconds_above (d threshold : Z) :
  0 <= threshold ->
  (threshold <? time.Milliseconds d) = ((threshold + 1) * time.Millisecond <=? d).
Proof.
  intros Ht. unfold time.Milliseconds, time.Millisecond, time.Microsecond, time.Nanosecond.
  destruct (Z.ltb_spec threshold (d ÷ 1000000)) as [H|H];
    destruct (Z.leb_spec ((threshold + 1) * (1000 * (1000 * 1))) d) as [H'|H'];
    try reflexivity; exfalso.
  - assert (0 <= d) by (destruct (Z.le_gt_cases 0 d); [assumption|];
                        pose proof (Z.quot_opp_l d 1000000 ltac:(lia));
                        pose proof (Z.quot_pos (- d) 1000000 ltac:(lia) ltac:(lia)); lia).
    rewrite Z.quot_div_nonneg in H by lia.
    pose proof (Z.mul_div_le d 1000000 ltac:(lia)). lia.
  - assert (0 <= d) by lia.
    rewrite Z.quot_div_nonneg in H by lia.
    pose proof (Z.div_le_lower_bound d 1000000 (threshold + 1) ltac:(lia) ltac:(lia)). lia.
Qed.

(** X8.  When the latency checker gets a response, its verdict is
    decided by the elapsed time alone: with a non-negative configured
    threshold (0 standing for 5000 ms), the service is unhealthy exactly
    when the elapsed time reaches threshold + 1 whole milliseconds, so an
    excess below one millisecond is not counted; the response's status
    code and body play no part, the result carries no status code, and an
    error is set exactly on the unhealthy verdict. *)
Theorem Latency_verdict (timeout : time.Duration) (w : World) (service : Service)
    (resp : Response) :
  NewRequestWithContext w (methodOf service) (fullURL service) = None ->
  Do w timeout (newRequest service) = inl resp ->
  0 <= LatencyThreshold service ->
  let r := LatencyChecker_Check timeout w service in
  let late := (thresholdMsOf service + 1) * time.Millisecond <=? Since w in
  Status_ r = (if late then StatusUnhealthy else StatusHealthy) /\
  (Error r = None <-> late = false) /\
  ResponseTime r = Since w /\
  StatusCode r = 0 /\
  Message r = "Latency: " +:+ fmt_d (time.Milliseconds (Since w)) +:+ "ms" /\
  forall (w' : World) (resp' : Response),
    NewRequestWithContext w' (methodOf service) (fullURL service) = None ->
    Do w' timeout (newRequest service) = inl resp' ->
    Since w' = Since w -> Now w' = Now w ->
    LatencyChecker_Check timeout w' service = r.
Proof.
  intros Hreq Hdo Hthr r late.
  assert (Hpos : 0 <= thresholdMsOf service).
  { unfold thresholdMsOf. destruct (LatencyThreshold service =? 0); lia. }
  assert (Hr : r = if late
               then setError ("latency " +:+ fmt_d (time.Milliseconds (Since w)) +:+
                              "ms exceeds threshold of " +:+
                              fmt_d (thresholdMsOf service) +:+ "ms")
                      (setStatus StatusUnhealthy
                         (setMessage ("Latency: " +:+
                                      fmt_d (time.Milliseconds (Since w)) +:+ "ms")
                            (setResponseTime (Since w) (newResult w service))))
               else setStatus StatusHealthy
                      (setMessage ("Latency: " +:+
                                   fmt_d (time.Milliseconds (Since w)) +:+ "ms")
                         (setResponseTime (Since w) (newResult w service)))).
  { unfold r, late, LatencyChecker_Check. rewrite Hreq, Hdo.
    cbn [ResponseTime setResponseTime]. now rewrite Milliseconds_above. }
  repeat split.
  - rewrite Hr. now destruct late.
  - rewrite Hr. now destruct late.
  - rewrite Hr. now destruct late.
  - rewrite Hr. now destruct late.
  - rewrite Hr. now destruct late.
  - rewrite Hr. now destruct late.
  - intros w' resp' Hreq' Hdo' Hsince Hnow. rewrite Hr.
    unfold late, LatencyChecker_Check. rewrite Hreq', Hdo'.
    cbn [ResponseTime setResponseTime]. rewrite Milliseconds_above by exact Hpos.
    unfold newResult. now rewrite Hsince, Hnow.
Qed.

(** X9.  The HTTP and the latency checker build the same request, and
    when no response comes back they give the same result: unhealthy,
    with the error set and no status code; a request that cannot be
    created leaves the response time at zero and the message empty, a
    transport failure reports the elapsed time and [Connection failed]. *)
Theorem request_failures_agree (timeout : time.Duration) (w : World) (service : Service) :
  (forall resp, Do w timeout (newRequest service) <> inl resp) \/
  NewRequestWithContext w (methodOf service) (fullURL service) <> None ->
  let r := HTTPChecker_Check timeout w service in
  LatencyChecker_Check timeout w service = r /\
  Status_ r = StatusUnhealthy /\ StatusCode r = 0 /\
  match NewRequestWithContext w (methodOf service) (fullURL service) with
  | Some err =>
      Error r = Some ("failed to create request: " +:+ err) /\
      ResponseTime r = 0 /\ Message r = ""
  | None =>
      exists err, Do w timeout (newRequest service) = inr err /\
        Error r = Some err /\ ResponseTime r = Since w /\ Message r = "Connection failed"
  end.
Proof.
  intros H r. unfold r, HTTPChecker_Check, LatencyChecker_Check.
  destruct (NewRequestWithContext w (methodOf service) (fullURL service)) as [err|].
  - cbn. repeat split; reflexivity.
  - destruct H as [H|H]; [|congruence].
    destruct (Do w timeout (newRequest service)) as [resp|err].
    + now destruct (H resp).
    + cbn. repeat split; auto. exists err. auto.
Qed.

(** X10.  Whatever a checker is asked and whatever the world answers,
    its result is named after the service and stamped with the time the
    check started; the response time is the elapsed time, or zero for a
    request that could not be created; only the HTTP checker ever reports
    a status code; and an unhealthy result always says why, in its error
    or, for an unexpected HTTP status, in its message. *)
Theorem Check_frame (checker : Checker) (w : World) (service : Service) :
  let r := Check checker w service in
  ServiceName r = Name service /\
  CheckedAt r = Now w /\
  (ResponseTime r = Since w \/
   ResponseTime r = 0 /\
   exists err, NewRequestWithContext w (methodOf service) (fullURL service) = Some err) /\
  (StatusCode r <> 0 -> exists timeout, checker = HTTPChecker timeout) /\
  (Status_ r = StatusUnhealthy -> Error r <> None \/ Message r <> "").
Proof.
  cbv zeta.
  destruct checker; cbn [Check];
    unfold HTTPChecker_Check, TCPChecker_Check, TLSChecker_Check, DNSChecker_Check,
      LatencyChecker_Check;
    repeat break_check; cbn;
    repeat split; auto; try congruence; try (intros; now eexists);
    try (right; split; [reflexivity|now eexists]);
    try (intros _; left; discriminate);
    try (intros _; right; discriminate).
Qed.

End Generic.
End checker_facts.
Module toast_facts.
Import config monitor.

Section Generic.
Context {F : Formatting} {P : gjson.Parser}.

Ltac break_check :=
  match goal with
  | |- context [match ?x with _ => _ end] => destruct x eqn:?
  end.

Lemma explained_nonempty (message : string) (err : string) : message +:+ ": " +:+ err <> "".
Proof. destruct message; discriminate. Qed.

Lemma unhealthy_explained (checker : Checker) (w : World) (service : Service) :
  Status_ (Check checker w service) = StatusUnhealthy ->
  Error (Check checker w service) = None -> Message (Check checker w service) <> "".
Proof.
  destruct checker; cbn [Check];
    unfold HTTPChecker_Check, TCPChecker_Check, TLSChecker_Check, DNSChecker_Check,
      LatencyChecker_Check;
    repeat break_check; cbn; intros Hs He;
    solve [discriminate Hs | discriminate He | discriminate].
Qed.

(** X11.  What a failure notification says.  When a check ends
    unhealthy for a service on record as healthy or unknown and the
    notifier is enabled, exactly one desktop notification is raised; it
    is titled with the name of the service, and its text is the result's
    message, followed by a colon and the error when there is one.  The
    text is never empty: every unhealthy result carries an error or a
    message. *)
Theorem failure_toast_explains (m : Monitor) (checker : Checker) (w : World)
    (service : Service) :
  let result := Check checker w service in
  notify.enabled (notifier m) = true ->
  Status_ result = StatusUnhealthy ->
  statusOf m (Name service) = StatusHealthy \/ statusOf m (Name service) = StatusUnknown ->
  exists toast,
    snd (trackStatus m result) = [toast] /\
    notify.appName toast = "Scout" /\
    notify.title toast = "⚠️  " +:+ Name service +:+ " - Health Check Failed" /\
    notify.text toast =
      match Error result with
      | Some err => Message result +:+ ": " +:+ err
      | None => Message result
      end /\
    notify.text toast <> "".
Proof.
  intros result Hen Hs Hprev.
  pose proof (monitor_facts.Check_ServiceName checker w service) as Hname.
  fold result in Hname.
  pose proof (unhealthy_explained checker w service Hs) as Hwhy. fold result in Hwhy.
  unfold trackStatus. cbn [snd]. rewrite Hname.
  unfold notifyOnChange, notify.NotifyStatusChange, notify.NotifyFailure.
  cbn [toCheckResult notify.Status_ notify.ServiceName notify.Error notify.Message].
  rewrite Hen, Hs, Hname.
  destruct Hprev as [-> | ->]; cbn; eexists; (split; [reflexivity|]); cbn;
    (repeat split; [destruct (Error result) as [err|]; [apply explained_nonempty|now apply Hwhy]]).
Qed.

End Generic.
End toast_facts.

(* ===================================================================== *)
(** ** Hosts and addresses taken from a service URL *)
(* ===================================================================== *)

Module url_facts.
Import monitor props.

Lemma append_cons (a : ascii) (s t : string) : String a s +:+ t = String a (s +:+ t).
Proof. reflexivity. Qed.

Lemma append_empty_l (t : string) : "" +:+ t = t.
Proof. reflexivity. Qed.

Lemma append_empty_r (s : string) : s +:+ "" = s.
Proof. induction s as [|a s IH]; [reflexivity|]. now rewrite append_cons, IH. Qed.

Lemma append_assoc3 (a b c : string) : (a +:+ b) +:+ c = a +:+ (b +:+ c).
Proof. induction a as [|x a IH]; [reflexivity|]. now rewrite !append_cons, IH. Qed.

Lemma prefix_empty (s : string) : String.prefix "" s = true.
Proof. now destruct s. Qed.

Lemma has_cons (c a : ascii) (s : string) :
  has c (String a s) = Ascii.eqb a c || has c s.
Proof.
  unfold has. cbn [strings.Contains String.prefix].
  destruct (ascii_dec c a) as [->|Hne].
  - now rewrite Ascii.eqb_refl, prefix_empty.
  - destruct (Ascii.eqb_spec a c) as [->|_]; [now destruct Hne|reflexivity].
Qed.

Lemma has_empty (c : ascii) : has c "" = false.
Proof. reflexivity. Qed.

Lemma has_append (c : ascii) (a b : string) : has c (a +:+ b) = has c a || has c b.
Proof.
  induction a as [|x a IH].
  - reflexivity.
  - rewrite append_cons, !has_cons, IH. now rewrite orb_assoc.
Qed.

Lemma has_before (c : ascii) (s : string) : has c (before c s) = false.
Proof.
  induction s as [|a s IH]; cbn [before]; [reflexivity|].
  destruct (Ascii.eqb a c) eqn:E; [reflexivity|]. now rewrite has_cons, E, IH.
Qed.

Lemma has_before_other (c d : ascii) (s : string) :
  has d s = false -> has d (before c s) = false.
Proof.
  induction s as [|a s IH]; cbn [before]; [reflexivity|].
  rewrite has_cons. intros [Ha Hs]%orb_false_iff.
  destruct (Ascii.eqb a c); [reflexivity|]. now rewrite has_cons, Ha, IH.
Qed.

Lemma before_absent (c : ascii) (s : string) : has c s = false -> before c s = s.
Proof.
  induction s as [|a s IH]; cbn [before]; [reflexivity|].
  rewrite has_cons. intros [Ha Hs]%orb_false_iff. now rewrite Ha, IH.
Qed.

Lemma before_append (c : ascii) (a b : string) :
  has c a = false -> before c (a +:+ String c b) = a.
Proof.
  induction a as [|x a IH].
  - intros _. rewrite append_empty_l. cbn [before]. now rewrite Ascii.eqb_refl.
  - rewrite has_cons, append_cons. intros [Hx Ha]%orb_false_iff.
    cbn [before]. now rewrite Hx, IH.
Qed.

(** The first piece of a split on a single byte. *)
Lemma Split_first (c : ascii) (s : string) : forall cur,
  strings.index (strings.splitFrom (String c EmptyString) s 0 cur) 0 = cur +:+ before c s.
Proof.
  induction s as [|a s IH]; intros cur; cbn [strings.splitFrom before].
  - cbn [strings.index nth]. now rewrite append_empty_r.
  - cbn [String.prefix]. destruct (ascii_dec c a) as [->|Hne].
    + rewrite Ascii.eqb_refl, prefix_empty. cbn [strings.index nth].
      now rewrite append_empty_r.
    + destruct (Ascii.eqb_spec a c) as [->|_]; [now destruct Hne|].
      rewrite IH. now rewrite append_assoc3, append_cons, append_empty_l.
Qed.

(** The first piece of any split starts with what was accumulated. *)
Lemma splitFrom_first_acc (sep s : string) : forall cur,
  exists x, strings.index (strings.splitFrom sep s 0 cur) 0 = cur +:+ x.
Proof.
  induction s as [|a s IH]; intros cur; cbn [strings.splitFrom].
  - exists "". cbn [strings.index nth]. now rewrite append_empty_r.
  - destruct (String.prefix sep (String a s)).
    + exists "". cbn [strings.index nth]. now rewrite append_empty_r.
    + destruct (IH (cur +:+ String a "")) as (x & Hx).
      exists (String a x). rewrite Hx.
      now rewrite append_assoc3, append_cons, append_empty_l.
Qed.

(** Bytes other than a colon never start the scheme separator. *)
Lemma splitFrom_scheme_skip (a t : string) : forall cur,
  has ":" a = false ->
  strings.splitFrom "://" (a +:+ t) 0 cur = strings.splitFrom "://" t 0 (cur +:+ a).
Proof.
  induction a as [|x a IH]; intros cur.
  - intros _. now rewrite append_empty_l, append_empty_r.
  - rewrite has_cons, append_cons. intros [Hx Ha]%orb_false_iff.
    cbn [strings.splitFrom String.prefix].
    destruct (ascii_dec ":" x) as [<-|_]; [discriminate|].
    rewrite IH by exact Ha. now rewrite append_assoc3, append_cons, append_empty_l.
Qed.

Lemma Contains_scheme (a t : string) :
  strings.Contains (a +:+ "://" +:+ t) "://" = true.
Proof.
  induction a as [|x a IH].
  - rewrite append_empty_l, !append_cons, append_empty_l.
    cbn [strings.Contains String.prefix].
    repeat (destruct (ascii_dec _ _) as [_|N]; [|now destruct N]).
    now rewrite prefix_empty.
  - rewrite append_cons. cbn [strings.Contains]. rewrite IH. apply orb_true_r.
Qed.

(** The piece after the scheme separator is the first piece of the rest. *)
Lemma Split_after_scheme (scheme t : string) :
  has ":" scheme = false ->
  strings.index (strings.Split (scheme +:+ "://" +:+ t) "://") 1 =
  strings.index (strings.splitFrom "://" t 0 "") 0.
Proof.
  intros Hs. unfold strings.Split. rewrite splitFrom_scheme_skip by exact Hs.
  rewrite !append_cons, !append_empty_l. cbn [strings.splitFrom String.prefix].
  repeat (destruct (ascii_dec _ _) as [_|N]; [|now destruct N]).
  rewrite prefix_empty. reflexivity.
Qed.

(** The first piece of a host followed by nothing or by a path. *)
Lemma host_piece (host rest : string) :
  (forall cur, strings.splitFrom "://" (host +:+ rest) 0 cur =
               strings.splitFrom "://" rest 0 (cur +:+ host)) ->
  rest = "" \/ (exists path, rest = "/" +:+ path) ->
  exists x, strings.index (strings.splitFrom "://" (host +:+ rest) 0 "") 0 = host +:+ x /\
            (x = "" \/ exists y, x = "/" +:+ y).
Proof.
  intros Hskip Hrest. rewrite Hskip, append_empty_l.
  destruct Hrest as [->|(path & ->)].
  - exists "". split; [now rewrite append_empty_r|now left].
  - rewrite append_cons, append_empty_l. cbn [strings.splitFrom String.prefix].
    destruct (ascii_dec ":" "/") as [|_]; [discriminate|].
    destruct (splitFrom_first_acc "://" path (host +:+ "/")) as (x & ->).
    exists ("/" +:+ x). split; [now rewrite append_assoc3|right; now exists x].
Qed.

(** The second stage of [hostOf]: cutting at the first slash. *)
Lemma cut_path (host x : string) :
  has "/" host = false -> x = "" \/ (exists y, x = "/" +:+ y) ->
  (if strings.Contains (host +:+ x) "/"
   then strings.index (strings.Split (host +:+ x) "/") 0 else host +:+ x) = host.
Proof.
  intros Hh [->|(y & ->)].
  - rewrite append_empty_r. change (strings.Contains host "/") with (has "/" host).
    now rewrite Hh.
  - change (strings.Contains (host +:+ "/" +:+ y) "/") with (has "/" (host +:+ "/" +:+ y)).
    rewrite has_append. change ("/" +:+ y) with (String "/" y).
    rewrite has_cons, Ascii.eqb_refl, orb_true_r.
    unfold strings.Split. rewrite Split_first, append_empty_l.
    now apply before_append.
Qed.

(** Bytes still to skip are dropped before the scan goes on. *)
Lemma splitFrom_skip (sep s : string) : forall (k : nat) (cur : string),
  strings.splitFrom sep s k cur = strings.splitFrom sep (dropBytes k s) 0 cur.
Proof.
  induction s as [|a s IH]; intros k cur.
  - now destruct k.
  - destruct k as [|k]; [reflexivity|]. cbn [strings.splitFrom dropBytes]. apply IH.
Qed.

Lemma beforeFirst_absent (sep s : string) :
  strings.Contains s sep = false -> beforeFirst sep s = s.
Proof.
  induction s as [|a s IH]; [reflexivity|]. cbn [strings.Contains beforeFirst].
  intros [Hp Hs]%orb_false_iff. now rewrite Hp, IH.
Qed.

(** The pieces of a split on a separator that is not empty: what
    precedes its first occurrence, then the pieces of what follows it. *)
Lemma splitFrom_pieces (c0 : ascii) (sep0 s : string) : forall cur : string,
  strings.splitFrom (String c0 sep0) s 0 cur =
  if strings.Contains s (String c0 sep0)
  then (cur +:+ beforeFirst (String c0 sep0) s) ::
       strings.splitFrom (String c0 sep0) (afterFirst (String c0 sep0) s) 0 ""
  else [cur +:+ s].
Proof.
  induction s as [|a s IH]; intros cur.
  - cbn. now rewrite append_empty_r.
  - cbn [strings.splitFrom strings.Contains beforeFirst afterFirst].
    destruct (String.prefix (String c0 sep0) (String a s)) eqn:Hp.
    + cbn [orb]. rewrite append_empty_r. f_equal.
      rewrite splitFrom_skip.
      change (String.length (String c0 sep0)) with (S (String.length sep0)).
      cbn [dropBytes].
      now replace (S (String.length sep0) - 1)%nat with (String.length sep0) by lia.
    + cbn [orb]. rewrite IH.
      destruct (strings.Contains s (String c0 sep0));
        now rewrite append_assoc3, append_cons, append_empty_l.
Qed.

(** The second piece of a split on the scheme separator. *)
Lemma Split_second (url : string) :
  strings.Contains url "://" = true ->
  strings.index (strings.Split url "://") 1 = beforeFirst "://" (afterFirst "://" url).
Proof.
  intros Hc. unfold strings.Split. rewrite splitFrom_pieces, Hc.
  cbn [strings.index nth]. rewrite splitFrom_pieces.
  destruct (strings.Contains (afterFirst "://" url) "://") eqn:Hnext;
    cbn [nth]; rewrite append_empty_l; [reflexivity|].
  now rewrite beforeFirst_absent.
Qed.

(** X12.  The host handed to the TLS dialler and to the resolver, for
    any URL string.  When the URL holds the scheme separator, [hostOf]
    is what precedes the first slash in the text between the first
    separator and the next one (or the end of the URL when there is no
    next one); when it holds none, what precedes the first slash of the
    URL.  It never contains a slash.  The TLS address always carries a
    port, 443 being appended exactly when the host has no colon; the
    name resolved by the DNS checker is the host up to its first colon
    and so holds neither a colon nor a slash. *)
Theorem host_shapes (url : string) :
  has "/" (hostOf url) = false /\
  (strings.Contains url "://" = true ->
   hostOf url = before "/" (beforeFirst "://" (afterFirst "://" url))) /\
  (strings.Contains url "://" = false -> hostOf url = before "/" url) /\
  tlsAddress url =
    (if has ":" (hostOf url) then hostOf url else hostOf url +:+ ":443") /\
  has ":" (tlsAddress url) = true /\
  dnsHost url = before ":" (hostOf url) /\
  has ":" (dnsHost url) = false /\ has "/" (dnsHost url) = false.
Proof.
  assert (Hcut : forall h, (if strings.Contains h "/"
                            then strings.index (strings.Split h "/") 0 else h)
                           = before "/" h).
  { intros h. change (strings.Contains h "/") with (has "/" h).
    destruct (has "/" h) eqn:E.
    - unfold strings.Split. now rewrite Split_first.
    - now rewrite before_absent. }
  assert (Hhost : has "/" (hostOf url) = false).
  { unfold hostOf. cbv zeta. rewrite Hcut. apply has_before. }
  assert (Hdns : dnsHost url = before ":" (hostOf url)).
  { unfold dnsHost. cbv zeta. change (strings.Contains (hostOf url) ":")
      with (has ":" (hostOf url)).
    destruct (has ":" (hostOf url)) eqn:E.
    - unfold strings.Split. now rewrite Split_first.
    - now rewrite before_absent. }
  assert (Htls : tlsAddress url =
            (if has ":" (hostOf url) then hostOf url else hostOf url +:+ ":443")).
  { unfold tlsAddress. cbv zeta. change (strings.Contains (hostOf url) ":")
      with (has ":" (hostOf url)). now destruct (has ":" (hostOf url)). }
  repeat split.
  - exact Hhost.
  - intros Hyes. unfold hostOf. cbv zeta. rewrite Hyes, Hcut.
    now rewrite Split_second.
  - intros Hno. unfold hostOf. cbv zeta. rewrite Hno. apply Hcut.
  - exact Htls.
  - rewrite Htls. destruct (has ":" (hostOf url)) eqn:E; [exact E|].
    rewrite has_append, has_cons, Ascii.eqb_refl. apply orb_true_r.
  - exact Hdns.
  - rewrite Hdns. apply has_before.
  - rewrite Hdns. now apply has_before_other.
Qed.

(** X13.  For a URL of the usual shape, a scheme, the separator, a host
    name, an optional port and an optional path, the checkers recover the
    parts: the TLS checker dials host:443, or host:port when a port is
    given, and the DNS checker resolves the bare host name.  The text
    before the separator is discarded whatever it is, provided it holds
    no colon. *)
Theorem host_of_url (scheme h rest : string) :
  has ":" scheme = false ->
  has ":" h = false -> has "/" h = false ->
  rest = "" \/ (exists path, rest = "/" +:+ path) ->
  (hostOf (scheme +:+ "://" +:+ h +:+ rest) = h /\
   tlsAddress (scheme +:+ "://" +:+ h +:+ rest) = h +:+ ":443" /\
   dnsHost (scheme +:+ "://" +:+ h +:+ rest) = h) /\
  forall port : string,
    port <> "" -> has ":" port = false -> has "/" port = false ->
    hostOf (scheme +:+ "://" +:+ h +:+ ":" +:+ port +:+ rest) = h +:+ ":" +:+ port /\
    tlsAddress (scheme +:+ "://" +:+ h +:+ ":" +:+ port +:+ rest) = h +:+ ":" +:+ port /\
    dnsHost (scheme +:+ "://" +:+ h +:+ ":" +:+ port +:+ rest) = h.
Proof.
  intros Hs Hh Hslash Hrest.
  assert (Hof : forall host,
            has "/" host = false ->
            (forall cur, strings.splitFrom "://" (host +:+ rest) 0 cur =
                         strings.splitFrom "://" rest 0 (cur +:+ host)) ->
            hostOf (scheme +:+ "://" +:+ host +:+ rest) = host).
  { intros host Hnos Hskip. unfold hostOf. cbv zeta.
    rewrite Contains_scheme, Split_after_scheme by exact Hs.
    destruct (host_piece host rest Hskip Hrest) as (x & -> & Hx).
    now apply cut_path. }
  split.
  - assert (E : hostOf (scheme +:+ "://" +:+ h +:+ rest) = h).
    { apply Hof; [exact Hslash|]. intros cur. now apply splitFrom_scheme_skip. }
    split; [exact E|]. unfold tlsAddress, dnsHost. cbv zeta. rewrite E.
    change (strings.Contains h ":") with (has ":" h). now rewrite Hh.
  - intros port Hne Hpc Hps.
    assert (E : hostOf (scheme +:+ "://" +:+ (h +:+ ":" +:+ port) +:+ rest) =
                h +:+ ":" +:+ port).
    { apply Hof.
      - rewrite has_append, Hslash. change (":" +:+ port) with (String ":" port).
        rewrite has_cons, Hps. reflexivity.
      - intros cur. rewrite append_assoc3.
        rewrite splitFrom_scheme_skip by exact Hh.
        destruct port as [|p port]; [now destruct Hne|].
        rewrite has_cons in Hps. apply orb_false_iff in Hps as [Hp Hps].
        rewrite !append_cons, !append_empty_l, !append_cons.
        cbn [strings.splitFrom String.prefix].
        rewrite has_cons in Hpc. apply orb_false_iff in Hpc as [Hp' Hpc].
        destruct (ascii_dec ":" ":") as [_|N]; [|now destruct N].
        destruct (ascii_dec "/" p) as [<-|_]; [discriminate|].
        destruct (ascii_dec ":" p) as [<-|_]; [discriminate|].
        rewrite splitFrom_scheme_skip by exact Hpc.
        now rewrite !append_assoc3, !append_cons, !append_empty_l. }
    rewrite !append_assoc3 in E. split; [exact E|].
    unfold tlsAddress, dnsHost. cbv zeta. rewrite E.
    change (strings.Contains (h +:+ ":" +:+ port) ":")
      with (has ":" (h +:+ ":" +:+ port)).
    rewrite has_append, append_cons, append_empty_l, has_cons, Ascii.eqb_refl, orb_true_r.
    cbn [negb]. split; [reflexivity|].
    unfold strings.Split. rewrite Split_first, append_empty_l.
    now apply before_append.
Qed.

End url_facts.

(* ===================================================================== *)
(** ** The dashboard *)
(* ===================================================================== *)

Module tui_facts.
Import props.

Lemma findRow_app (rows : list tui.ServiceState) (row : tui.ServiceState) (name : string) :
  findRow (rows ++ [row]) name =
  match findRow rows name with
  | Some r => Some r
  | None => if String.eqb (tui.Name row) name then Some row else None
  end.
Proof.
  unfold findRow. induction rows as [|r rows IH]; cbn [app find]; [reflexivity|].
  destruct (String.eqb (tui.Name r) name); [reflexivity|exact IH].
Qed.

Lemma findRow_None (rows : list tui.ServiceState) (name : string) :
  findRow rows name = None <-> name ∉ map tui.Name rows.
Proof.
  unfold findRow. induction rows as [|r rows IH]; cbn [find map].
  - split; [intros _; apply not_elem_of_nil|reflexivity].
  - rewrite not_elem_of_cons. destruct (String.eqb_spec (tui.Name r) name) as [E|E].
    + split; [discriminate|]. intros [N _]. now destruct N.
    + rewrite IH. split; [intros H; split; [congruence|exact H]|now intros [_ H]].
Qed.

Lemma replaceFirst_None (rows : list tui.ServiceState) (name : string)
    (row : tui.ServiceState) :
  tui.replaceFirst rows name row = None <-> findRow rows name = None.
Proof.
  unfold findRow. induction rows as [|r rows IH]; cbn [tui.replaceFirst find].
  - tauto.
  - destruct (String.eqb (tui.Name r) name); [split; discriminate|].
    destruct (tui.replaceFirst rows name row); [|tauto].
    split; [discriminate|]. intros H. apply IH in H. discriminate.
Qed.

Lemma replaceFirst_Some (rows rows' : list tui.ServiceState) (name : string)
    (row : tui.ServiceState) :
  tui.replaceFirst rows name row = Some rows' -> tui.Name row = name ->
  findRow rows' name = Some row /\
  (forall other, other <> name -> findRow rows' other = findRow rows other) /\
  map tui.Name rows' = map tui.Name rows /\
  name ∈ map tui.Name rows.
Proof.
  unfold findRow. revert rows'.
  induction rows as [|r rows IH]; intros rows'; cbn [tui.replaceFirst]; [discriminate|].
  intros H Hname. destruct (String.eqb_spec (tui.Name r) name) as [E|E].
  - injection H as <-. cbn [find map]. rewrite Hname, String.eqb_refl.
    repeat split.
    + intros other Hne. rewrite E.
      destruct (String.eqb_spec name other) as [->|_]; [now destruct Hne|reflexivity].
    + now rewrite E.
    + rewrite E. apply elem_of_cons. now left.
  - destruct (tui.replaceFirst rows name row) as [rest|] eqn:Hr; [|discriminate].
    injection H as <-. destruct (IH rest eq_refl Hname) as (H1 & H2 & H3 & H4).
    cbn [find map]. destruct (String.eqb_spec (tui.Name r) name) as [|_]; [contradiction|].
    repeat split.
    + exact H1.
    + intros other Hne. rewrite (H2 other Hne). reflexivity.
    + now rewrite H3.
    + apply elem_of_cons. now right.
Qed.

Lemma clampSelection_keeps (m : tui.Model) :
  tui.services (tui.clampSelection m) = tui.services m /\
  tui.spinners (tui.clampSelection m) = tui.spinners m /\
  tui.monitorConfig (tui.clampSelection m) = tui.monitorConfig m.
Proof.
  unfold tui.clampSelection.
  destruct (tui.len m =? 0); [now cbn|].
  destruct (tui.len m <=? tui.selectedIndex m); cbn;
    match goal with |- context [if ?b then _ else _] => destruct b end; now cbn.
Qed.

Lemma clampSelection_range (m : tui.Model) : selectionInRange (tui.clampSelection m).
Proof.
  unfold selectionInRange, tui.clampSelection, tui.len.
  destruct (Z.eqb_spec (Z.of_nat (length (tui.services m))) 0) as [E|E].
  - cbn. now rewrite E.
  - destruct (Z.leb_spec (Z.of_nat (length (tui.services m))) (tui.selectedIndex m)).
    + cbn. destruct (Z.ltb_spec (Z.of_nat (length (tui.services m)) - 1) 0); cbn;
        destruct (Z.eqb_spec (Z.of_nat (length (tui.services m))) 0); lia.
    + destruct (Z.ltb_spec (tui.selectedIndex m) 0); cbn;
        destruct (Z.eqb_spec (Z.of_nat (length (tui.services m))) 0); lia.
Qed.

Section Flags.
Variables TLSCheck DNSCheck TCPPingCheck LatencyCheck : config.Service -> bool.

Abbreviation rowOf := (tui.rowOf TLSCheck DNSCheck TCPPingCheck LatencyCheck).
Abbreviation updateServiceState :=
  (tui.updateServiceState TLSCheck DNSCheck TCPPingCheck LatencyCheck).
Abbreviation receive := (tui.receive TLSCheck DNSCheck TCPPingCheck LatencyCheck).

(** The rows after [updateServiceState]. *)
Lemma updateServiceState_services (m : tui.Model) (result : monitor.Result) :
  tui.services (updateServiceState m result) =
  match tui.replaceFirst (tui.services m) (monitor.ServiceName result) (rowOf m result) with
  | Some rows => rows
  | None => tui.services m ++ [rowOf m result]
  end.
Proof.
  unfold tui.updateServiceState. cbv zeta.
  set (m1 := match tui.replaceFirst _ _ _ with Some rows => _ | None => _ end).
  assert (E : tui.services m1 =
              match tui.replaceFirst (tui.services m) (monitor.ServiceName result)
                      (rowOf m result) with
              | Some rows => rows
              | None => tui.services m ++ [rowOf m result]
              end).
  { unfold m1. now destruct (tui.replaceFirst _ _ _). }
  destruct (clampSelection_keeps m1) as (Hs & _ & _).
  destruct (String.eqb _ _); [destruct (_ !! _)|]; cbn [tui.withSpinners tui.services];
    now rewrite Hs, E.
Qed.

(** The spinners after [updateServiceState]. *)
Lemma updateServiceState_spinners (m : tui.Model) (result : monitor.Result) (name : string) :
  tui.spinners (updateServiceState m result) !! name =
  if String.eqb name (monitor.ServiceName result) then
    if String.eqb (monitor.Status_ result) monitor.StatusChecking
    then Some (default tui.goldMiniDot (tui.spinners m !! name))
    else None
  else tui.spinners m !! name.
Proof.
  unfold tui.updateServiceState. cbv zeta.
  set (m1 := match tui.replaceFirst _ _ _ with Some rows => _ | None => _ end).
  assert (E : tui.spinners m1 = tui.spinners m).
  { unfold m1. now destruct (tui.replaceFirst _ _ _). }
  destruct (clampSelection_keeps m1) as (_ & Hs & _). rewrite E in Hs.
  destruct (String.eqb (monitor.Status_ result) monitor.StatusChecking).
  - destruct (tui.spinners (tui.clampSelection m1) !! monitor.ServiceName result) eqn:Hl;
      rewrite Hs in Hl; cbn [tui.withSpinners tui.spinners]; rewrite Hs.
    + destruct (String.eqb_spec name (monitor.ServiceName result)) as [->|_];
        [now rewrite Hl|reflexivity].
    + destruct (String.eqb_spec name (monitor.ServiceName result)) as [->|Hne].
      * now rewrite lookup_insert_eq, Hl.
      * now rewrite lookup_insert_ne by congruence.
  - cbn [tui.withSpinners tui.spinners]. rewrite Hs.
    destruct (String.eqb_spec name (monitor.ServiceName result)) as [->|Hne].
    + apply lookup_delete_eq.
    + now rewrite lookup_delete_ne by congruence.
Qed.

Lemma updateServiceState_selection (m : tui.Model) (result : monitor.Result) :
  selectionInRange (updateServiceState m result).
Proof.
  unfold tui.updateServiceState. cbv zeta.
  set (m1 := match tui.replaceFirst _ _ _ with Some rows => _ | None => _ end).
  pose proof (clampSelection_range m1) as H.
  destruct (String.eqb _ _); [destruct (_ !! _)|]; exact H.
Qed.

Lemma updateServiceState_config (m : tui.Model) (result : monitor.Result) :
  tui.monitorConfig (updateServiceState m result) = tui.monitorConfig m.
Proof.
  unfold tui.updateServiceState. cbv zeta.
  set (m1 := match tui.replaceFirst _ _ _ with Some rows => _ | None => _ end).
  assert (E : tui.monitorConfig m1 = tui.monitorConfig m).
  { unfold m1. now destruct (tui.replaceFirst _ _ _). }
  destruct (clampSelection_keeps m1) as (_ & _ & Hc).
  destruct (String.eqb _ _); [destruct (_ !! _)|]; cbn [tui.withSpinners tui.monitorConfig];
    now rewrite Hc, E.
Qed.

Lemma updateServiceState_rows (m : tui.Model) (result : monitor.Result) :
  let m' := updateServiceState m result in
  let name := monitor.ServiceName result in
  rowNamed m' name = Some (rowOf m result) /\
  (forall other, other <> name -> rowNamed m' other = rowNamed m other) /\
  rowNames m' =
    (if bool_decide (name ∈ rowNames m) then rowNames m else rowNames m ++ [name]).
Proof.
  cbv zeta. unfold rowNamed, rowNames. rewrite updateServiceState_services.
  destruct (tui.replaceFirst (tui.services m) (monitor.ServiceName result) (rowOf m result))
    as [rows|] eqn:Hr.
  - destruct (replaceFirst_Some _ _ _ _ Hr eq_refl) as (H1 & H2 & H3 & H4).
    rewrite bool_decide_eq_true_2 by exact H4. auto.
  - apply replaceFirst_None in Hr. pose proof Hr as Hnot. apply findRow_None in Hnot.
    rewrite bool_decide_eq_false_2 by exact Hnot.
    repeat split.
    + rewrite findRow_app, Hr. cbn [tui.rowOf tui.Name]. now rewrite String.eqb_refl.
    + intros other Hne. rewrite findRow_app.
      destruct (findRow (tui.services m) other); [reflexivity|].
      cbn [tui.rowOf tui.Name].
      destruct (String.eqb_spec (monitor.ServiceName result) other) as [E|_];
        [now destruct Hne|reflexivity].
    + now rewrite map_app.
Qed.

(** X14.  [updateServiceState] treats the rows as a table keyed by
    service name: afterwards the row of the result's service is the one
    built from the result (checking exactly when the status is checking,
    never paused), the rows of all other names are as before, a name not
    yet shown is appended after the others and the order of the names
    already shown is kept; the spinner of that name runs afterwards
    exactly when the status is checking, an existing one is kept, and the
    spinners of other names are untouched. *)
Theorem updateServiceState_keyed (m : tui.Model) (result : monitor.Result) :
  let m' := updateServiceState m result in
  let name := monitor.ServiceName result in
  let checking := String.eqb (monitor.Status_ result) monitor.StatusChecking in
  (exists row, rowNamed m' name = Some row /\
     tui.Name row = name /\ tui.Status_ row = monitor.Status_ result /\
     tui.ResponseTime row = monitor.ResponseTime result /\
     tui.Message row = monitor.Message result /\
     tui.LastChecked row = monitor.CheckedAt result /\
     tui.StatusCode row = monitor.StatusCode result /\
     tui.Error row = monitor.Error result /\
     tui.IsChecking row = checking /\ tui.Paused row = false) /\
  (forall other, other <> name ->
     rowNamed m' other = rowNamed m other /\
     tui.spinners m' !! other = tui.spinners m !! other) /\
  rowNames m' =
    (if bool_decide (name ∈ rowNames m) then rowNames m else rowNames m ++ [name]) /\
  tui.spinners m' !! name =
    (if checking then Some (default tui.goldMiniDot (tui.spinners m !! name)) else None).
Proof.
  cbv zeta. destruct (updateServiceState_rows m result) as (H1 & H2 & H3).
  split; [|split; [|split]].
  - exists (rowOf m result). split; [exact H1|]. cbn. tauto.
  - intros other Hne. split; [now apply H2|].
    rewrite updateServiceState_spinners.
    destruct (String.eqb_spec other (monitor.ServiceName result)); [contradiction|reflexivity].
  - exact H3.
  - rewrite updateServiceState_spinners. now rewrite String.eqb_refl.
Qed.

Lemma moveSelection_range (m : tui.Model) (delta : Z) :
  tui.len m <> 0 ->
  0 <= tui.selectedIndex (tui.moveSelection m delta) < tui.len m.
Proof.
  intros Hlen. unfold tui.moveSelection.
  destruct (Z.eqb_spec (tui.len m) 0) as [|_]; [contradiction|].
  assert (Hpos : 0 < tui.len m) by (unfold tui.len in *; lia).
  set (k := tui.addInt (tui.selectedIndex m) delta).
  pose proof (Z.rem_bound_abs k (tui.len m) ltac:(lia)) as Hb.
  cbn [tui.withSelectedIndex tui.selectedIndex].
  destruct (Z.ltb_spec (Z.rem k (tui.len m)) 0); lia.
Qed.

Lemma moveSelection_keeps (m : tui.Model) (delta : Z) :
  tui.services (tui.moveSelection m delta) = tui.services m /\
  tui.spinners (tui.moveSelection m delta) = tui.spinners m /\
  tui.monitorConfig (tui.moveSelection m delta) = tui.monitorConfig m.
Proof. unfold tui.moveSelection. now destruct (tui.len m =? 0). Qed.

(** X15.  The dashboard stays well formed: starting from [NewModel],
    every result received and every move of the selection leaves the
    names of the rows pairwise different, the selection on a row (zero
    when there is none), and a spinner running for exactly the names whose
    row is being checked. *)
Theorem dashboard_invariant :
  (forall monitorConfig, wellFormed (tui.NewModel monitorConfig)) /\
  (forall m result, wellFormed m -> wellFormed (updateServiceState m result)) /\
  (forall m delta, wellFormed m -> wellFormed (tui.moveSelection m delta)) /\
  (forall results m, wellFormed m -> wellFormed (receive m results)).
Proof.
  assert (Hupd : forall m result, wellFormed m -> wellFormed (updateServiceState m result)).
  { intros m result (Hnd & _ & Hsp).
    destruct (updateServiceState_rows m result) as (H1 & H2 & H3).
    split; [|split].
    - rewrite H3. destruct (bool_decide_reflect (monitor.ServiceName result ∈ rowNames m))
        as [Hin|Hout]; [exact Hnd|].
      apply NoDup_app. split; [exact Hnd|]. split.
      + intros x Hx ->%list_elem_of_singleton. contradiction.
      + apply NoDup_singleton.
    - apply updateServiceState_selection.
    - intros name. rewrite updateServiceState_spinners.
      destruct (String.eqb_spec name (monitor.ServiceName result)) as [->|Hne].
      + rewrite H1. cbn [tui.rowOf].
        destruct (String.eqb (monitor.Status_ result) monitor.StatusChecking) eqn:E.
        * split; [|intros _; now eexists].
          intros _. eexists. split; [reflexivity|]. cbn. exact E.
        * split; [intros [? ?]; discriminate|].
          intros (row & [= <-] & Hc). cbn in Hc. congruence.
      + rewrite (H2 name Hne). apply Hsp. }
  split; [|split; [|split]].
  - intros c. split; [|split].
    + apply NoDup_nil_2.
    + reflexivity.
    + intros name. cbn. rewrite lookup_empty. split.
      * intros [? ?]; discriminate.
      * intros (row & ? & _); discriminate.
  - exact Hupd.
  - intros m delta (Hnd & Hsel & Hsp).
    destruct (moveSelection_keeps m delta) as (Hs & Hp & _).
    split; [|split].
    + unfold rowNames. now rewrite Hs.
    + unfold selectionInRange in *.
      assert (Hl : tui.len (tui.moveSelection m delta) = tui.len m)
        by (unfold tui.len; now rewrite Hs).
      rewrite Hl. destruct (Z.eqb_spec (tui.len m) 0) as [E|E].
      * unfold tui.moveSelection. rewrite E. cbn. exact Hsel.
      * now apply moveSelection_range.
    + intros name. unfold rowNamed. rewrite Hs, Hp. apply Hsp.
  - intros results. induction results as [|r results IH]; intros m Hm; [exact Hm|].
    cbn [tui.receive foldl]. apply IH, Hupd, Hm.
Qed.

(** X16.  [getSelectedName] panics exactly when there are rows and the
    selection is negative.  On a selection that is in range, which is how
    [updateServiceState] and [moveSelection] leave it, it returns the
    name of the selected row and changes nothing. *)
Theorem getSelectedName_spec (m : tui.Model) :
  (tui.getSelectedName m = None <-> tui.len m <> 0 /\ tui.selectedIndex m < 0) /\
  (selectionInRange m ->
   exists name, tui.getSelectedName m = Some (m, name) /\
     (tui.len m = 0 -> name = "") /\
     (tui.len m <> 0 ->
      exists row, tui.services m !! Z.to_nat (tui.selectedIndex m) = Some row /\
                  name = tui.Name row)).
Proof.
  unfold tui.getSelectedName, selectionInRange, tui.len.
  set (n := Z.of_nat (length (tui.services m))).
  destruct (Z.eqb_spec n 0) as [E|E].
  - split.
    + split; [discriminate|]. intros [N _]. contradiction.
    + intros _. exists "". split; [reflexivity|]. split; [reflexivity|contradiction].
  - assert (Hrow : forall i, 0 <= i < n -> exists row, tui.services m !! Z.to_nat i = Some row).
    { intros i Hi. apply lookup_lt_is_Some. unfold n in Hi. lia. }
    split.
    + destruct (Z.leb_spec n (tui.selectedIndex m)) as [Hge|Hlt].
      * cbn [tui.withSelectedIndex tui.selectedIndex tui.services].
        destruct (Z.ltb_spec (n - 1) 0); [unfold n in *; lia|].
        destruct (Hrow (n - 1) ltac:(lia)) as (row & ->).
        split; [discriminate|]. intros [_ ?]. lia.
      * destruct (Z.ltb_spec (tui.selectedIndex m) 0) as [Hneg|Hnn].
        -- split; [intros _; now split|reflexivity].
        -- destruct (Hrow (tui.selectedIndex m) ltac:(lia)) as (row & ->).
           split; [discriminate|]. intros [_ ?]. lia.
    + intros Hsel. destruct (Z.leb_spec n (tui.selectedIndex m)); [lia|].
      destruct (Z.ltb_spec (tui.selectedIndex m) 0); [lia|].
      destruct (Hrow (tui.selectedIndex m) ltac:(lia)) as (row & Hr). rewrite Hr.
      exists (tui.Name row). split; [reflexivity|].
      split; [contradiction|]. intros _. now exists row.
Qed.

Lemma addInt_exact (a b : Z) :
  - 2 ^ 63 <= a + b < 2 ^ 63 -> tui.addInt a b = a + b.
Proof.
  intros H. unfold tui.addInt. rewrite Z.mod_small by lia. lia.
Qed.

(** X17.  With rows on display and no overflow of the addition,
    [moveSelection] sets the selection to the sum of the old selection
    and the step taken modulo the number of rows, whatever the old
    selection was; so from a selection in range a step forward followed
    by a step back, or the converse, returns to it, and the last row is
    followed by the first. *)
Theorem moveSelection_wraps (m : tui.Model) (delta : Z) :
  tui.len m <> 0 ->
  - 2 ^ 63 <= tui.selectedIndex m + delta < 2 ^ 63 ->
  tui.moveSelection m delta =
    tui.withSelectedIndex ((tui.selectedIndex m + delta) mod tui.len m) m /\
  (selectionInRange m -> tui.len m < 2 ^ 63 ->
   tui.moveSelection (tui.moveSelection m 1) (-1) = m /\
   tui.moveSelection (tui.moveSelection m (-1)) 1 = m /\
   (tui.selectedIndex m = tui.len m - 1 ->
    tui.selectedIndex (tui.moveSelection m 1) = 0)).
Proof.
  intros Hlen Hsum.
  assert (Hpos : 0 < tui.len m) by (unfold tui.len in *; lia).
  assert (Hmove : forall (m0 : tui.Model) (d : Z),
            0 < tui.len m0 -> - 2 ^ 63 <= tui.selectedIndex m0 + d < 2 ^ 63 ->
            tui.moveSelection m0 d =
              tui.withSelectedIndex ((tui.selectedIndex m0 + d) mod tui.len m0) m0).
  { intros m0 d Hp Hs. unfold tui.moveSelection.
    destruct (Z.eqb_spec (tui.len m0) 0) as [|_]; [lia|].
    rewrite addInt_exact by exact Hs. f_equal.
    set (k := tui.selectedIndex m0 + d). set (rows := tui.len m0) in *.
    pose proof (Z.rem_bound_abs k rows ltac:(lia)).
    pose proof (Z.mod_pos_bound k rows Hp).
    destruct (Z.ltb_spec (Z.rem k rows) 0) as [Hneg|Hnn].
    - apply Z.mod_unique_pos with (q := Z.quot k rows - 1); [lia|].
      pose proof (Z.quot_rem' k rows). lia.
    - apply Z.mod_unique_pos with (q := Z.quot k rows); [lia|].
      pose proof (Z.quot_rem' k rows). lia. }
  split; [now apply Hmove|].
  intros Hsel Hbound. unfold selectionInRange in Hsel.
  destruct (Z.eqb_spec (tui.len m) 0); [lia|].
  assert (Hback : forall d, d = 1 \/ d = -1 ->
            tui.moveSelection (tui.moveSelection m d) (- d) = m).
  { intros d Hd. rewrite (Hmove m d) by lia.
    set (s := (tui.selectedIndex m + d) mod tui.len m).
    pose proof (Z.mod_pos_bound (tui.selectedIndex m + d) (tui.len m) Hpos) as Hsb.
    rewrite Hmove.
    - cbn [tui.withSelectedIndex tui.selectedIndex].
      change (tui.len (tui.withSelectedIndex s m)) with (tui.len m).
      unfold s. rewrite Zplus_mod_idemp_l.
      replace (tui.selectedIndex m + d + - d) with (tui.selectedIndex m) by lia.
      rewrite Z.mod_small by lia. now destruct m.
    - exact Hpos.
    - cbn [tui.withSelectedIndex tui.selectedIndex]. fold s in Hsb. lia. }
  split; [exact (Hback 1 (or_introl eq_refl))|].
  split; [exact (Hback (-1) (or_intror eq_refl))|].
  intros Hlast. rewrite (Hmove m 1) by lia. cbn [tui.withSelectedIndex tui.selectedIndex].
  rewrite Hlast. replace (tui.len m - 1 + 1) with (tui.len m) by lia.
  apply Z.mod_same. lia.
Qed.

End Flags.
End tui_facts.

(* ===================================================================== *)
(** ** The dashboard and the monitor together *)
(* ===================================================================== *)

Module board_facts.
Import props tui_facts.

#[local] Set Warnings "-clear-no-such-hyp".

Lemma latest_snoc (results : list monitor.Result) (r : monitor.Result) (name : string) :
  latest (results ++ [r]) name =
  if String.eqb (monitor.ServiceName r) name then Some r else latest results name.
Proof.
  induction results as [|x results IH]; cbn [app latest].
  - now destruct (String.eqb (monitor.ServiceName r) name).
  - rewrite IH. destruct (String.eqb (monitor.ServiceName r) name); [reflexivity|].
    reflexivity.
Qed.

(** *** [dedupe] *)

Lemma dedupeFrom_spec (items : list string) : forall seen : gset string,
  NoDup (tui.dedupeFrom seen items) /\
  (forall x, x ∈ tui.dedupeFrom seen items <-> x ∈ items /\ x ∉ seen) /\
  sublist (tui.dedupeFrom seen items) items.
Proof.
  induction items as [|item items IH]; intros seen; cbn [tui.dedupeFrom].
  - split; [apply NoDup_nil_2|]. split; [|apply sublist_nil].
    intros x. rewrite elem_of_nil. tauto.
  - destruct (bool_decide_reflect (item ∈ seen)) as [Hin|Hout].
    + destruct (IH seen) as (H1 & H2 & H3). split; [exact H1|]. split.
      * intros x. rewrite H2, elem_of_cons. split; [tauto|].
        intros [[->|Hx] Hs]; [contradiction|tauto].
      * now apply sublist_cons.
    + destruct (IH ({[item]} ∪ seen)) as (H1 & H2 & H3). split; [|split].
      * apply NoDup_cons. split; [|exact H1]. rewrite H2. set_solver.
      * intros x. rewrite !elem_of_cons, H2.
        destruct (decide (x = item)) as [->|Hne]; [tauto|]. set_solver.
      * now apply sublist_skip.
Qed.

Lemma dedupeFrom_filter (x : string) (items : list string) : forall seen : gset string,
  tui.dedupeFrom ({[x]} ∪ seen) items =
  tui.dedupeFrom seen (filter (fun y => y <> x) items).
Proof.
  induction items as [|item items IH]; intros seen; [reflexivity|].
  cbn [tui.dedupeFrom]. destruct (decide (item = x)) as [->|Hne].
  - rewrite filter_cons_False by tauto.
    rewrite bool_decide_eq_true_2 by set_solver. apply IH.
  - rewrite filter_cons_True by exact Hne. cbn [tui.dedupeFrom].
    destruct (bool_decide_reflect (item ∈ seen)) as [Hin|Hout].
    + rewrite bool_decide_eq_true_2 by set_solver. apply IH.
    + rewrite bool_decide_eq_false_2 by set_solver. f_equal.
      rewrite <- IH. f_equal. set_solver.
Qed.

Lemma dedupeFrom_NoDup (items : list string) : forall seen : gset string,
  NoDup items -> (forall x, x ∈ items -> x ∉ seen) -> tui.dedupeFrom seen items = items.
Proof.
  induction items as [|item items IH]; intros seen Hnd Hseen; [reflexivity|].
  cbn [tui.dedupeFrom]. apply NoDup_cons in Hnd as [Hout Hnd].
  rewrite bool_decide_eq_false_2 by (apply Hseen, elem_of_cons; now left). f_equal.
  apply IH; [exact Hnd|]. intros x Hx.
  assert (Hs : x ∉ seen) by (apply Hseen, elem_of_cons; now right).
  set_solver.
Qed.

Lemma dedupeFrom_seen (shown items : list string) : forall seen : gset string,
  filter (fun x => x ∉ shown) (tui.dedupeFrom seen items) =
  tui.dedupeFrom (seen ∪ list_to_set shown) items.
Proof.
  induction items as [|item items IH]; intros seen; [reflexivity|].
  cbn [tui.dedupeFrom]. destruct (bool_decide_reflect (item ∈ seen)) as [Hin|Hout].
  - rewrite bool_decide_eq_true_2 by set_solver. apply IH.
  - destruct (decide (item ∈ shown)) as [Hs|Hs].
    + rewrite filter_cons_False by tauto.
      rewrite bool_decide_eq_true_2 by set_solver.
      rewrite IH. f_equal. set_solver.
    + rewrite filter_cons_True by exact Hs.
      rewrite bool_decide_eq_false_2 by set_solver.
      rewrite IH. do 2 f_equal. set_solver.
Qed.

Lemma dedupe_head (x : string) (rest : list string) :
  exists rest', tui.dedupe (x :: rest) = x :: rest'.
Proof.
  unfold tui.dedupe. cbn [tui.dedupeFrom].
  rewrite bool_decide_eq_false_2 by set_solver. now eexists.
Qed.

(** X18.  [dedupe] keeps the first occurrence of every item and
    nothing else: its result has no duplicates, has the members of its
    argument, is a subsequence of it, starts with the same item, and is
    the argument itself when that has no duplicates, so a second pass
    changes nothing. *)
Theorem dedupe_spec (items : list string) :
  NoDup (tui.dedupe items) /\
  (forall x, x ∈ tui.dedupe items <-> x ∈ items) /\
  sublist (tui.dedupe items) items /\
  (forall x rest, items = x :: rest ->
     tui.dedupe items = x :: tui.dedupe (filter (fun y => y <> x) rest)) /\
  (NoDup items -> tui.dedupe items = items) /\
  tui.dedupe (tui.dedupe items) = tui.dedupe items.
Proof.
  unfold tui.dedupe. destruct (dedupeFrom_spec items ∅) as (H1 & H2 & H3).
  split; [exact H1|]. split; [|split; [exact H3|split; [|split]]].
  - intros x. rewrite H2. set_solver.
  - intros x rest ->. cbn [tui.dedupeFrom].
    rewrite bool_decide_eq_false_2 by set_solver. f_equal. apply dedupeFrom_filter.
  - intros Hnd. apply dedupeFrom_NoDup; [exact Hnd|set_solver].
  - apply dedupeFrom_NoDup; [exact H1|set_solver].
Qed.

Section Flags.
Context {F : Formatting} {P : gjson.Parser}.
Variables TLSCheck DNSCheck TCPPingCheck LatencyCheck : config.Service -> bool.

Abbreviation rowOf := (tui.rowOf TLSCheck DNSCheck TCPPingCheck LatencyCheck).
Abbreviation updateServiceState :=
  (tui.updateServiceState TLSCheck DNSCheck TCPPingCheck LatencyCheck).
Abbreviation receive := (tui.receive TLSCheck DNSCheck TCPPingCheck LatencyCheck).
Abbreviation buildCheckLabels :=
  (tui.buildCheckLabels TLSCheck DNSCheck TCPPingCheck LatencyCheck).

Lemma baseLabel_known (svc : config.Service) : baseLabel svc ∈ baseLabels.
Proof.
  unfold baseLabel, baseLabels. cbv zeta.
  repeat match goal with |- context [if ?b then _ else _] => destruct b end;
    set_solver.
Qed.

Lemma buildCheckLabels_head (svc : config.Service) :
  exists rest, buildCheckLabels svc = baseLabel svc :: rest.
Proof.
  unfold tui.buildCheckLabels. cbv zeta. fold (baseLabel svc).
  repeat match goal with
         | |- context [if ?b then ?l ++ ?x else ?l] =>
             let l' := fresh "l" in
             assert (exists t, (if b then l ++ x else l) = baseLabel svc :: t) as (? & ->)
               by (destruct b; cbn [app]; now eexists)
         end.
  apply dedupe_head.
Qed.

(** X19.  The labels of a row: never empty and never repeated; the
    first is the label of the service's type compared without regard to
    case, HTTP standing for every type that is not tcp, tls, dns or
    latency; at most five more follow; and the label JSON is present
    exactly when the service has JSON assertions. *)
Theorem buildCheckLabels_shape (svc : config.Service) :
  NoDup (buildCheckLabels svc) /\
  (exists rest, buildCheckLabels svc = baseLabel svc :: rest) /\
  baseLabel svc ∈ baseLabels /\
  (length (buildCheckLabels svc) <= 6)%nat /\
  ("JSON" ∈ buildCheckLabels svc <-> config.JSONAssertions svc <> []).
Proof.
  unfold tui.buildCheckLabels. cbv zeta. fold (baseLabel svc).
  set (l1 := if TLSCheck svc then [baseLabel svc] ++ ["TLS"] else [baseLabel svc]).
  set (l2 := if DNSCheck svc then l1 ++ ["DNS"] else l1).
  set (l3 := if TCPPingCheck svc then l2 ++ ["TCP"] else l2).
  set (latency := if 0 <? config.LatencyThreshold svc
                  then "Latency≤" +:+ fmt_d (config.LatencyThreshold svc) +:+ "ms"
                  else "Latency").
  set (l4 := if LatencyCheck svc then l3 ++ [latency] else l3).
  set (l5 := if (0 <? length (config.JSONAssertions svc))%nat then l4 ++ ["JSON"] else l4).
  destruct (dedupeFrom_spec l5 ∅) as (Hnd & Hmem & Hsub).
  fold (tui.dedupe l5) in Hnd, Hmem, Hsub.
  assert (H4 : exists rest, l4 = baseLabel svc :: rest /\ (length rest <= 4)%nat /\
                            "JSON" ∉ l4).
  { assert (Hb : baseLabel svc <> "JSON").
    { pose proof (baseLabel_known svc) as Hk. unfold baseLabels in Hk.
      intros E. rewrite E in Hk. set_solver. }
    assert (Hl : latency <> "JSON").
    { unfold latency. destruct (0 <? config.LatencyThreshold svc); discriminate. }
    unfold l4, l3, l2, l1.
    destruct (TLSCheck svc), (DNSCheck svc), (TCPPingCheck svc), (LatencyCheck svc);
      cbn [app]; eexists; (split; [reflexivity|]); (split; [cbn; lia|]); set_solver. }
  destruct H4 as (rest & E4 & Hlen & Hjson).
  assert (H5 : exists rest', l5 = baseLabel svc :: rest' /\ (length rest' <= 5)%nat).
  { unfold l5. rewrite E4.
    destruct (0 <? length (config.JSONAssertions svc))%nat.
    - exists (rest ++ ["JSON"]). split; [reflexivity|]. rewrite length_app. cbn. lia.
    - exists rest. split; [reflexivity|lia]. }
  destruct H5 as (rest' & E5 & Hlen').
  split; [exact Hnd|]. split; [|split; [apply baseLabel_known|split]].
  - rewrite E5. apply dedupe_head.
  - apply sublist_length in Hsub.
    assert (Hl5 : length l5 = S (length rest')) by now rewrite E5.
    lia.
  - rewrite Hmem. unfold l5.
    destruct (config.JSONAssertions svc) as [|a assertions]; cbn [length Nat.ltb Nat.leb].
    + split; [intros [H _]; contradiction|congruence].
    + split; [discriminate|]. intros _. set_solver.
Qed.

Lemma rowOf_config (m1 m2 : tui.Model) (result : monitor.Result) :
  tui.monitorConfig m1 = tui.monitorConfig m2 -> rowOf m1 result = rowOf m2 result.
Proof.
  intros E. unfold tui.rowOf, tui.getServiceConfig. now rewrite E.
Qed.

Lemma receive_snoc (m : tui.Model) (results : list monitor.Result) (r : monitor.Result) :
  receive m (results ++ [r]) = updateServiceState (receive m results) r.
Proof.
  unfold tui.receive. revert m.
  induction results as [|x results IH]; intros m; cbn [app foldl]; [reflexivity|apply IH].
Qed.

Lemma receive_config (results : list monitor.Result) : forall m : tui.Model,
  tui.monitorConfig (receive m results) = tui.monitorConfig m.
Proof.
  unfold tui.receive.
  induction results as [|x results IH]; intros m; cbn [foldl]; [reflexivity|].
  rewrite IH. apply updateServiceState_config.
Qed.

Lemma receive_latest (m : tui.Model) (results : list monitor.Result) (name : string) :
  rowNamed (receive m results) name =
    match latest results name with
    | Some r => Some (rowOf m r)
    | None => rowNamed m name
    end /\
  (is_Some (tui.spinners (receive m results) !! name) <->
   match latest results name with
   | Some r => monitor.Status_ r = monitor.StatusChecking
   | None => is_Some (tui.spinners m !! name)
   end).
Proof.
  induction results as [|r results IH] using rev_ind; [now cbn|].
  rewrite receive_snoc, latest_snoc.
  destruct (updateServiceState_rows TLSCheck DNSCheck TCPPingCheck LatencyCheck
              (receive m results) r) as (H1 & H2 & _).
  rewrite updateServiceState_spinners.
  destruct (String.eqb_spec (monitor.ServiceName r) name) as [<-|Hne].
  - rewrite H1, String.eqb_refl. split.
    + f_equal. apply rowOf_config, receive_config.
    + destruct (String.eqb_spec (monitor.Status_ r) monitor.StatusChecking) as [E|E].
      * split; [intros _; exact E|intros _; now eexists].
      * split; [intros [? ?]; discriminate|intros; contradiction].
  - rewrite (H2 name) by congruence.
    destruct (String.eqb_spec name (monitor.ServiceName r)) as [->|_]; [now destruct Hne|].
    exact IH.
Qed.

(** X20.  After any sequence of results, the dashboard shows for each
    service the last result received about it, and a spinner runs for
    that service exactly when this last result has the status checking;
    a service about which nothing was received keeps its row and its
    spinner; the names of the rows are those shown before, in their
    order, followed by the new names in the order of their first
    result. *)
Theorem receive_shows_latest (m : tui.Model) (results : list monitor.Result) :
  (forall name,
     rowNamed (receive m results) name =
       match latest results name with
       | Some r => Some (rowOf m r)
       | None => rowNamed m name
       end /\
     (is_Some (tui.spinners (receive m results) !! name) <->
      match latest results name with
      | Some r => monitor.Status_ r = monitor.StatusChecking
      | None => is_Some (tui.spinners m !! name)
      end)) /\
  rowNames (receive m results) =
    rowNames m ++
    filter (fun name => name ∉ rowNames m)
      (tui.dedupe (map monitor.ServiceName results)).
Proof.
  split; [intros name; apply receive_latest|].
  unfold tui.dedupe. rewrite dedupeFrom_seen.
  replace (∅ ∪ list_to_set (rowNames m) : gset string)
    with (list_to_set (rowNames m) : gset string) by set_solver.
  unfold tui.receive. revert m.
  induction results as [|r results IH]; intros m; cbn [foldl map tui.dedupeFrom].
  - now rewrite app_nil_r.
  - rewrite IH.
    destruct (updateServiceState_rows TLSCheck DNSCheck TCPPingCheck LatencyCheck m r)
      as (_ & _ & ->).
    destruct (bool_decide_reflect (monitor.ServiceName r ∈ rowNames m)) as [Hin|Hout].
    + now rewrite bool_decide_eq_true_2 by set_solver.
    + rewrite bool_decide_eq_false_2 by set_solver.
      rewrite <- app_assoc. cbn [app]. do 3 f_equal. set_solver.
Qed.

(** X21.  The dashboard after the results of one call of
    [checkService] that got past its first [select]: the row of the
    service shows the last result published.  That is the terminal
    result, healthy or unhealthy, with no spinner, when the checker is
    registered and the call is not cancelled at the end; the unknown
    checker result, with no spinner, when the type is not registered; and
    the interim checking result, with the spinner still running, when the
    call is cancelled at its last [select]. *)
Theorem dashboard_follows_check (run : monitor.Run) (mon : monitor.Monitor)
    (service : config.Service) (m : tui.Model) :
  monitor.ctxDoneAtDispatch run = false ->
  let events := snd (monitor.checkService run mon service) in
  let m' := receive m (monitor.published events) in
  let name := config.Name service in
  exists final,
    last (monitor.published events) = Some final /\
    rowNamed m' name = Some (rowOf m final) /\
    (is_Some (tui.spinners m' !! name) <->
     monitor.Status_ final = monitor.StatusChecking) /\
    match monitor.checkers mon !! monitor.checkerTypeOf service with
    | None => final = monitor.unknownResult run service
    | Some checker =>
        if monitor.ctxDoneAtPublish run then final = monitor.checkingResult run service
        else last (monitor.probed events) = Some final /\
             (monitor.Status_ final = monitor.StatusHealthy \/
              monitor.Status_ final = monitor.StatusUnhealthy)
    end.
Proof.
  intros Hd events m' name.
  assert (Hshow : forall first rest final,
            monitor.published events = first :: rest ->
            last (first :: rest) = Some final ->
            (forall x, x ∈ first :: rest -> monitor.ServiceName x = name) ->
            rowNamed m' name = Some (rowOf m final) /\
            (is_Some (tui.spinners m' !! name) <->
             monitor.Status_ final = monitor.StatusChecking)).
  { intros first rest final Hp Hl Hn.
    destruct (receive_latest m (monitor.published events) name) as (H1 & H2).
    fold m' in H1, H2.
    assert (E : latest (monitor.published events) name = Some final).
    { rewrite Hp. clear Hp H1 H2. revert first Hl Hn.
      induction rest as [|y rest IH]; intros first Hl Hn.
      - injection Hl as <-. cbn [latest].
        rewrite (Hn first) by (apply elem_of_cons; now left). now rewrite String.eqb_refl.
      - change (last (first :: y :: rest)) with (last (y :: rest)) in Hl.
        assert (E : latest (y :: rest) name = Some final).
        { apply IH; [exact Hl|]. intros x Hx. apply Hn, elem_of_cons. now right. }
        change (latest (first :: y :: rest) name)
          with (match latest (y :: rest) name with
                | Some x => Some x
                | None => if String.eqb (monitor.ServiceName first) name
                          then Some first else None
                end).
        now rewrite E. }
    now rewrite E in H1, H2. }
  destruct (monitor.checkers mon !! monitor.checkerTypeOf service) as [checker|] eqn:Hc.
  - destruct (monitor_facts.checkService_registered run mon service checker Hd Hc)
      as (k & Hk & _ & _ & _ & Hrun).
    set (t := monitor.Check checker (monitor.attemptWorld run (Z.of_nat k - 1)) service) in *.
    assert (Hpub : monitor.published events =
                   monitor.checkingResult run service ::
                   (if monitor.ctxDoneAtPublish run then [] else [t])).
    { unfold events. rewrite Hrun. cbn [snd monitor.published].
      rewrite !monitor_facts.published_app.
      destruct (monitor_facts.readings_attemptsTrace
                  (fun i => monitor.Check checker (monitor.attemptWorld run i) service) k 0)
        as (-> & _).
      destruct (monitor_facts.readings_Notify (snd (monitor.trackStatus mon t)))
        as (-> & _).
      now destruct (monitor.ctxDoneAtPublish run). }
    assert (Hprobe : last (monitor.probed events) = Some t).
    { unfold events. rewrite Hrun. cbn [snd monitor.probed].
      rewrite !monitor_facts.probed_app.
      destruct (monitor_facts.readings_attemptsTrace
                  (fun i => monitor.Check checker (monitor.attemptWorld run i) service) k 0)
        as (_ & _ & -> & _).
      destruct (monitor_facts.readings_Notify (snd (monitor.trackStatus mon t)))
        as (_ & -> & _).
      assert (Hnil : monitor.probed
                       (if monitor.ctxDoneAtPublish run then [] else [monitor.Send t]) = [])
        by now destruct (monitor.ctxDoneAtPublish run).
      rewrite Hnil, !app_nil_r.
      destruct k as [|k]; [lia|].
      rewrite seq_S, map_app. cbn [map]. rewrite last_snoc.
      unfold t. do 3 f_equal. lia. }
    destruct (monitor.ctxDoneAtPublish run) eqn:Hp.
    + exists (monitor.checkingResult run service). rewrite Hpub.
      split; [reflexivity|].
      destruct (Hshow _ _ (monitor.checkingResult run service) Hpub eq_refl) as (H1 & H2).
      { intros x ->%list_elem_of_singleton. reflexivity. }
      auto.
    + exists t. rewrite Hpub. split; [reflexivity|].
      destruct (Hshow _ _ t Hpub eq_refl) as (H1 & H2).
      { intros x [->|Hx]%elem_of_cons; [reflexivity|].
        apply list_elem_of_singleton in Hx as ->.
        apply monitor_facts.Check_ServiceName. }
      split; [exact H1|]. split; [exact H2|]. split; [exact Hprobe|].
      apply monitor_facts.Check_status.
  - assert (Hpub : monitor.published events =
                   [monitor.checkingResult run service; monitor.unknownResult run service]).
    { unfold events. now rewrite monitor_facts.checkService_unregistered. }
    exists (monitor.unknownResult run service). rewrite Hpub. split; [reflexivity|].
    destruct (Hshow _ _ (monitor.unknownResult run service) Hpub eq_refl) as (H1 & H2).
    { intros x [->|Hx]%elem_of_cons; [reflexivity|].
      now apply list_elem_of_singleton in Hx as ->. }
    auto.
Qed.

(** X22.  The monitor's registry knows its five checker types in lower
    case only, while the dashboard labels a row by the type compared
    without regard to case and takes every other type for HTTP.  So for a
    configured service whose type is neither empty nor one of the five
    lower-case names, the row shown after its check has the status
    unknown and the error of an unknown checker type, and yet carries the
    label of a check as its first label. *)
Theorem label_without_checker (cfg c : config.Config) (mon : monitor.Monitor)
    (run : monitor.Run) (service : config.Service) (m : tui.Model) :
  monitor.NewMonitor cfg = inl mon ->
  monitor.ctxDoneAtDispatch run = false ->
  config.Type_ service ∉ ["" ; "http"; "tcp"; "tls"; "dns"; "latency"] ->
  tui.monitorConfig m = Some c ->
  config.findName (config.Services c) (config.Name service) = Some service ->
  let m' := receive m (monitor.published (snd (monitor.checkService run mon service))) in
  exists row rest,
    rowNamed m' (config.Name service) = Some row /\
    tui.Status_ row = monitor.StatusUnknown /\
    tui.Error row = Some ("unknown checker type: " +:+ config.Type_ service) /\
    tui.IsChecking row = false /\
    tui.Checks row = baseLabel service :: rest /\
    baseLabel service ∈ baseLabels.
Proof.
  intros Hnew Hd Htype Hcfg Hfind m'.
  assert (Hnone : monitor.checkers mon !! monitor.checkerTypeOf service = None).
  { unfold monitor.checkerTypeOf.
    destruct (String.eqb_spec (config.Type_ service) "") as [E|E].
    - rewrite E in Htype. set_solver.
    - apply (monitor_facts.NewMonitor_registry cfg mon _ Hnew).
      intros Hin. apply Htype. apply list_elem_of_In in Hin. set_solver. }
  assert (Hrow : rowNamed m' (config.Name service) =
                 Some (rowOf m (monitor.unknownResult run service))).
  { destruct (receive_latest m
                (monitor.published (snd (monitor.checkService run mon service)))
                (config.Name service)) as (H1 & _).
    fold m' in H1. rewrite H1.
    rewrite monitor_facts.checkService_unregistered by assumption.
    cbn [snd monitor.published latest monitor.unknownResult monitor.ServiceName].
    now rewrite String.eqb_refl. }
  destruct (buildCheckLabels_head service) as (rest & Hlabels).
  pose proof (baseLabel_known service) as Hbase.
  exists (rowOf m (monitor.unknownResult run service)), rest.
  split; [exact Hrow|]. cbn [tui.rowOf tui.Status_ tui.Error tui.IsChecking tui.Checks
                            monitor.unknownResult monitor.Status_ monitor.Error
                            monitor.ServiceName].
  unfold tui.getServiceConfig. rewrite Hcfg, Hfind.
  assert (Ht : monitor.checkerTypeOf service = config.Type_ service).
  { unfold monitor.checkerTypeOf.
    destruct (String.eqb_spec (config.Type_ service) "") as [E|E]; [|reflexivity].
    rewrite E in Htype. set_solver. }
  rewrite Ht. repeat split; auto.
Qed.

End Flags.
End board_facts.

(* ===================================================================== *)
(** ** The assertion flag of [service:add] *)
(* ===================================================================== *)

Module cmd_facts.
Import props url_facts.

Lemma stringOfByte_nonempty (c : ascii) (s : string) : cmd.stringOfByte c +:+ s <> "".
Proof. unfold cmd.stringOfByte. now destruct (_ <? _)%nat. Qed.

Lemma append_nonempty (a b : string) : a <> "" -> a +:+ b <> "".
Proof. destruct a; [congruence|discriminate]. Qed.

Lemma append_nonempty_r (a b : string) : b <> "" -> a +:+ b <> "".
Proof. destruct a; [now rewrite append_empty_l|discriminate]. Qed.

Lemma eqb_empty (s : string) : s <> "" -> negb (String.eqb s "") = true.
Proof. now destruct s. Qed.

Lemma bytewise_ASCII (s : string) : isASCII s = true -> bytewise s = s.
Proof.
  induction s as [|a s IH]; [reflexivity|]. cbn [isASCII bytewise].
  intros [Ha Hs]%andb_true_iff. unfold cmd.stringOfByte. rewrite Ha, IH by exact Hs.
  reflexivity.
Qed.

Lemma bytewise_nonempty (s : string) : s <> "" -> bytewise s <> "".
Proof. destruct s; [congruence|]. intros _. apply stringOfByte_nonempty. Qed.

Lemma notEquals (c : ascii) : cmd.isEquals c = false <-> c <> "="%char.
Proof. unfold cmd.isEquals. now destruct (Ascii.eqb_spec c "="). Qed.

(** A part without an equals sign, closed by a single one. *)
Lemma splitLoop_segment (seg : string) (d : ascii) (rest : string) :
  forall (current : string) (parts : list string),
  has "=" seg = false -> cmd.isEquals d = false -> current +:+ bytewise seg <> "" ->
  cmd.splitLoop (seg +:+ String "=" (String d rest)) false current parts =
  cmd.splitLoop (String d rest) false "" (parts ++ [current +:+ bytewise seg]).
Proof.
  induction seg as [|a seg IH]; intros current parts Hseg Hd Hne.
  - rewrite append_empty_l. cbn [bytewise] in *. rewrite append_empty_r in *.
    cbn [cmd.splitLoop]. change (cmd.isEquals "=") with true. rewrite Hd.
    cbn [andb negb]. now rewrite eqb_empty.
  - rewrite has_cons in Hseg. apply orb_false_iff in Hseg as [Ha Hseg].
    rewrite append_cons. cbn [bytewise] in *. rewrite <- append_assoc3 in Hne.
    assert (Hstep : forall tail : string, tail <> "" ->
              cmd.splitLoop (String a tail) false current parts =
              cmd.splitLoop tail false (current +:+ cmd.stringOfByte a) parts).
    { intros [|x tail] Ht; [congruence|]. cbn [cmd.splitLoop].
      change (cmd.isEquals a) with (Ascii.eqb a "="). now rewrite Ha. }
    rewrite Hstep by (apply append_nonempty_r; discriminate).
    rewrite IH by assumption. now rewrite append_assoc3.
Qed.

(** A part without an equals sign, closed by a doubled one. *)
Lemma splitLoop_segment_doubled (seg rest : string) :
  forall (current : string) (parts : list string),
  has "=" seg = false -> current +:+ bytewise seg <> "" ->
  cmd.splitLoop (seg +:+ String "=" (String "=" rest)) false current parts =
  cmd.splitLoop (String "=" rest) true ""
    ((parts ++ [current +:+ bytewise seg]) ++ ["=="]).
Proof.
  induction seg as [|a seg IH]; intros current parts Hseg Hne.
  - rewrite append_empty_l. cbn [bytewise] in *. rewrite append_empty_r in *.
    cbn [cmd.splitLoop]. change (cmd.isEquals "=") with true.
    cbn [andb negb]. now rewrite eqb_empty.
  - rewrite has_cons in Hseg. apply orb_false_iff in Hseg as [Ha Hseg].
    rewrite append_cons. cbn [bytewise] in *. rewrite <- append_assoc3 in Hne.
    assert (Hstep : forall tail : string, tail <> "" ->
              cmd.splitLoop (String a tail) false current parts =
              cmd.splitLoop tail false (current +:+ cmd.stringOfByte a) parts).
    { intros [|x tail] Ht; [congruence|]. cbn [cmd.splitLoop].
      change (cmd.isEquals a) with (Ascii.eqb a "="). now rewrite Ha. }
    rewrite Hstep by (apply append_nonempty_r; discriminate).
    rewrite IH by assumption. now rewrite append_assoc3.
Qed.

Lemma splitLoop_nonempty (s : string) :
  forall (skip : bool) (current : string) (parts : list string),
  Forall (fun part => part <> "") parts ->
  Forall (fun part => part <> "") (cmd.splitLoop s skip current parts).
Proof.
  induction s as [|c s IH]; intros skip current parts Hparts; cbn [cmd.splitLoop].
  - destruct (String.eqb_spec current "") as [E|E]; cbn [negb]; [exact Hparts|].
    apply Forall_app. split; [exact Hparts|]. now apply Forall_singleton.
  - assert (Hflush : forall p, Forall (fun part => part <> "") p ->
              Forall (fun part => part <> "")
                (if negb (String.eqb current "") then p ++ [current] else p)).
    { intros p Hp. destruct (String.eqb_spec current "") as [E|E]; cbn [negb]; [exact Hp|].
      apply Forall_app. split; [exact Hp|]. now apply Forall_singleton. }
    destruct skip; [now apply IH|].
    destruct s as [|d s']; [now apply IH|].
    destruct (cmd.isEquals c && negb (cmd.isEquals d)).
    + destruct (String.eqb_spec current "") as [E|E]; cbn [negb]; apply IH; [exact Hparts|].
      apply Forall_app. split; [exact Hparts|]. now apply Forall_singleton.
    + destruct (cmd.isEquals c && cmd.isEquals d); [|now apply IH].
      destruct (String.eqb_spec current "") as [E|E]; cbn [negb]; apply IH.
      * apply Forall_app. split; [exact Hparts|]. now apply Forall_singleton.
      * apply Forall_app. split; [|now apply Forall_singleton].
        apply Forall_app. split; [exact Hparts|]. now apply Forall_singleton.
Qed.

Lemma splitLoop_length (s : string) :
  forall (skip : bool) (current : string) (parts : list string),
  (length (cmd.splitLoop s skip current parts) <=
   length parts +
   (if skip then match s with EmptyString => 0 | String _ s' => count "=" s' end
    else count "=" s) + 1)%nat.
Proof.
  induction s as [|c s IH]; intros skip current parts; cbn [cmd.splitLoop].
  - destruct (negb (String.eqb current "")); [rewrite length_app; cbn|]; destruct skip; lia.
  - destruct skip.
    + specialize (IH false current parts). cbn beta iota in IH. lia.
    + destruct s as [|d s'].
      * specialize (IH false (current +:+ cmd.stringOfByte c) parts).
        cbn [count] in *. lia.
      * cbn [count]. unfold cmd.isEquals.
        destruct (Ascii.eqb c "=") eqn:Ec, (Ascii.eqb d "=") eqn:Ed; cbn [andb negb].
        -- destruct (negb (String.eqb current ""));
             match goal with
             | |- context [cmd.splitLoop ?s ?k ?cur ?p] => specialize (IH k cur p)
             end; cbn [count] in IH; rewrite ?Ed in IH; rewrite ?length_app in IH;
             cbn [length] in IH; lia.
        -- destruct (negb (String.eqb current ""));
             match goal with
             | |- context [cmd.splitLoop ?s ?k ?cur ?p] => specialize (IH k cur p)
             end; cbn [count] in IH; rewrite ?Ed in IH; rewrite ?length_app in IH;
             cbn [length] in IH; lia.
        -- specialize (IH false (current +:+ cmd.stringOfByte c) parts).
           cbn [count] in IH; rewrite ?Ed in IH. lia.
        -- specialize (IH false (current +:+ cmd.stringOfByte c) parts).
           cbn [count] in IH; rewrite ?Ed in IH. lia.
Qed.

Lemma splitLoop_part (seg tail current : string) (parts : list string) :
  has "=" seg = false ->
  (exists d rest, tail = String d rest /\ cmd.isEquals d = false) ->
  current +:+ bytewise seg <> "" ->
  cmd.splitLoop (seg +:+ "=" +:+ tail) false current parts =
  cmd.splitLoop tail false "" (parts ++ [current +:+ bytewise seg]).
Proof.
  intros Hseg (d & rest & -> & Hd) Hne.
  rewrite append_cons, append_empty_l. now apply splitLoop_segment.
Qed.

Lemma splitLoop_part_doubled (seg current : string) (parts : list string) :
  has "=" seg = false ->
  current +:+ bytewise seg <> "" ->
  cmd.splitLoop (seg +:+ "=" +:+ "==") false current parts =
  parts ++ [current +:+ bytewise seg; "=="; "="].
Proof.
  intros Hseg Hne.
  change ("=" +:+ "==") with (String "=" (String "=" "=")).
  rewrite splitLoop_segment_doubled by assumption.
  cbn [cmd.splitLoop]. change (cmd.stringOfByte "=") with "=".
  rewrite append_empty_l. cbn [String.eqb negb Ascii.eqb Bool.eqb].
  now rewrite <- !app_assoc.
Qed.

Section Parse.
Variable ParseFloat : string -> option float.

(** X23.  The parts that [splitAssertionString] returns are never
    empty, and there is at most one more of them than the string has
    equals signs; so a value of the flag with fewer than two equals signs
    has fewer than three parts, and [service:add] drops it without an
    assertion and without an error. *)
Theorem assertion_flag_parts (s : string) :
  Forall (fun part => part <> "") (cmd.splitAssertionString s) /\
  (length (cmd.splitAssertionString s) <= count "=" s + 1)%nat /\
  ((count "=" s < 2)%nat ->
   forall rest, cmd.parseAssertions ParseFloat (s :: rest) =
                cmd.parseAssertions ParseFloat rest).
Proof.
  pose proof (splitLoop_length s false "" []) as Hlen. cbn [length] in Hlen.
  fold (cmd.splitAssertionString s) in Hlen.
  split; [apply splitLoop_nonempty, Forall_nil_2|]. split; [lia|].
  intros Hfew rest. cbn [cmd.parseAssertions].
  destruct (Nat.leb_spec 3 (length (cmd.splitAssertionString s))); [lia|reflexivity].
Qed.

(** X24.  A value of the flag written as path, equals sign, value,
    equals sign, operator, where path and value are not empty and hold no
    equals sign and the operator is one the checker knows, is read back as
    that assertion: the path, the value as [parseJSONValue] converts it,
    and the operator.  Path and value come back byte by byte converted to
    strings, which leaves ASCII text as it is.  The operator written with
    two equals signs leaves a fourth part behind, which is ignored. *)
Theorem assertion_flag_round_trip (path value operator : string) :
  path <> "" -> value <> "" ->
  has "=" path = false -> has "=" value = false ->
  operator ∈ operators ->
  let flag := path +:+ "=" +:+ value +:+ "=" +:+ operator in
  cmd.splitAssertionString flag =
    [bytewise path; bytewise value; operator] ++
    (if String.eqb operator "==" then ["="] else []) /\
  cmd.parseAssertions ParseFloat [flag] =
    [{| config.Path := bytewise path;
        config.Value := cmd.parseJSONValue ParseFloat (bytewise value);
        config.Operator := operator |}] /\
  (isASCII path = true -> isASCII value = true ->
   cmd.parseAssertions ParseFloat [flag] =
    [{| config.Path := path;
        config.Value := cmd.parseJSONValue ParseFloat value;
        config.Operator := operator |}]).
Proof.
  intros Hpath Hvalue Hp Hv Hop flag.
  assert (Hsplit : cmd.splitAssertionString flag =
            [bytewise path; bytewise value; operator] ++
            (if String.eqb operator "==" then ["="] else [])).
  { unfold flag, cmd.splitAssertionString.
    rewrite splitLoop_part; [|exact Hp| |].
    2:{ destruct value as [|v value]; [congruence|].
        rewrite has_cons in Hv. apply orb_false_iff in Hv as [Hv0 _].
        exists v, (value +:+ "=" +:+ operator). split; [reflexivity|exact Hv0]. }
    2:{ rewrite append_empty_l. now apply bytewise_nonempty. }
    rewrite append_empty_l. cbn [app].
    assert (Hv' : "" +:+ bytewise value <> "")
      by (rewrite append_empty_l; now apply bytewise_nonempty).
    unfold operators in Hop.
    repeat (apply elem_of_cons in Hop as [->|Hop]);
      [.. | now apply elem_of_nil in Hop].
    1: now rewrite splitLoop_part_doubled by assumption.
    all: rewrite splitLoop_part; [|exact Hv| |exact Hv'].
    all: try (eexists _, _; split; reflexivity).
    all: rewrite append_empty_l; reflexivity. }
  assert (Hparse : cmd.parseAssertions ParseFloat [flag] =
            [{| config.Path := bytewise path;
                config.Value := cmd.parseJSONValue ParseFloat (bytewise value);
                config.Operator := operator |}]).
  { cbn [cmd.parseAssertions]. rewrite Hsplit.
    now destruct (String.eqb operator "=="). }
  split; [exact Hsplit|]. split; [exact Hparse|].
  intros Apath Avalue. rewrite Hparse. now rewrite !bytewise_ASCII by assumption.
Qed.

End Parse.
End cmd_facts.

(* ===================================================================== *)
(** ** Further scenarios *)
(* ===================================================================== *)

Module more_scenarios.
Import config monitor props.

#[local] Existing Instance sample.formatting.
#[local] Existing Instance sample.parser.

(** X2, witness: a service named billing is added to the initial
    configuration and removed again. *)
Lemma AddService_then_RemoveService_witness :
  snd (AddService sample.initialConfig (sample.namedService "billing")) = None /\
  RemoveService (fst (AddService sample.initialConfig (sample.namedService "billing")))
    "billing" = (sample.initialConfig, None).
Proof.
  split; [reflexivity|].
  exact (config_removal.AddService_then_RemoveService sample.initialConfig
           (sample.namedService "billing") eq_refl).
Defined.

(** X3, witness: the service db is removed from the configuration of
    the sample dashboard, and can be added again. *)
Lemma RemoveService_frees_name_witness :
  NoDup (names board.cfg) /\
  snd (RemoveService board.cfg "db") = None /\
  names (fst (RemoveService board.cfg "db")) = ["api"] /\
  snd (AddService (fst (RemoveService board.cfg "db")) board.tcpService) = None.
Proof.
  assert (Hnd : NoDup (names board.cfg)).
  { apply (bool_decide_unpack _). vm_compute. exact I. }
  split; [exact Hnd|]. split; [reflexivity|]. split; [reflexivity|].
  destruct (config_removal.RemoveService_frees_name board.cfg "db" Hnd eq_refl)
    as (_ & _ & _ & H).
  exact (H board.tcpService eq_refl).
Defined.

(** X6, witness: the service is down at the first check and answers at
    the third attempt of the second; the second check raises the
    recovery notification. *)
Lemma steady_state_notification_witness :
  let run1 := sample.run (fun _ => sample.down) in
  let run2 := sample.run sample.flaky in
  let m := sample.started 3 [sample.svc] in
  let first := checkService run1 m sample.svc in
  let second := checkService run2 (fst first) sample.svc in
  ctxDoneAtDispatch run1 = false /\ ctxDoneAtDispatch run2 = false /\
  checkers m !! checkerTypeOf sample.svc = Some sample.http /\
  notify.enabled (notifier m) = true /\
  exists t1 t2,
    last (probed (snd first)) = Some t1 /\
    last (probed (snd second)) = Some t2 /\
    length (notified (snd second)) =
      (if String.eqb (Status_ t1) (Status_ t2) then 0 else 1)%nat.
Proof.
  intros run1 run2 m first second.
  split; [reflexivity|]. split; [reflexivity|]. split; [reflexivity|].
  split; [reflexivity|].
  exact (monitor_cycles.steady_state_notification run1 run2 m sample.svc sample.http
           eq_refl eq_refl eq_refl eq_refl).
Defined.

(** X7, witness: a monitor whose tracker is empty checks a service
    that is down. *)
Lemma untracked_service_is_silent_witness :
  serviceStatuses (sample.mon 3 []) !! Name sample.svc = None /\
  notified (snd (checkService (sample.run (fun _ => sample.down)) (sample.mon 3 [])
                   sample.svc)) = [].
Proof.
  split; [reflexivity|].
  exact (monitor_cycles.untracked_service_is_silent (sample.run (fun _ => sample.down))
           (sample.mon 3 []) sample.svc eq_refl).
Defined.

(** X8, witness: the server answers 500 after 120 ms; the latency
    checker finds the service healthy. *)
Lemma Latency_verdict_witness :
  let w := sample.world 500 "oops" 0 in
  let s := sample.service "latency" in
  NewRequestWithContext w (methodOf s) (fullURL s) = None /\
  Do w (5 * time.Second) (newRequest s) =
    inl {| resp_StatusCode := 500; resp_Body := inl "oops" |} /\
  0 <= LatencyThreshold s /\
  Status_ (LatencyChecker_Check (5 * time.Second) w s) = StatusHealthy.
Proof.
  intros w s.
  assert (Hthr : 0 <= LatencyThreshold s) by (intros H; vm_compute in H; discriminate H).
  split; [reflexivity|]. split; [reflexivity|]. split; [exact Hthr|].
  exact (proj1 (checker_facts.Latency_verdict (5 * time.Second) w s
                  {| resp_StatusCode := 500; resp_Body := inl "oops" |}
                  eq_refl eq_refl Hthr)).
Defined.

(** X9, witness: nothing can be reached. *)
Lemma request_failures_agree_witness :
  ((forall resp, Do sample.down (5 * time.Second) (newRequest sample.svc) <> inl resp) \/
   NewRequestWithContext sample.down (methodOf sample.svc) (fullURL sample.svc) <> None) /\
  LatencyChecker_Check (5 * time.Second) sample.down sample.svc =
  HTTPChecker_Check (5 * time.Second) sample.down sample.svc.
Proof.
  assert (H : (forall resp,
                 Do sample.down (5 * time.Second) (newRequest sample.svc) <> inl resp) \/
              NewRequestWithContext sample.down (methodOf sample.svc) (fullURL sample.svc)
                <> None).
  { left. intros resp. discriminate. }
  split; [exact H|].
  exact (proj1 (checker_facts.request_failures_agree (5 * time.Second) sample.down
                  sample.svc H)).
Defined.

(** X11, witness: the first failure of the sample service, which
    cannot be reached. *)
Lemma failure_toast_explains_witness :
  let m := sample.started 3 [sample.svc] in
  let result := Check sample.http sample.down sample.svc in
  notify.enabled (notifier m) = true /\
  Status_ result = StatusUnhealthy /\
  (statusOf m (Name sample.svc) = StatusHealthy \/
   statusOf m (Name sample.svc) = StatusUnknown) /\
  map notify.text (snd (trackStatus m result)) =
    ["Connection failed: context deadline exceeded"].
Proof.
  intros m result.
  split; [reflexivity|]. split; [reflexivity|]. split; [right; reflexivity|].
  destruct (toast_facts.failure_toast_explains m sample.http sample.down sample.svc
              eq_refl eq_refl (or_intror eq_refl)) as (toast & Hs & _ & _ & Ht & _).
  exact (eq_trans (f_equal (map notify.text) Hs) (f_equal (fun t => [t]) Ht)).
Defined.

(** X13, witness: an https URL with a path, without and with a port. *)
Lemma host_of_url_witness :
  has ":" "https" = false /\ has ":" "api.example.com" = false /\
  has "/" "api.example.com" = false /\
  tlsAddress "https://api.example.com/health" = "api.example.com:443" /\
  dnsHost "https://api.example.com/health" = "api.example.com" /\
  tlsAddress "https://api.example.com:8443/health" = "api.example.com:8443" /\
  dnsHost "https://api.example.com:8443/health" = "api.example.com".
Proof.
  split; [reflexivity|]. split; [reflexivity|]. split; [reflexivity|].
  destruct (url_facts.host_of_url "https" "api.example.com" "/health"
              eq_refl eq_refl eq_refl
              (or_intror (ex_intro _ "health" eq_refl))) as ((_ & H1 & H2) & Hport).
  split; [exact H1|]. split; [exact H2|].
  assert (Hne : "8443" <> "") by discriminate.
  destruct (Hport "8443" Hne eq_refl eq_refl) as (_ & H3 & H4).
  split; [exact H3|exact H4].
Defined.

(** X17, witness: two rows, the first selected; a step back selects
    the last. *)
Lemma moveSelection_wraps_witness :
  tui.len board.busy <> 0 /\
  - 2 ^ 63 <= tui.selectedIndex board.busy + -1 < 2 ^ 63 /\
  tui.selectedIndex (tui.moveSelection board.busy (-1)) = 1.
Proof.
  assert (Hlen : tui.len board.busy <> 0) by (intros H; vm_compute in H; discriminate H).
  assert (Hsum : - 2 ^ 63 <= tui.selectedIndex board.busy + -1 < 2 ^ 63)
    by (split; [intros H; vm_compute in H; discriminate H|reflexivity]).
  split; [exact Hlen|]. split; [exact Hsum|].
  exact (f_equal tui.selectedIndex
           (proj1 (tui_facts.moveSelection_wraps board.busy (-1) Hlen Hsum))).
Defined.

(** X21, witness: a check of the sample service cancelled at its last
    [select] leaves the row checking and the spinner running. *)
Lemma dashboard_follows_check_witness :
  let m' :=
    tui.receive board.noCheck board.noCheck board.noCheck board.noCheck board.fresh
      (published (snd (checkService board.cancelled (sample.started 3 [sample.svc])
                         sample.svc))) in
  ctxDoneAtDispatch board.cancelled = false /\
  exists final,
    rowNamed m' "api" =
      Some (tui.rowOf board.noCheck board.noCheck board.noCheck board.noCheck
              board.fresh final) /\
    Status_ final = StatusChecking /\
    is_Some (tui.spinners m' !! "api").
Proof.
  intros m'. split; [reflexivity|].
  destruct (board_facts.dashboard_follows_check
              board.noCheck board.noCheck board.noCheck board.noCheck
              board.cancelled (sample.started 3 [sample.svc]) sample.svc board.fresh
              eq_refl) as (final & _ & Hrow & Hspin & Hfinal).
  assert (E : final = checkingResult board.cancelled sample.svc) by exact Hfinal.
  exists final. split; [exact Hrow|].
  assert (Hs : Status_ final = StatusChecking) by (rewrite E; reflexivity).
  split; [exact Hs|exact (proj2 Hspin Hs)].
Defined.

(** X22, witness: the service db has the type TCP in capitals. *)
Lemma label_without_checker_witness :
  let m' :=
    tui.receive board.noCheck board.noCheck board.noCheck board.noCheck board.fresh
      (published (snd (checkService (sample.run sample.flaky) (sample.monOf board.cfg)
                         board.tcpService))) in
  NewMonitor board.cfg = inl (sample.monOf board.cfg) /\
  (Type_ board.tcpService ∉ ["" ; "http"; "tcp"; "tls"; "dns"; "latency"]) /\
  exists row rest,
    rowNamed m' "db" = Some row /\
    tui.Status_ row = StatusUnknown /\
    tui.Error row = Some "unknown checker type: TCP" /\
    tui.Checks row = "TCP" :: rest.
Proof.
  intros m'.
  assert (Hnew : NewMonitor board.cfg = inl (sample.monOf board.cfg)) by reflexivity.
  assert (Htype : Type_ board.tcpService ∉ ["" ; "http"; "tcp"; "tls"; "dns"; "latency"]).
  { apply (bool_decide_unpack _). vm_compute. exact I. }
  split; [exact Hnew|]. split; [exact Htype|].
  destruct (board_facts.label_without_checker
              board.noCheck board.noCheck board.noCheck board.noCheck
              board.cfg board.cfg (sample.monOf board.cfg) (sample.run sample.flaky)
              board.tcpService board.fresh Hnew eq_refl Htype eq_refl eq_refl)
    as (row & rest & H1 & H2 & H3 & _ & H5 & _).
  exists row, rest. split; [exact H1|]. split; [exact H2|]. split; [exact H3|exact H5].
Defined.

(** X24, witness: the flag value status=200===. *)
Lemma assertion_flag_round_trip_witness :
  "status" <> "" /\ "200" <> "" /\
  has "=" "status" = false /\ has "=" "200" = false /\
  "==" ∈ operators /\
  cmd.splitAssertionString "status=200===" = ["status"; "200"; "=="; "="] /\
  cmd.parseAssertions board.ParseFloat ["status=200==="] =
    [{| Path := "status"; Value := VFloat64 (time.float64 200); Operator := "==" |}].
Proof.
  assert (Hop : "==" ∈ operators) by (apply (bool_decide_unpack _); vm_compute; exact I).
  assert (Hpath : "status" <> "") by discriminate.
  assert (Hvalue : "200" <> "") by discriminate.
  split; [exact Hpath|]. split; [exact Hvalue|].
  split; [reflexivity|]. split; [reflexivity|]. split; [exact Hop|].
  destruct (cmd_facts.assertion_flag_round_trip board.ParseFloat "status" "200" "=="
              Hpath Hvalue eq_refl eq_refl Hop)
    as (H1 & _ & H3).
  split; [exact H1|exact (H3 eq_refl eq_refl)].
Defined.

End more_scenarios.
